(** * Bundle stock tracker: API route and admin page

    A shallow embedding of

    - [src/pages/api/bundles/stock.ts]: the [GET /api/bundles/stock] route
      (module [StockApi]);
    - the bundle stock page, a React component (module [StockPage]),

    followed by the properties of them that the specification states.

    Numbers.  The catalog's ids, inventory levels and quantities are
    JavaScript numbers that hold integers; they are modelled as [Z], an
    integer standing for the double that holds it ([JS.is_double]).  The one
    place where the code leaves the integers is the division
    [Math.floor(stock / quantity)]: the quotient is rounded to a double
    before [Math.floor] is applied, and the result is a [JS.number], a finite
    integer, an infinity or NaN.

    Strings.  A [string] is the UTF-8 text of a JavaScript string.

    Effects.  The route awaits the BigCommerce client and the session
    collaborator.  A run threads a state: the world the collaborators answer
    from, and the trace of what the route asked for.  A piece of the route
    returns a value, throws, or is still in the pagination loop when its fuel
    is spent (the only loop that is not bounded by a list). *)

From Stdlib Require Import ZArith List String Ascii Bool Lia.
Import ListNotations.

Local Open Scope string_scope.
Local Open Scope Z_scope.

(** ** JavaScript primitives used by the two files *)

Module JS.

(** The values [Math.floor(a / b)] and [Math.min(...)] can take. *)
Inductive number : Type :=
| Num (z : Z)
| PosInfinity
| NegInfinity
| NaN.

(** *** Division

    JavaScript numbers are IEEE 754 doubles: [a / b] is the quotient of the
    two numbers rounded to the nearest double, that is to 53 significant
    bits, a tie going to the even significand.  The quotient of two non-zero
    integers that doubles hold is at least 2^-1024 and below 2^1024 in
    absolute value: it does not overflow, it is not rounded to zero, and
    where it is subnormal its floor is 0 or -1 whatever the rounding.  The
    range of the exponent is therefore left out. *)

Definition two52 : Z := 4503599627370496.
Definition two53 : Z := 9007199254740992.

(** [n / d] rounded to the nearest integer, a tie going to the even one. *)
Definition half_even (n d : Z) : Z :=
  let m := n / d in
  let r := n mod d in
  if 2 * r <? d then m
  else if d <? 2 * r then m + 1
  else if Z.even m then m else m + 1.

(** [a * 2^k] and [b], written as two integers whatever the sign of [k]. *)
Definition scale_num (a k : Z) : Z := a * 2 ^ Z.max k 0.
Definition scale_den (b k : Z) : Z := b * 2 ^ Z.max (- k) 0.

(** The [k] for which [a * 2^k / b] lies between 2^52 and 2^53, for positive
    [a] and [b]: the quotient has the binary exponent [52 - k]. *)
Definition shift (a b : Z) : Z :=
  let k := 52 - (Z.log2 a - Z.log2 b) in
  if scale_num a k <? two52 * scale_den b k then k + 1 else k.

(** The 53 bits of [a / b]: the double nearest to the quotient is
    [significand a b * 2^(- shift a b)]. *)
Definition significand (a b : Z) : Z :=
  half_even (scale_num a (shift a b)) (scale_den b (shift a b)).

(** The floor and the ceiling of the double [a / b], for positive [a] and
    [b]. *)
Definition floor_quotient (a b : Z) : Z :=
  let k := shift a b in
  if 0 <=? k then significand a b / 2 ^ k else significand a b * 2 ^ (- k).

Definition ceil_quotient (a b : Z) : Z :=
  let k := shift a b in
  if 0 <=? k then - ((- significand a b) / 2 ^ k) else significand a b * 2 ^ (- k).

(** [Math.floor(a / b)] for two numbers that hold the integers [a] and [b].
    A division by zero does not throw in JavaScript: [a / 0] is [Infinity],
    [-Infinity] or [NaN], which [Math.floor] returns unchanged.  The
    rounding is symmetric, so that the floor of a negative quotient is the
    opposite of the ceiling of its absolute value. *)
Definition floor_div (a b : Z) : number :=
  if b =? 0 then
    if a =? 0 then NaN else if 0 <? a then PosInfinity else NegInfinity
  else if a =? 0 then Num 0
  else if Bool.eqb (0 <? a) (0 <? b) then Num (floor_quotient (Z.abs a) (Z.abs b))
  else Num (- ceil_quotient (Z.abs a) (Z.abs b)).

(** The integers that a double holds: those written with 53 significant
    bits.  Every integer below 2^53 in absolute value is one. *)
Definition is_double (z : Z) : bool :=
  Z.abs z mod 2 ^ Z.max (Z.log2 (Z.abs z) - 52) 0 =? 0.

(** [x || d] for an optional number: [undefined], [null] and [0] are falsy. *)
Definition or_num (x : option Z) (d : Z) : Z :=
  match x with
  | Some z => if z =? 0 then d else z
  | None => d
  end.

(** [s || d] for a string: the empty string is falsy. *)
Definition or_str (s : string) (d : string) : string :=
  if String.eqb s "" then d else s.

(** The lower case of an ASCII letter. *)
Definition lower_char (c : ascii) : ascii :=
  let n := nat_of_ascii c in
  if ((65 <=? n) && (n <=? 90))%nat then ascii_of_nat (n + 32) else c.

(** The lower case of a capital letter of the Latin-1 supplement (U+00C0 to
    U+00DE without the sign U+00D7), given by the byte that follows 0xC3 in
    its UTF-8 text: the small letter is 32 code points further. *)
Definition lower_latin1 (c : ascii) : ascii :=
  let n := nat_of_ascii c in
  if ((128 <=? n) && (n <=? 158) && negb (n =? 151))%nat
  then ascii_of_nat (n + 32) else c.

(** [lead] says that the byte before [s] is 0xC3. *)
Fixpoint lower_after (lead : bool) (s : string) : string :=
  match s with
  | EmptyString => EmptyString
  | String c s' =>
      String (if lead then lower_latin1 c else lower_char c)
             (lower_after (nat_of_ascii c =? 195)%nat s')
  end.

(** [s.toLowerCase()], for the letters of ASCII and of the Latin-1
    supplement; the letters outside these two blocks are left as they are.  (No
    letter outside ASCII has a letter of ["bundle"] as its lower case, so
    that the comparison of a category name with ["bundle"] does not depend
    on them.) *)
Definition toLowerCase (s : string) : string := lower_after false s.

(** [s.includes(q)]. *)
Fixpoint includes (s q : string) : bool :=
  String.prefix q s ||
  match s with
  | EmptyString => false
  | String _ s' => includes s' q
  end.

(** [l.join(sep)]. *)
Definition join (sep : string) (l : list string) : string :=
  String.concat sep l.

(** [Math.min(...l)]: [Infinity] for no argument. *)
Definition Math_min (l : list Z) : number :=
  match l with
  | [] => PosInfinity
  | x :: l' => Num (fold_left Z.min l' x)
  end.

(** [x === n] for a finite [x]. *)
Definition strict_eq (x : Z) (n : number) : bool :=
  match n with
  | Num z => x =? z
  | _ => false
  end.

(** A parsed JSON document. *)
#[warnings="-register-all"]
Inductive json : Type :=
| JNull
| JBool (b : bool)
| JNum (z : Z)
| JStr (s : string)
| JArr (l : list json)
| JObj (fields : list (string * json)).

(** The bytes 0x80 to 0xBF continue a UTF-8 code point. *)
Definition is_continuation (c : ascii) : bool :=
  let n := nat_of_ascii c in ((128 <=? n) && (n <=? 191))%nat.

(** The code points of [s], each with its continuation bytes, after the
    continuation bytes [s] starts with. *)
Fixpoint code_points_from (s : string) : string * list string :=
  match s with
  | EmptyString => (EmptyString, [])
  | String c s' =>
      let (tail, points) := code_points_from s' in
      if is_continuation c then (String c tail, points)
      else (EmptyString, String c tail :: points)
  end.

Definition code_points (s : string) : list string :=
  let (stray, points) := code_points_from s in
  if String.eqb stray "" then points else stray :: points.

(** The values [for (const x of v)] visits: the elements of an array, the
    code points of a string, each as a string; any other JSON value is not
    iterable and the loop throws a [TypeError]. *)
Definition iterate (v : json) : option (list json) :=
  match v with
  | JArr l => Some l
  | JStr s => Some (map JStr (code_points s))
  | _ => None
  end.

End JS.

(** ** The API route [src/pages/api/bundles/stock.ts] *)

Module StockApi.

(** *** Catalog entities, as the route reads them *)

Record Category : Type := {
  cat_id : Z;
  cat_name : option string
}.

Record OptionValue : Type := { label : string }.

Record Variant : Type := {
  v_id : Z;
  v_sku : string;
  v_inventory_level : option Z;
  v_option_values : option (list OptionValue)
}.

Record Product : Type := {
  p_id : Z;
  p_name : string;
  p_sku : string;
  p_inventory_level : option Z;
  p_variants : option (list Variant)
}.

Record Metafield : Type := {
  namespace : string;
  key : string;
  value : string
}.

(** One page of [/catalog/products]: [response.data] and
    [response.meta?.pagination?.total_pages]. *)
Record ProductsPage : Type := {
  data : list Product;
  total_pages : option Z
}.

(** What [parseLinkedProduct] returns. *)
Record LinkedProduct : Type := {
  lp_productId : Z;
  lp_variantId : option Z;
  lp_quantity : Z
}.

Record BundleComponent : Type := {
  productId : Z;
  variantId : option Z;
  name : string;
  sku : string;
  quantity : Z;
  stock : Z;
  maxBundles : JS.number
}.

Record BundleStockInfo : Type := {
  b_id : Z;
  b_name : string;
  b_sku : string;
  b_stock : Z;
  components : list BundleComponent
}.

Record Session : Type := {
  accessToken : string;
  storeHash : string
}.

Record NextApiRequest : Type := {
  method : string;
  query_context : string
}.

Inductive Body : Type :=
| Message (message : string)
| Bundles (bundles : list BundleStockInfo).

(** [res.status(status).json(body)]. *)
Record Response : Type := {
  status : Z;
  body : Body
}.

(** *** The calls to the BigCommerce client

    [bc.get(url)] is called with six kinds of URL. *)
Inductive Request : Type :=
| Categories
    (* /catalog/categories?limit=250 *)
| Products (page : Z) (category : Z)
    (* /catalog/products?page=..&limit=250&include=variants&categories:in=.. *)
| ProductMetafields (product : Z)
    (* /catalog/products/../metafields *)
| VariantMetafields (product variant : Z)
    (* /catalog/products/../variants/../metafields *)
| VariantDetail (product variant : Z)
    (* /catalog/products/../variants/.. *)
| ProductDetail (product : Z).
    (* /catalog/products/.. *)

(** The [data] of the answer (the whole answer for a page of products). *)
Definition Reply (r : Request) : Type :=
  match r with
  | Categories => list Category
  | Products _ _ => ProductsPage
  | ProductMetafields _ => list Metafield
  | VariantMetafields _ _ => list Metafield
  | VariantDetail _ _ => Variant
  | ProductDetail _ => Product
  end.

Inductive exn : Type :=
| ApiError (r : Request)
| SyntaxError (src : string)
| TypeError
| SessionError.

(** What the route did, in order: the requests it sent and the linked lists
    it parsed, each with its outcome. *)
Inductive Event : Type :=
| Fetched (r : Request) (ok : bool)
| Parsed (src : string) (ok : bool).

(** The outcome of a piece of the route: a value, an exception, or the
    pagination loop still running when the fuel is spent. *)
Inductive result (A : Type) : Type :=
| Ok (a : A)
| Throw (e : exn)
| Timeout.
Arguments Ok {A} a.
Arguments Throw {A} e.
Arguments Timeout {A}.

Section Route.

(** The state of the remote store and of the session collaborator. *)
Variable W : Type.

(** A client answers a request from the current state of the world, or
    fails (the promise of [bc.get] rejects). *)
Definition Client : Type := forall r : Request, W -> option (Reply r) * W.

(** [JSON.parse]: [None] when it throws a [SyntaxError]. *)
Variable JSON_parse : string -> option JS.json.

(** [parseLinkedProduct] of [@lib/bundle-calculator], which is not among
    the sources: taken as a parameter. *)
Variable parseLinkedProduct : JS.json -> LinkedProduct.

(** [getSession] and [bigcommerceClient] of [@lib/auth], not among the
    sources: parameters.  [getSession] answers [None] when it throws,
    [Some None] when there is no session. *)
Variable getSession : NextApiRequest -> W -> option (option Session) * W.
Variable bigcommerceClient : string -> string -> Client.

Record State : Type := {
  world : W;
  trace : list Event
}.

Definition M (A : Type) : Type := State -> result A * State.

Definition ret {A} (a : A) : M A := fun s => (Ok a, s).

Definition bind {A B} (m : M A) (k : A -> M B) : M B :=
  fun s =>
    match m s with
    | (Ok a, s') => k a s'
    | (Throw e, s') => (Throw e, s')
    | (Timeout, s') => (Timeout, s')
    end.

Definition throw {A} (e : exn) : M A := fun s => (Throw e, s).

Definition timeout {A} : M A := fun s => (Timeout, s).

(** [try { m } catch (error) { h }]. *)
Definition try_catch {A} (m : M A) (h : exn -> M A) : M A :=
  fun s =>
    match m s with
    | (Throw e, s') => h e s'
    | r => r
    end.

Definition log (e : Event) (s : State) (w : W) : State :=
  {| world := w; trace := trace s ++ [e] |}.

(** [await bc.get(url)]. *)
Definition get (bc : Client) (r : Request) : M (Reply r) :=
  fun s =>
    match bc r (world s) with
    | (Some a, w) => (Ok a, log (Fetched r true) s w)
    | (None, w) => (Throw (ApiError r), log (Fetched r false) s w)
    end.

(** [JSON.parse(src)]. *)
Definition parse (src : string) : M JS.json :=
  fun s =>
    match JSON_parse src with
    | Some v => (Ok v, log (Parsed src true) s (world s))
    | None => (Throw (SyntaxError src), log (Parsed src false) s (world s))
    end.

(** [await getSession(req)]. *)
Definition session_of (req : NextApiRequest) : M (option Session) :=
  fun s =>
    match getSession req (world s) with
    | (Some o, w) => (Ok o, {| world := w; trace := trace s |})
    | (None, w) => (Throw SessionError, {| world := w; trace := trace s |})
    end.

Notation "x <- m ;; k" := (bind m (fun x => k))
  (at level 61, m at next level, right associativity).

(** [for (const x of l) { acc = body(acc, x) }]: a loop whose body updates
    the local array [acc] and may await or throw. *)
Fixpoint for_of {A S : Type} (body : S -> A -> M S) (l : list A) (acc : S) : M S :=
  match l with
  | [] => ret acc
  | x :: l' => acc' <- body acc x ;; for_of body l' acc'
  end.

(** [arr.push(x)]. *)
Definition push {A : Type} (arr : list A) (x : A) : list A := arr ++ [x].

(** [for (const x of v)] on a parsed JSON value. *)
Definition iterable (v : JS.json) : M (list JS.json) :=
  match JS.iterate v with
  | Some l => ret l
  | None => throw TypeError
  end.

(** [f.key === 'is_bundle' && f.namespace === 'bundle']. *)
Definition is_bundle_field (f : Metafield) : bool :=
  String.eqb (key f) "is_bundle" && String.eqb (namespace f) "bundle".

(** [f.key === 'linked_product_ids' && f.namespace === 'bundle']. *)
Definition is_linked_field (f : Metafield) : bool :=
  String.eqb (key f) "linked_product_ids" && String.eqb (namespace f) "bundle".

(** [metafields.find(is_bundle_field)?.value === 'true']. *)
Definition isBundle (metafields : list Metafield) : bool :=
  match find is_bundle_field metafields with
  | Some f => String.eqb (value f) "true"
  | None => false
  end.

(** [option_values?.map(ov => ov.label).join(' - ') || 'Variant']. *)
Definition variantName (option_values : option (list OptionValue)) : string :=
  match option_values with
  | Some ovs => JS.or_str (JS.join " - " (map label ovs)) "Variant"
  | None => "Variant"
  end.

(** The component pushed in the [catch] branch (lines 134-142, 213-221). *)
Definition unknownComponent (lp : LinkedProduct) : BundleComponent :=
  {| productId := lp_productId lp;
     variantId := lp_variantId lp;
     name := "Unknown Component";
     sku := "N/A";
     quantity := lp_quantity lp;
     stock := 0;
     maxBundles := JS.Num 0 |}.

(** The component pushed for a variant reference (lines 109-117). *)
Definition variantComponent (lp : LinkedProduct) (vid : Z)
    (variant : Variant) (parentProduct : Product) : BundleComponent :=
  {| productId := lp_productId lp;
     variantId := Some vid;
     name := (p_name parentProduct ++ " - " ++ variantName (v_option_values variant))%string;
     sku := v_sku variant;
     quantity := lp_quantity lp;
     stock := JS.or_num (v_inventory_level variant) 0;
     maxBundles :=
       JS.floor_div (JS.or_num (v_inventory_level variant) 0) (lp_quantity lp) |}.

(** The component pushed for a product reference (lines 122-129). *)
Definition productComponent (lp : LinkedProduct)
    (componentProduct : Product) : BundleComponent :=
  {| productId := lp_productId lp;
     variantId := None;
     name := p_name componentProduct;
     sku := p_sku componentProduct;
     quantity := lp_quantity lp;
     stock := JS.or_num (p_inventory_level componentProduct) 0;
     maxBundles :=
       JS.floor_div (JS.or_num (p_inventory_level componentProduct) 0)
                    (lp_quantity lp) |}.

(** [if (variantId)]: the variant id when it is truthy. *)
Definition truthy_id (variantId : option Z) : option Z :=
  match variantId with
  | Some v => if v =? 0 then None else Some v
  | None => None
  end.

(** The body of the component loop of a product bundle (lines 95-143). *)
Definition productBundleComponent (bc : Client)
    (components : list BundleComponent) (linkedProduct : JS.json)
    : M (list BundleComponent) :=
  let lp := parseLinkedProduct linkedProduct in
  try_catch
    (match truthy_id (lp_variantId lp) with
     | Some vid =>
         variant <- get bc (VariantDetail (lp_productId lp) vid) ;;
         parentProduct <- get bc (ProductDetail (lp_productId lp)) ;;
         ret (push components (variantComponent lp vid variant parentProduct))
     | None =>
         componentProduct <- get bc (ProductDetail (lp_productId lp)) ;;
         ret (push components (productComponent lp componentProduct))
     end)
    (fun _ => ret (push components (unknownComponent lp))).

(** The body of the component loop of a variant bundle (lines 177-222). *)
Definition variantBundleComponent (bc : Client)
    (components : list BundleComponent) (linkedProduct : JS.json)
    : M (list BundleComponent) :=
  let lp := parseLinkedProduct linkedProduct in
  try_catch
    (match truthy_id (lp_variantId lp) with
     | Some compVariantId =>
         compVariant <- get bc (VariantDetail (lp_productId lp) compVariantId) ;;
         parentProduct <- get bc (ProductDetail (lp_productId lp)) ;;
         ret (push components
                (variantComponent lp compVariantId compVariant parentProduct))
     | None =>
         componentProduct <- get bc (ProductDetail (lp_productId lp)) ;;
         ret (push components (productComponent lp componentProduct))
     end)
    (fun _ => ret (push components (unknownComponent lp))).

(** Lines 79-154: the product-level bundle of [product], pushed on [bundles]. *)
Definition productBundle (bc : Client) (product : Product)
    (bundles : list BundleStockInfo) : M (list BundleStockInfo) :=
  productMetafields <- get bc (ProductMetafields (p_id product)) ;;
  if isBundle productMetafields then
    match find is_linked_field productMetafields with
    | Some linkedField =>
        linkedProductIds <- parse (value linkedField) ;;
        items <- iterable linkedProductIds ;;
        components <- for_of (productBundleComponent bc) items [] ;;
        ret (push bundles
               {| b_id := p_id product;
                  b_name := p_name product;
                  b_sku := p_sku product;
                  b_stock := JS.or_num (p_inventory_level product) 0;
                  components := components |})
    | None => ret bundles
    end
  else ret bundles.

(** Lines 159-237: the body of the loop over the variants of [product]. *)
Definition variantBundle (bc : Client) (product : Product)
    (bundles : list BundleStockInfo) (variant : Variant)
    : M (list BundleStockInfo) :=
  variantMetafields <- get bc (VariantMetafields (p_id product) (v_id variant)) ;;
  if isBundle variantMetafields then
    match find is_linked_field variantMetafields with
    | Some linkedField =>
        linkedProductIds <- parse (value linkedField) ;;
        items <- iterable linkedProductIds ;;
        components <- for_of (variantBundleComponent bc) items [] ;;
        ret (push bundles
               {| b_id := v_id variant;
                  b_name := (p_name product ++ " - "
                             ++ variantName (v_option_values variant))%string;
                  b_sku := v_sku variant;
                  b_stock := JS.or_num (v_inventory_level variant) 0;
                  components := components |})
    | None => ret bundles
    end
  else ret bundles.

(** Lines 157-239: [if (product.variants?.length > 0) for (...)]. *)
Definition variantBundles (bc : Client) (product : Product)
    (bundles : list BundleStockInfo) : M (list BundleStockInfo) :=
  match p_variants product with
  | Some variants =>
      if 0 <? Z.of_nat (List.length variants)
      then for_of (variantBundle bc product) variants bundles
      else ret bundles
  | None => ret bundles
  end.

(** Lines 77-240: the body of the loop over the products. *)
Definition processProduct (bc : Client) (bundles : list BundleStockInfo)
    (product : Product) : M (list BundleStockInfo) :=
  bundles' <- productBundle bc product bundles ;;
  variantBundles bc product bundles'.

(** Lines 49-70: the pagination loop.  Every turn of the [while] takes one
    unit of [fuel]; the loop is entered with [hasMorePages = true]. *)
Fixpoint fetchPages (fuel : nat) (bc : Client) (categoryId : Z)
    (allProducts : list Product) (currentPage : Z) : M (list Product) :=
  match fuel with
  | O => timeout
  | S fuel' =>
      response <- get bc (Products currentPage categoryId) ;;
      let allProducts := (allProducts ++ data response)%list in
      let totalPages := JS.or_num (total_pages response) 1 in
      let hasMorePages := currentPage <? totalPages in
      if hasMorePages
      then fetchPages fuel' bc categoryId allProducts (currentPage + 1)
      else ret allProducts
  end.

(** [String(c?.name || '').toLowerCase() === 'bundle']. *)
Definition is_bundle_category (c : Category) : bool :=
  String.eqb
    (JS.toLowerCase (match cat_name c with Some n => JS.or_str n "" | None => "" end))
    "bundle".

Definition respond (st : Z) (b : Body) : M Response :=
  ret {| status := st; body := b |}.

(** The route, lines 23-247. *)
Definition handler (fuel : nat) (req : NextApiRequest) : M Response :=
  if negb (String.eqb (method req) "GET") then
    respond 405 (Message "Method not allowed")
  else
    try_catch
      (session <- session_of req ;;
       match session with
       | None => respond 401 (Message "Unauthorized")
       | Some session =>
           let bc := bigcommerceClient (accessToken session) (storeHash session) in
           categories <- get bc Categories ;;
           match find is_bundle_category categories with
           | None => respond 200 (Bundles [])
           | Some bundleCategory =>
               products <- fetchPages fuel bc (cat_id bundleCategory) [] 1 ;;
               bundles <- for_of (processProduct bc) products [] ;;
               respond 200 (Bundles bundles)
           end
       end)
      (fun _ => respond 500 (Message "Error fetching bundle stock")).

(** *** Vocabulary of the statements about the route *)

(** [q] is the floor of [stock / quantity], for a positive [quantity]. *)
Definition is_floor (stock quantity q : Z) : Prop :=
  q * quantity <= stock < (q + 1) * quantity.

(** The detail fetch of a reference from the world [w], as lines 98-120
    perform it: the variant and then its parent product when the reference
    has a variant id, the product alone otherwise.  [Some inv] is the
    inventory level read when every request succeeds, [None] says that one
    failed. *)
Definition detailFetch (bc : Client) (lp : LinkedProduct) (w : W)
    : option (option Z) :=
  match truthy_id (lp_variantId lp) with
  | Some vid =>
      match bc (VariantDetail (lp_productId lp) vid) w with
      | (Some variant, w1) =>
          match bc (ProductDetail (lp_productId lp)) w1 with
          | (Some _, _) => Some (v_inventory_level variant)
          | (None, _) => None
          end
      | (None, _) => None
      end
  | None =>
      match bc (ProductDetail (lp_productId lp)) w with
      | (Some componentProduct, _) => Some (p_inventory_level componentProduct)
      | (None, _) => None
      end
  end.

(** What a resolved component holds when its detail fetch read the inventory
    level [inv]. *)
Definition resolved (lp : LinkedProduct) (inv : option Z) (c : BundleComponent)
    : Prop :=
  productId c = lp_productId lp /\
  variantId c = truthy_id (lp_variantId lp) /\
  quantity c = lp_quantity lp /\
  stock c = JS.or_num inv 0 /\
  maxBundles c = JS.floor_div (JS.or_num inv 0) (lp_quantity lp).

(** The entities of a catalog that can be bundles, in iteration order: each
    product, followed by its variants in variant-list order. *)
Inductive Entity : Type :=
| EProduct (product : Product)
| EVariant (product : Product) (variant : Variant).

(** The request for the metafields of an entity (lines 79 and 159-161), and
    what the client answers to it. *)
Definition metafieldsRequest (e : Entity) : Request :=
  match e with
  | EProduct product => ProductMetafields (p_id product)
  | EVariant product variant => VariantMetafields (p_id product) (v_id variant)
  end.

Definition fetchMetafields (bc : Client) (e : Entity) (w : W)
    : option (list Metafield) * W :=
  match e with
  | EProduct product => bc (ProductMetafields (p_id product)) w
  | EVariant product variant =>
      bc (VariantMetafields (p_id product) (v_id variant)) w
  end.

(** The part of the route that may push the bundle record of an entity, and
    the body of its component loop. *)
Definition entityBundle (bc : Client) (e : Entity)
    (bundles : list BundleStockInfo) : M (list BundleStockInfo) :=
  match e with
  | EProduct product => productBundle bc product bundles
  | EVariant product variant => variantBundle bc product bundles variant
  end.

Definition resolver (e : Entity) (bc : Client)
    : list BundleComponent -> JS.json -> M (list BundleComponent) :=
  match e with
  | EProduct _ => productBundleComponent bc
  | EVariant _ _ => variantBundleComponent bc
  end.

(** The state in which the component loop of an entity starts: its
    metafields were fetched, leaving the world [w], and the linked list [src]
    was parsed. *)
Definition loopStart (e : Entity) (s : State) (w : W) (src : string) : State :=
  log (Parsed src true) (log (Fetched (metafieldsRequest e) true) s w) w.

(** The pages the catalog answers to [n] successive requests for the
    category, from page number [page] on and from the world [w], with the
    world they leave. *)
Fixpoint pagesFrom (bc : Client) (categoryId : Z) (n : nat) (page : Z) (w : W)
    : list ProductsPage * W :=
  match n with
  | O => ([], w)
  | S n' =>
      match bc (Products page categoryId) w with
      | (Some response, w') =>
          let (rest, w'') := pagesFrom bc categoryId n' (page + 1) w' in
          (response :: rest, w'')
      | (None, w') => ([], w')
      end
  end.

(** The successful requests for the pages [page], [page + 1], ... ([n] of
    them), as they appear in the trace. *)
Fixpoint pageRequests (categoryId : Z) (n : nat) (page : Z) : list Event :=
  match n with
  | O => []
  | S n' => Fetched (Products page categoryId) true
            :: pageRequests categoryId n' (page + 1)
  end.

Definition variantsOf (product : Product) : list Variant :=
  match p_variants product with
  | Some variants => variants
  | None => []
  end.

Definition entities (products : list Product) : list Entity :=
  flat_map
    (fun product => EProduct product :: map (EVariant product) (variantsOf product))
    products.

(** [b] is the bundle record of the entity [e] (its components apart). *)
Definition recordOf (e : Entity) (b : BundleStockInfo) : Prop :=
  match e with
  | EProduct product =>
      b_id b = p_id product /\ b_name b = p_name product /\
      b_sku b = p_sku product /\
      b_stock b = JS.or_num (p_inventory_level product) 0
  | EVariant product variant =>
      b_id b = v_id variant /\
      b_name b = (p_name product ++ " - "
                  ++ variantName (v_option_values variant))%string /\
      b_sku b = v_sku variant /\
      b_stock b = JS.or_num (v_inventory_level variant) 0
  end.

(** What an entity contributes to the output: nothing, or its record. *)
Definition contributes (e : Entity) (o : option BundleStockInfo) : Prop :=
  match o with
  | Some b => recordOf e b
  | None => True
  end.

(** The records that are present, in order. *)
Definition present {A : Type} (l : list (option A)) : list A :=
  flat_map (fun o => match o with Some a => [a] | None => [] end) l.

(** What the entities of a list contribute, one after the other, from the
    state [s] to the state [s']: each entity contributes what its part of
    the route pushes on an empty list, whatever the entities before it
    contributed. *)
Inductive contributions (bc : Client)
  : list Entity -> State -> list (option BundleStockInfo) -> State -> Prop :=
| contributions_nil (s : State) :
    contributions bc [] s [] s
| contributions_cons (e : Entity) (es : list Entity) (s s1 s' : State)
    (o : option BundleStockInfo) (outs : list (option BundleStockInfo)) :
    entityBundle bc e [] s = (Ok (present [o]), s1) ->
    contributes e o ->
    contributions bc es s1 outs s' ->
    contributions bc (e :: es) s (o :: outs) s'.

(** [const bc = bigcommerceClient(accessToken, storeHash)] (lines 34-35). *)
Definition clientOf (session : Session) : Client :=
  bigcommerceClient (accessToken session) (storeHash session).

(** The state of a run once the session was resolved, leaving the world
    [w0], and the categories were fetched, leaving the world [w1]. *)
Definition categoriesFetched (s : State) (w1 : W) : State :=
  {| world := w1; trace := (trace s ++ [Fetched Categories true])%list |}.

(** The failures that the route does not catch per component: a failed
    request for the categories, a page of products or the metafields of a
    product or variant, and a linked list that does not parse. *)
Definition fatal (e : Event) : Prop :=
  match e with
  | Fetched Categories false => True
  | Fetched (Products _ _) false => True
  | Fetched (ProductMetafields _) false => True
  | Fetched (VariantMetafields _ _) false => True
  | Parsed _ false => True
  | _ => False
  end.

(** The events that are not a request for a page of products. *)
Definition notPage (e : Event) : Prop :=
  match e with
  | Fetched (Products _ _) _ => False
  | _ => True
  end.

(** [m] extends the trace, with events that satisfy [P], and throws when one
    of the events it adds satisfies [F]. *)
Definition obeys {A : Type} (P F : Event -> Prop) (m : M A) : Prop :=
  forall s : State,
  exists new,
    trace (snd (m s)) = (trace s ++ new)%list /\
    Forall P new /\
    (Exists F new -> exists e, fst (m s) = Throw e).

Definition serverError : Response :=
  {| status := 500; body := Message "Error fetching bundle stock" |}.

(** *** Vocabulary of further statements about the route *)

(** A linked list that parsed to a value that [for ... of] cannot iterate. *)
Definition notIterable (e : Event) : Prop :=
  match e with
  | Parsed src true =>
      match JSON_parse src with
      | Some v => JS.iterate v = None
      | None => False
      end
  | _ => False
  end.

(** The events that make the [try] of the route throw. *)
Definition cause (e : Event) : Prop := fatal e \/ notIterable e.

(** [m] extends the trace and, when it throws, has added an event of [C]. *)
Definition blames {A : Type} (C : Event -> Prop) (m : M A) : Prop :=
  forall s : State,
  exists new,
    trace (snd (m s)) = (trace s ++ new)%list /\
    ((exists x, fst (m s) = Throw x) -> Exists C new).

(** The requests for metafields. *)
Definition isMetafields (e : Event) : bool :=
  match e with
  | Fetched (ProductMetafields _) _ => true
  | Fetched (VariantMetafields _ _) _ => true
  | _ => false
  end.

Definition notMetafields (e : Event) : Prop :=
  match e with
  | Fetched (ProductMetafields _) _ => False
  | Fetched (VariantMetafields _ _) _ => False
  | _ => True
  end.

(** The events that are not a page request for another category. *)
Definition pageOf (categoryId : Z) (e : Event) : Prop :=
  match e with
  | Fetched (Products _ category) _ => category = categoryId
  | _ => True
  end.

(** [hasMorePages], as line 67-68 compute it from the answer to the request
    for the page [page]. *)
Definition hasMore (page : Z) (response : ProductsPage) : bool :=
  page <? JS.or_num (total_pages response) 1.

(** The pages [pages], requested from the page number [page] on, all report
    further pages. *)
Fixpoint allMore (page : Z) (pages : list ProductsPage) : Prop :=
  match pages with
  | [] => True
  | response :: rest => hasMore page response = true /\ allMore (page + 1) rest
  end.

(** All the pages report further pages but the last one, which exists. *)
Fixpoint stopsAtLast (page : Z) (pages : list ProductsPage) : Prop :=
  match pages with
  | [] => False
  | [response] => hasMore page response = false
  | response :: rest =>
      hasMore page response = true /\ stopsAtLast (page + 1) rest
  end.

(** The route once the session is there (lines 35-242), with the client
    [bc]. *)
Definition authorized (fuel : nat) (bc : Client) : M Response :=
  bind (get bc Categories)
    (fun categories =>
       match find is_bundle_category categories with
       | None => respond 200 (Bundles [])
       | Some bundleCategory =>
           bind (fetchPages fuel bc (cat_id bundleCategory) [] 1)
             (fun products =>
                bind (for_of (processProduct bc) products [])
                  (fun bundles => respond 200 (Bundles bundles)))
       end).

(** The four answers of the route. *)
Definition answer (r : Response) : Prop :=
  r = {| status := 405; body := Message "Method not allowed" |} \/
  r = {| status := 401; body := Message "Unauthorized" |} \/
  r = {| status := 500; body := Message "Error fetching bundle stock" |} \/
  exists bundles, r = {| status := 200; body := Bundles bundles |}.

(** The component [c] answers the reference [j]: it has its product id and
    its quantity. *)
Definition answersReference (j : JS.json) (c : BundleComponent) : Prop :=
  productId c = lp_productId (parseLinkedProduct j) /\
  quantity c = lp_quantity (parseLinkedProduct j).

(** The detail requests that a reference can leave in the trace: the
    product alone without a (truthy) variant id; with one, the variant and,
    when that succeeded, its parent product. *)
Definition detailRequests (lp : LinkedProduct) (new : list Event) : Prop :=
  match truthy_id (lp_variantId lp) with
  | None => exists ok, new = [Fetched (ProductDetail (lp_productId lp)) ok]
  | Some vid =>
      new = [Fetched (VariantDetail (lp_productId lp) vid) false] \/
      exists ok,
        new = [Fetched (VariantDetail (lp_productId lp) vid) true;
               Fetched (ProductDetail (lp_productId lp)) ok]
  end.

(** The request for metafields that succeeded, of an entity. *)
Definition metafieldsFetched (e : Entity) : Event :=
  Fetched (metafieldsRequest e) true.

End Route.

Arguments world {W} s.
Arguments trace {W} s.
Arguments ret {W A} a s.
Arguments bind {W A B} m k s.
Arguments throw {W A} e s.
Arguments timeout {W A} s.
Arguments try_catch {W A} m h s.
Arguments log {W} e s w.
Arguments get {W} bc r s.
Arguments session_of {W} getSession req s.
Arguments for_of {W A S} body l acc.
Arguments iterable {W} v.
Arguments respond {W} st b.
Arguments detailFetch {W} bc lp w.
Arguments fetchMetafields {W} bc e w.
Arguments loopStart {W} e s w src.
Arguments pagesFrom {W} bc categoryId n page w.
Arguments categoriesFetched {W} s w1.
Arguments obeys {W A} P F m.
Arguments blames {W A} C m.

End StockApi.

(** ** The bundle stock page (React component) *)

Module StockPage.

(** The two interfaces of the page.  Their numbers are finite integers, as
    the route sends them for well-formed references. *)

Record BundleComponent : Type := {
  productId : Z;
  variantId : option Z;
  name : string;
  sku : string;
  quantity : Z;
  stock : Z;
  maxBundles : Z
}.

Record Bundle : Type := {
  id : Z;
  b_name : string;
  b_sku : string;
  b_stock : Z;
  components : list BundleComponent;
  isExpanded : option bool
}.

(** The state the component holds with [useState]. *)
Record PageState : Type := {
  bundles : list Bundle;
  isLoading : bool;
  error : option string;
  searchQuery : string
}.

(** The rows of the table.  A bundle row shows ['-'] for quantity and
    maxBundles and has no [isComponent] or [isLimiting] field; the id of a
    component row is the text [`${bundle.id}-component-${idx}`], kept here as
    its two numbers. *)
Inductive Item : Type :=
| BundleRow (id : Z) (name sku : string) (stock : Z) (bundle : Bundle)
| ComponentRow (bundleId : Z) (idx : nat) (name sku : string)
    (stock quantity maxBundles : Z) (isLimiting : bool).

(** Truthiness of the optional flag: [undefined] is falsy. *)
Definition truthy (b : option bool) : bool :=
  match b with
  | Some true => true
  | _ => false
  end.

(** [{ ...bundle, isExpanded: !bundle.isExpanded }]. *)
Definition flipExpanded (bundle : Bundle) : Bundle :=
  {| id := id bundle;
     b_name := b_name bundle;
     b_sku := b_sku bundle;
     b_stock := b_stock bundle;
     components := components bundle;
     isExpanded := Some (negb (truthy (isExpanded bundle))) |}.

(** [setBundles(f)] with an updater function. *)
Definition setBundles (f : list Bundle -> list Bundle) (st : PageState) : PageState :=
  {| bundles := f (bundles st);
     isLoading := isLoading st;
     error := error st;
     searchQuery := searchQuery st |}.

(** Lines 58-66. *)
Definition toggleExpand (bundleId : Z) (st : PageState) : PageState :=
  setBundles
    (fun prev =>
       map (fun bundle =>
              if id bundle =? bundleId then flipExpanded bundle else bundle)
           prev)
    st.

(** The predicate of [bundles.filter] (lines 90-98). *)
Definition matchesSearch (searchQuery : string) (bundle : Bundle) : bool :=
  if String.eqb searchQuery "" then true
  else
    let query := JS.toLowerCase searchQuery in
    JS.includes (JS.toLowerCase (b_name bundle)) query
    || JS.includes (JS.toLowerCase (b_sku bundle)) query.

(** Lines 102-104. *)
Definition minMaxBundles (bundle : Bundle) : JS.number :=
  if 0 <? Z.of_nat (List.length (components bundle))
  then JS.Math_min (map maxBundles (components bundle))
  else JS.Num 0.

Definition push {A : Type} (arr : list A) (x : A) : list A := arr ++ [x].

(** [bundle.components.forEach((component, idx) => items.push(...))]
    (lines 120-133), from index [idx] on. *)
Fixpoint componentRows (bundle : Bundle) (min : JS.number)
    (cs : list BundleComponent) (idx : nat) (items : list Item) : list Item :=
  match cs with
  | [] => items
  | component :: cs' =>
      let isLimiting := JS.strict_eq (maxBundles component) min in
      componentRows bundle min cs' (S idx)
        (push items
           (ComponentRow (id bundle) idx (name component) (sku component)
              (stock component) (quantity component) (maxBundles component)
              isLimiting))
  end.

(** The body of [filteredBundles.forEach] (lines 100-135). *)
Definition bundleRows (items : list Item) (bundle : Bundle) : list Item :=
  let min := minMaxBundles bundle in
  let items :=
    push items
      (BundleRow (id bundle) (b_name bundle) (b_sku bundle) (b_stock bundle) bundle) in
  if truthy (isExpanded bundle)
  then componentRows bundle min (components bundle) 0 items
  else items.

(** Lines 86-138. *)
Definition getTableItems (st : PageState) : list Item :=
  let filteredBundles := filter (matchesSearch (searchQuery st)) (bundles st) in
  fold_left bundleRows filteredBundles [].

(** *** Vocabulary of the statements about the page *)

(** [m] is the minimum of the non-empty list [l]. *)
Definition isMinimum (m : Z) (l : list Z) : Prop :=
  In m l /\ forall x, In x l -> m <= x.

(** [m] is the limiting threshold of a bundle: the minimum of maxBundles
    over its components, 0 when it has none. *)
Definition isThreshold (m : Z) (bundle : Bundle) : Prop :=
  match components bundle with
  | [] => m = 0
  | _ :: _ => isMinimum m (map maxBundles (components bundle))
  end.

(** The rows of the components [cs], numbered from [idx], where a component
    is marked as limiting exactly when its maxBundles is [m]. *)
Fixpoint markedRows (bundle : Bundle) (m : Z) (cs : list BundleComponent)
    (idx : nat) : list Item :=
  match cs with
  | [] => []
  | c :: cs' =>
      ComponentRow (id bundle) idx (name c) (sku c) (stock c) (quantity c)
        (maxBundles c) (maxBundles c =? m)
      :: markedRows bundle m cs' (S idx)
  end.

(** The rows of a bundle: its own row, then, when it is expanded, the rows
    of its components. *)
Definition rowsOf (threshold : Bundle -> Z) (bundle : Bundle) : list Item :=
  BundleRow (id bundle) (b_name bundle) (b_sku bundle) (b_stock bundle) bundle
  :: (if truthy (isExpanded bundle)
      then markedRows bundle (threshold bundle) (components bundle) 0
      else []).

(** The threshold as a number: what [minMaxBundles] holds when it is finite. *)
Definition thresholdOf (bundle : Bundle) : Z :=
  match minMaxBundles bundle with
  | JS.Num m => m
  | _ => 0
  end.

(** *** The rest of the page *)

(** Lines 140-148. *)
Definition getFilteredBundlesCount (st : PageState) : nat :=
  if String.eqb (searchQuery st) "" then List.length (bundles st)
  else
    let query := JS.toLowerCase (searchQuery st) in
    List.length
      (filter
         (fun bundle =>
            JS.includes (JS.toLowerCase (b_name bundle)) query
            || JS.includes (JS.toLowerCase (b_sku bundle)) query)
         (bundles st)).

(** [setSearchQuery(e.target.value)] (line 173). *)
Definition setSearchQuery (value : string) (st : PageState) : PageState :=
  {| bundles := bundles st;
     isLoading := isLoading st;
     error := error st;
     searchQuery := value |}.

Definition setError (err : string) (st : PageState) : PageState :=
  {| bundles := bundles st;
     isLoading := isLoading st;
     error := Some err;
     searchQuery := searchQuery st |}.

Definition setIsLoading (b : bool) (st : PageState) : PageState :=
  {| bundles := bundles st;
     isLoading := b;
     error := error st;
     searchQuery := searchQuery st |}.

(** The body that [res.json()] resolves to: [data.message], [data.bundles]. *)
Record Data : Type := {
  message : option string;
  data_bundles : option (list Bundle)
}.

(** What the request of the page comes to: [fetch] rejects with an error;
    or it resolves to a response with its [ok] flag, whose [json()] rejects
    or resolves to the body. *)
Inductive Outcome : Type :=
| Rejected (err : string)
| Responded (ok : bool) (json : string + Data).

(** [data.message || 'Failed to fetch bundle stock']. *)
Definition errorMessage (data : Data) : string :=
  match message data with
  | Some m => JS.or_str m "Failed to fetch bundle stock"
  | None => "Failed to fetch bundle stock"
  end.

(** [data.bundles || []]: an array, even empty, is truthy. *)
Definition bundlesOf (data : Data) : list Bundle :=
  match data_bundles data with
  | Some l => l
  | None => []
  end.

(** Lines 38-53: the [try], its [catch] and its [finally], on the outcome
    of the request. *)
Definition fetchBundleStock (outcome : Outcome) (st : PageState) : PageState :=
  let st' :=
    match outcome with
    | Rejected err => setError err st
    | Responded ok (inl err) => setError err st
    | Responded ok (inr data) =>
        if negb ok then setError (errorMessage data) st
        else setBundles (fun _ => bundlesOf data) st
    end in
  setIsLoading false st'.

(** Lines 35-56: the effect.  Nothing happens without a context; otherwise
    the request is sent for the context and its outcome handled. *)
Definition effect (fetch : string -> Outcome) (context : option string)
    (st : PageState) : PageState :=
  match context with
  | Some c => if String.eqb c "" then st else fetchBundleStock (fetch c) st
  | None => st
  end.

(** What the component returns (lines 150-235): the loading indicator, the
    error message, or the panel with, under the search box, the line
    "Showing X of Y bundles" when there is a query, and the table or the box
    "No bundles found". *)
Inductive Content : Type :=
| Table (items : list Item)
| NoBundlesFound.

Inductive View : Type :=
| Loading
| ErrorMessage (error : string)
| Panel (showing : option (nat * nat)) (content : Content).

Definition render (st : PageState) : View :=
  if isLoading st then Loading
  else
    match error st with
    | Some e => ErrorMessage e
    | None =>
        Panel
          (if String.eqb (searchQuery st) "" then None
           else Some (getFilteredBundlesCount st, List.length (bundles st)))
          (if 0 <? Z.of_nat (List.length (bundles st))
           then Table (getTableItems st)
           else NoBundlesFound)
    end.

(** The state of the page when it mounts (lines 28-31). *)
Definition initial : PageState :=
  {| bundles := []; isLoading := true; error := None; searchQuery := "" |}.

(** *** Vocabulary of further statements about the page *)

(** The bundles of the bundle rows of a table, in order. *)
Definition shownBundles (items : list Item) : list Bundle :=
  flat_map
    (fun item =>
       match item with
       | BundleRow _ _ _ _ bundle => [bundle]
       | ComponentRow _ _ _ _ _ _ _ _ => []
       end)
    items.

(** The number of rows a bundle takes in the table. *)
Definition rowCount (bundle : Bundle) : nat :=
  S (if truthy (isExpanded bundle) then List.length (components bundle) else 0).

(** Two bundles that differ at most in how the flag [isExpanded] is
    written ([undefined] or [false]). *)
Definition sameBundle (b b' : Bundle) : Prop :=
  id b = id b' /\ b_name b = b_name b' /\ b_sku b = b_sku b' /\
  b_stock b = b_stock b' /\ components b = components b' /\
  truthy (isExpanded b) = truthy (isExpanded b').

(** The request succeeded: the response is [ok] and its body was read. *)
Definition succeeded (outcome : Outcome) : option Data :=
  match outcome with
  | Responded true (inr data) => Some data
  | _ => None
  end.

(** The error that the [catch] receives when the request did not succeed. *)
Definition caught (outcome : Outcome) : string :=
  match outcome with
  | Rejected err => err
  | Responded _ (inl err) => err
  | Responded _ (inr data) => errorMessage data
  end.

End StockPage.

(** ** The parser of the linked references *)

Module BundleCalculator.
Import StockApi.

(** [v.name] for a parsed JSON value: the field of an object, [undefined]
    for any other value. *)
Definition field (name : string) (v : JS.json) : option JS.json :=
  match v with
  | JS.JObj fields =>
      option_map snd (find (fun member => String.eqb (fst member) name) fields)
  | _ => None
  end.

Definition number_of (v : option JS.json) : option Z :=
  match v with
  | Some (JS.JNum z) => Some z
  | _ => None
  end.

(** Modelled from the spec: [parseLinkedProduct] of
    [@lib/bundle-calculator], which is not among the sources.  The
    specification describes a linked reference as a JSON object "resolvable
    to {productId, variantId?, quantity}", parsed to a productId (required),
    a variantId (optional) and a quantity (required): the model reads these
    three fields of the object.  The specification gives no meaning to a
    reference without a productId or a quantity; the model reads a missing
    number as 0. *)
Definition parseLinkedProduct (linkedProduct : JS.json) : LinkedProduct :=
  {| lp_productId :=
       match number_of (field "productId" linkedProduct) with
       | Some z => z
       | None => 0
       end;
     lp_variantId := number_of (field "variantId" linkedProduct);
     lp_quantity :=
       match number_of (field "quantity" linkedProduct) with
       | Some z => z
       | None => 0
       end |}.

End BundleCalculator.

(** ** A concrete store, to run the route on *)

Module Scenario.
Import StockApi.

(** A linked reference, as a parsed JSON object. *)
Definition reference (productId : Z) (variantId : option Z) (quantity : Z)
    : JS.json :=
  JS.JObj
    (("productId", JS.JNum productId)
     :: match variantId with
        | Some v => [("variantId", JS.JNum v)]
        | None => []
        end
     ++ [("quantity", JS.JNum quantity)])%list.

(** JSON text: the quotation mark, a member of an object, an object and an
    array. *)
Definition quote : string := String (ascii_of_nat 34) EmptyString.

Definition member (name value : string) : string :=
  (quote ++ name ++ quote ++ ":" ++ value)%string.

Definition object (members : list string) : string :=
  ("{" ++ String.concat "," members ++ "}")%string.

Definition array (elements : list string) : string :=
  ("[" ++ String.concat "," elements ++ "]")%string.

(** The linked lists of the store.  The first one is the list of the
    specification's example; the second one refers to the missing product
    99 and has references with the quantities -2 and 0; the third one takes
    5 units of product 40. *)
Definition linked10 : string :=
  array [ object [member "productId" "20"; member "quantity" "2"];
          object [member "productId" "21"; member "variantId" "5";
                  member "quantity" "1"] ].

Definition linked111 : string :=
  array [ object [member "productId" "30"; member "quantity" "2"];
          object [member "productId" "99"; member "quantity" "1"];
          object [member "productId" "20"; member "quantity" "-2"];
          object [member "productId" "20"; member "quantity" "0"];
          object [member "productId" "21"; member "quantity" "0"] ].

Definition linked15 : string :=
  array [ object [member "productId" "40"; member "quantity" "5"] ].

(** A linked list that is cut short. *)
Definition garbledList : string :=
  ("[{" ++ member "productId" "20")%string.

(** [JSON.parse] on the texts of the store; every other text is taken as
    malformed. *)
Definition JSON_parse (src : string) : option JS.json :=
  if String.eqb src linked10 then
    Some (JS.JArr [reference 20 None 2; reference 21 (Some 5) 1])
  else if String.eqb src linked111 then
    Some (JS.JArr [reference 30 None 2; reference 99 None 1;
                   reference 20 None (-2); reference 20 None 0;
                   reference 21 None 0])
  else if String.eqb src linked15 then
    Some (JS.JArr [reference 40 None 5])
  else if String.eqb src "[]" then Some (JS.JArr [])
  else None.

(** The session is read off the [context] query parameter: none when it is
    empty, an exception on ["boom"], otherwise a session for the store of
    that name. *)
Definition getSession (req : NextApiRequest) (w : unit)
    : option (option Session) * unit :=
  if String.eqb (query_context req) "" then (Some None, w)
  else if String.eqb (query_context req) "boom" then (None, w)
  else (Some (Some {| accessToken := "token"; storeHash := query_context req |}), w).

Definition mf (k v : string) : Metafield :=
  {| namespace := "bundle"; key := k; value := v |}.

Definition variant111 : Variant :=
  {| v_id := 111; v_sku := "Z-RED"; v_inventory_level := Some 4;
     v_option_values := Some [ {| label := "Red" |}; {| label := "Large" |} ] |}.

Definition variant112 : Variant :=
  {| v_id := 112; v_sku := "Z-BLUE"; v_inventory_level := None;
     v_option_values := None |}.

Definition P1 : Product :=
  {| p_id := 10; p_name := "P1"; p_sku := "BDL-1";
     p_inventory_level := Some 5; p_variants := Some [] |}.

Definition P2 : Product :=
  {| p_id := 11; p_name := "Zeta"; p_sku := "ZETA";
     p_inventory_level := Some 1; p_variants := Some [variant111; variant112] |}.

Definition P3 : Product :=
  {| p_id := 12; p_name := "Alpha"; p_sku := "ALPHA";
     p_inventory_level := None; p_variants := None |}.

Definition simple (i : Z) (n s : string) (inv : option Z) : Product :=
  {| p_id := i; p_name := n; p_sku := s; p_inventory_level := inv;
     p_variants := None |}.

(** The store ["shop"]: category 7 is the bundle category, with three pages
    of one product each.  The store ["broken"]: its bundle category holds
    product 13, whose metafields cannot be fetched; in the store ["garbled"]
    the linked list of product 14 is cut short.  The store ["bare"] has a
    bundle category without products.  In the store ["depot"], the bundle
    15 takes 5 units of product 40, of which 11258999068426244 are in
    stock.  Any other store has no category. *)
Definition shop (r : Request) : option (Reply r) :=
  match r as r0 return option (Reply r0) with
  | Categories =>
      Some [ {| cat_id := 3; cat_name := Some "Shirts" |};
             {| cat_id := 7; cat_name := Some "Bundle" |} ]
  | Products page category =>
      if category =? 7 then
        if page =? 1 then Some {| data := [P1]; total_pages := Some 3 |}
        else if page =? 2 then Some {| data := [P2]; total_pages := Some 3 |}
        else if page =? 3 then Some {| data := [P3]; total_pages := Some 3 |}
        else Some {| data := []; total_pages := Some 3 |}
      else None
  | ProductMetafields product =>
      if product =? 10 then
        Some [ mf "is_bundle" "true"; mf "linked_product_ids" linked10 ]
      else if product =? 11 then Some []
      else if product =? 12 then Some [ mf "is_bundle" "true" ]
      else None
  | VariantMetafields product variant =>
      if variant =? 111 then
        Some [ mf "linked_product_ids" linked111;
               mf "is_bundle" "true" ]
      else if variant =? 112 then Some [ mf "is_bundle" "true" ]
      else None
  | VariantDetail product variant =>
      if (product =? 21) && (variant =? 5) then
        Some {| v_id := 5; v_sku := "C21-5"; v_inventory_level := Some 3;
                v_option_values := Some [ {| label := "Small" |} ] |}
      else None
  | ProductDetail product =>
      if product =? 20 then Some (simple 20 "Widget" "C20" (Some 10))
      else if product =? 21 then Some (simple 21 "Gadget" "C21" (Some 0))
      else if product =? 30 then Some (simple 30 "Bolt" "C30" (Some 7))
      else None
  end.

Definition broken (r : Request) : option (Reply r) :=
  match r as r0 return option (Reply r0) with
  | Categories => Some [ {| cat_id := 9; cat_name := Some "BUNDLE" |} ]
  | Products page category =>
      Some {| data := [simple 13 "Lost" "LOST" None]; total_pages := None |}
  | _ => None
  end.

Definition garbled (r : Request) : option (Reply r) :=
  match r as r0 return option (Reply r0) with
  | Categories => Some [ {| cat_id := 9; cat_name := Some "Bundle" |} ]
  | Products page category =>
      Some {| data := [simple 14 "Kit" "KIT" (Some 2)]; total_pages := Some 1 |}
  | ProductMetafields product =>
      Some [ mf "is_bundle" "true"; mf "linked_product_ids" garbledList ]
  | _ => None
  end.

Definition bare (r : Request) : option (Reply r) :=
  match r as r0 return option (Reply r0) with
  | Categories => Some [ {| cat_id := 4; cat_name := Some "bundle" |} ]
  | Products page category => Some {| data := []; total_pages := Some 0 |}
  | _ => None
  end.

Definition depot (r : Request) : option (Reply r) :=
  match r as r0 return option (Reply r0) with
  | Categories => Some [ {| cat_id := 2; cat_name := Some "Bundle" |} ]
  | Products page category =>
      if category =? 2 then
        Some {| data := [simple 15 "Pallet" "PAL" (Some 1)]; total_pages := Some 1 |}
      else None
  | ProductMetafields product =>
      if product =? 15 then
        Some [ mf "is_bundle" "true"; mf "linked_product_ids" linked15 ]
      else None
  | ProductDetail product =>
      if product =? 40 then Some (simple 40 "Grain" "C40" (Some 11258999068426244))
      else None
  | _ => None
  end.

Definition closed (r : Request) : option (Reply r) :=
  match r as r0 return option (Reply r0) with
  | Categories => Some [ {| cat_id := 3; cat_name := Some "Shirts" |};
                         {| cat_id := 5; cat_name := None |} ]
  | _ => None
  end.

Definition bigcommerceClient (accessToken storeHash : string) : Client unit :=
  fun r w =>
    (if String.eqb storeHash "shop" then shop r
     else if String.eqb storeHash "broken" then broken r
     else if String.eqb storeHash "garbled" then garbled r
     else if String.eqb storeHash "bare" then bare r
     else if String.eqb storeHash "depot" then depot r
     else closed r, w).

Definition GET (context : string) : NextApiRequest :=
  {| method := "GET"; query_context := context |}.

Definition start : State unit := {| world := tt; trace := [] |}.

(** The route on this store. *)
Definition route (fuel : nat) (req : NextApiRequest)
    : result Response * State unit :=
  handler unit JSON_parse BundleCalculator.parseLinkedProduct getSession
    bigcommerceClient fuel req start.

End Scenario.

(** ** A concrete page state *)

Module PageScenario.
Import StockPage.

Definition widget : BundleComponent :=
  {| productId := 20; variantId := None; name := "Widget"; sku := "C20";
     quantity := 2; stock := 10; maxBundles := 5 |}.

Definition gadget : BundleComponent :=
  {| productId := 21; variantId := Some 5; name := "Gadget - Small";
     sku := "C21-5"; quantity := 1; stock := 3; maxBundles := 3 |}.

Definition spare : BundleComponent :=
  {| productId := 22; variantId := None; name := "Spare"; sku := "C22";
     quantity := 4; stock := 12; maxBundles := 3 |}.

(** The bundle of the specification's example, expanded, with a third
    component that ties with the second. *)
Definition p1 : Bundle :=
  {| id := 10; b_name := "P1"; b_sku := "BDL-1"; b_stock := 5;
     components := [widget; gadget; spare]; isExpanded := Some true |}.

Definition zeta : Bundle :=
  {| id := 111; b_name := "Zeta - Red - Large"; b_sku := "Z-RED"; b_stock := 4;
     components := []; isExpanded := None |}.

Definition page : PageState :=
  {| bundles := [p1; zeta]; isLoading := false; error := None;
     searchQuery := "" |}.

(** The UTF-8 text of the capital E with an acute accent (U+00C9) and of the
    small one (U+00E9), and a bundle named with the capital one. *)
Definition E_acute : string :=
  String (ascii_of_nat 195) (String (ascii_of_nat 137) EmptyString).

Definition e_acute : string :=
  String (ascii_of_nat 195) (String (ascii_of_nat 169) EmptyString).

Definition cafe : Bundle :=
  {| id := 12; b_name := ("CAF" ++ E_acute ++ " Kit")%string; b_sku := "CAFE-KIT";
     b_stock := 2; components := []; isExpanded := None |}.

End PageScenario.

(** * Properties of the division *)

Section Division.
Import JS.

(** The rounding goes to one of the two neighbours, the nearer one. *)
Lemma half_even_cases (n d : Z) :
  0 < d ->
  (half_even n d = n / d /\ 2 * (n mod d) <= d) \/
  (half_even n d = n / d + 1 /\ d <= 2 * (n mod d)).
Proof.
  intros Hd. unfold half_even.
  destruct (Z.ltb_spec (2 * (n mod d)) d); [left; split; [reflexivity | lia] |].
  destruct (Z.ltb_spec d (2 * (n mod d))); [right; split; [reflexivity | lia] |].
  destruct (Z.even (n / d)); [left | right]; split; (reflexivity || lia).
Qed.

Lemma half_even_exact (n d : Z) :
  0 < d -> n mod d = 0 -> half_even n d = n / d.
Proof.
  intros Hd H. unfold half_even. rewrite H.
  destruct (Z.ltb_spec (2 * 0) d); [reflexivity | lia].
Qed.

(** Below 2^53 the dividend is shifted to the left only. *)
Lemma shift_safe (a b : Z) :
  0 < a < two53 -> 0 < b ->
  0 <= shift a b /\
  scale_num a (shift a b) = a * 2 ^ shift a b /\
  scale_den b (shift a b) = b /\
  two52 * b <= a * 2 ^ shift a b.
Proof.
  intros Ha Hb.
  pose proof (Z.log2_spec a (proj1 Ha)) as [Hla1 Hla2].
  pose proof (Z.log2_spec b Hb) as [Hlb1 Hlb2].
  pose proof (Z.log2_nonneg a) as Hla0.
  pose proof (Z.log2_nonneg b) as Hlb0.
  assert (Hla : Z.log2 a < 53).
  { apply Z.log2_lt_pow2; [lia |]. change (2 ^ 53) with two53. lia. }
  set (k0 := 52 - (Z.log2 a - Z.log2 b)).
  assert (Hk0 : 0 <= k0) by (unfold k0; lia).
  assert (Hpow : 2 ^ Z.log2 a * 2 ^ k0 = two52 * 2 ^ Z.log2 b).
  { rewrite <- Z.pow_add_r by lia. change two52 with (2 ^ 52).
    rewrite <- Z.pow_add_r by lia. f_equal. unfold k0. lia. }
  assert (Hsucc : 2 ^ Z.succ (Z.log2 b) = 2 * 2 ^ Z.log2 b)
    by (rewrite Z.pow_succ_r by lia; reflexivity).
  assert (HK : 0 < 2 ^ k0) by (apply Z.pow_pos_nonneg; lia).
  assert (HB : 0 < 2 ^ Z.log2 b) by (apply Z.pow_pos_nonneg; lia).
  unfold shift. fold k0.
  assert (Hnum : forall k, 0 <= k -> scale_num a k = a * 2 ^ k).
  { intros k Hk. unfold scale_num. rewrite Z.max_l by lia. reflexivity. }
  assert (Hden : forall k, 0 <= k -> scale_den b k = b).
  { intros k Hk. unfold scale_den. rewrite Z.max_r by lia. cbn. lia. }
  rewrite (Hnum k0 Hk0), (Hden k0 Hk0).
  destruct (Z.ltb_spec (a * 2 ^ k0) (two52 * b)) as [Hlt | Hge].
  - split; [lia |]. rewrite Hnum, Hden by lia.
    split; [reflexivity |]. split; [reflexivity |].
    rewrite Z.pow_add_r by lia. change (2 ^ 1) with 2.
    unfold two52 in *. nia.
  - split; [lia |]. rewrite Hnum, Hden by lia.
    split; [reflexivity |]. split; [reflexivity | exact Hge].
Qed.

(** Below 2^53 the rounding does not reach the next integer: the floor of
    the rounded quotient is the floor of the quotient. *)
Lemma floor_quotient_exact (a b : Z) :
  0 < a < two53 -> 0 < b -> floor_quotient a b = a / b.
Proof.
  intros Ha Hb.
  destruct (shift_safe a b Ha Hb) as (Hk & Hnum & Hden & Hnorm).
  unfold floor_quotient, significand. rewrite Hnum, Hden.
  destruct (Z.leb_spec 0 (shift a b)); [| lia].
  set (P := 2 ^ shift a b) in *.
  assert (HP : 0 < P) by (apply Z.pow_pos_nonneg; lia).
  assert (HbP : b < 2 * P) by (unfold two52, two53 in *; nia).
  pose proof (Z.div_mod a b ltac:(lia)) as Ea.
  pose proof (Z.mod_pos_bound a b Hb) as Hra.
  pose proof (Z.div_mod (a * P) b ltac:(lia)) as En.
  pose proof (Z.mod_pos_bound (a * P) b Hb) as Hrn.
  set (q := a / b) in *. set (ra := a mod b) in *.
  set (m0 := a * P / b) in *. set (r := (a * P) mod b) in *.
  assert (Hlow : q * P <= m0) by nia.
  assert (Hm0 : m0 < (q + 1) * P) by nia.
  symmetry. apply (Z.div_unique _ _ _ (half_even (a * P) b - P * q)); [left | lia].
  destruct (half_even_cases (a * P) b Hb) as [[E _] | [E Hup]];
    fold m0 r in E, Hup || fold m0 r in E; rewrite E.
  - lia.
  - split; [lia |].
    assert (m0 + 1 < (q + 1) * P \/ m0 + 1 = (q + 1) * P) as [Hc | Hc] by lia; [lia |].
    exfalso. nia.
Qed.

Lemma ceil_quotient_exact (a b : Z) :
  0 < a < two53 -> 0 < b -> ceil_quotient a b = - ((- a) / b).
Proof.
  intros Ha Hb.
  destruct (shift_safe a b Ha Hb) as (Hk & Hnum & Hden & Hnorm).
  unfold ceil_quotient, significand. rewrite Hnum, Hden.
  destruct (Z.leb_spec 0 (shift a b)); [| lia].
  set (P := 2 ^ shift a b) in *.
  assert (HP : 0 < P) by (apply Z.pow_pos_nonneg; lia).
  assert (HbP : b < 2 * P) by (unfold two52, two53 in *; nia).
  pose proof (Z.div_mod (- a) b ltac:(lia)) as Ea.
  pose proof (Z.mod_pos_bound (- a) b Hb) as Hra.
  pose proof (Z.div_mod (a * P) b ltac:(lia)) as En.
  pose proof (Z.mod_pos_bound (a * P) b Hb) as Hrn.
  set (q := (- a) / b) in *. set (ra := (- a) mod b) in *.
  set (m0 := a * P / b) in *. set (r := (a * P) mod b) in *.
  (* - a = b q + ra, so a = b (-q) - ra, ceil(a/b) = -q *)
  f_equal.
  symmetry. apply (Z.div_unique _ _ _ (- half_even (a * P) b - P * q)); [left | lia].
  destruct (Z.eq_dec r 0) as [Hr0 | Hr0].
  - rewrite (half_even_exact (a * P) b Hb Hr0). fold m0. nia.
  - destruct (half_even_cases (a * P) b Hb) as [[E Hdown] | [E Hup]];
      fold m0 r in E, Hdown || fold m0 r in E, Hup; rewrite E.
    + split; [nia |].
      assert (- m0 - P * q < P \/ - m0 - P * q >= P) as [Hc | Hc] by lia; [lia |].
      exfalso. nia.
    + nia.
Qed.

(** [Math.floor(a / b)] is the floor of the quotient when [a] is below 2^53
    in absolute value. *)
Lemma floor_div_exact (a b : Z) :
  Z.abs a < two53 -> b <> 0 -> floor_div a b = Num (a / b).
Proof.
  intros Ha Hb. unfold floor_div.
  destruct (Z.eqb_spec b 0); [contradiction |].
  destruct (Z.eqb_spec a 0) as [-> | Ha0]; [rewrite Z.div_0_l by lia; reflexivity |].
  destruct (Z.ltb_spec 0 a), (Z.ltb_spec 0 b); cbn [Bool.eqb]; f_equal.
  - rewrite floor_quotient_exact by lia. rewrite !Z.abs_eq by lia. reflexivity.
  - rewrite ceil_quotient_exact by lia. rewrite Z.abs_eq, Z.abs_neq by lia.
    rewrite Z.opp_involutive. rewrite <- (Z.div_opp_opp a b) by lia. reflexivity.
  - rewrite ceil_quotient_exact by lia. rewrite Z.abs_neq, Z.abs_eq by lia.
    rewrite !Z.opp_involutive. reflexivity.
  - rewrite floor_quotient_exact by lia. rewrite !Z.abs_neq by lia.
    apply Z.div_opp_opp. lia.
Qed.

Lemma half_even_mono (n n' d : Z) :
  0 < d -> n <= n' -> half_even n d <= half_even n' d.
Proof.
  intros Hd Hn.
  pose proof (Z.div_le_mono n n' d Hd Hn) as Hq.
  assert (n / d < n' / d \/ n / d = n' / d) as [Hlt | Heq] by lia.
  - destruct (half_even_cases n d Hd) as [[E _] | [E _]];
      destruct (half_even_cases n' d Hd) as [[E' _] | [E' _]]; lia.
  - pose proof (Z.div_mod n d ltac:(lia)) as En.
    pose proof (Z.div_mod n' d ltac:(lia)) as En'.
    unfold half_even. rewrite <- Heq.
    destruct (Z.ltb_spec (2 * (n mod d)) d), (Z.ltb_spec (2 * (n' mod d)) d),
      (Z.ltb_spec d (2 * (n mod d))), (Z.ltb_spec d (2 * (n' mod d)));
      destruct (Z.even (n / d)); nia.
Qed.

(** The two scaled operands, brought to a common power of two. *)
Lemma scale_cross (a b k K : Z) :
  0 <= K -> 0 <= K + k ->
  exists T, 0 < T /\
    a * 2 ^ (K + k) = scale_num a k * T /\ b * 2 ^ K = scale_den b k * T.
Proof.
  intros HK HKk. unfold scale_num, scale_den.
  exists (2 ^ (K - Z.max (- k) 0)).
  split; [apply Z.pow_pos_nonneg; lia |].
  split; rewrite <- Z.mul_assoc, <- Z.pow_add_r by lia; do 2 f_equal; lia.
Qed.

(** The shift normalises the quotient: a * 2^k / b lies in [2^52, 2^53). *)
Lemma shift_spec (a b K : Z) :
  0 < a -> 0 < b -> 0 <= K -> 0 <= K + shift a b ->
  two52 * (b * 2 ^ K) <= a * 2 ^ (K + shift a b) < two53 * (b * 2 ^ K).
Proof.
  intros Ha Hb HK. unfold shift.
  pose proof (Z.log2_spec a Ha) as [Hla1 Hla2].
  pose proof (Z.log2_spec b Hb) as [Hlb1 Hlb2].
  pose proof (Z.log2_nonneg a) as Hla0.
  pose proof (Z.log2_nonneg b) as Hlb0.
  rewrite Z.pow_succ_r in Hla2, Hlb2 by lia.
  set (la := Z.log2 a) in *. set (lb := Z.log2 b) in *.
  set (k0 := 52 - (la - lb)).
  assert (HA : 0 < 2 ^ la) by (apply Z.pow_pos_nonneg; lia).
  assert (HB : 0 < 2 ^ lb) by (apply Z.pow_pos_nonneg; lia).
  assert (HK2 : 0 < 2 ^ K) by (apply Z.pow_pos_nonneg; lia).
  destruct (Z.ltb_spec (scale_num a k0) (two52 * scale_den b k0)) as [Hlt | Hge];
    intros HKk.
  - (* one more bit *)
    destruct (scale_cross a b k0 (K + 1) ltac:(lia) ltac:(lia)) as (T & HT & EN & ED).
    replace (K + 1 + k0) with (K + (k0 + 1)) in EN by lia.
    rewrite Z.pow_add_r in ED by lia. change (2 ^ 1) with 2 in ED.
    assert (Hpow : 2 ^ la * 2 ^ (K + (k0 + 1)) = two53 * (2 ^ lb * 2 ^ K)).
    { change two53 with (2 ^ 53). rewrite <- !Z.pow_add_r by lia.
      f_equal. unfold k0. lia. }
    set (X := 2 ^ (K + (k0 + 1))) in *.
    assert (HX : 0 < X) by (apply Z.pow_pos_nonneg; lia).
    unfold two52, two53 in *. split; nia.
  - destruct (scale_cross a b k0 K ltac:(lia) ltac:(lia)) as (T & HT & EN & ED).
    assert (Hpow : 2 ^ la * 2 ^ (K + k0) = two52 * (2 ^ lb * 2 ^ K)).
    { change two52 with (2 ^ 52). rewrite <- !Z.pow_add_r by lia.
      f_equal. unfold k0. lia. }
    set (X := 2 ^ (K + k0)) in *.
    assert (HX : 0 < X) by (apply Z.pow_pos_nonneg; lia).
    unfold two52, two53 in *. split; nia.
Qed.

Lemma shift_normal (a b : Z) :
  0 < a -> 0 < b ->
  0 < scale_den b (shift a b) /\
  two52 * scale_den b (shift a b) <= scale_num a (shift a b)
    < two53 * scale_den b (shift a b).
Proof.
  intros Ha Hb. set (k := shift a b).
  assert (HD : 0 < scale_den b k).
  { unfold scale_den. apply Z.mul_pos_pos; [lia | apply Z.pow_pos_nonneg; lia]. }
  split; [exact HD |].
  destruct (scale_cross a b k (Z.abs k) ltac:(lia) ltac:(lia)) as (T & HT & EN & ED).
  pose proof (shift_spec a b (Z.abs k) Ha Hb ltac:(lia) ltac:(fold k; lia)) as Hs.
  fold k in Hs. rewrite EN, ED in Hs. unfold two52, two53 in *. nia.
Qed.

Lemma significand_bounds (a b : Z) :
  0 < a -> 0 < b -> two52 <= significand a b <= two53.
Proof.
  intros Ha Hb. destruct (shift_normal a b Ha Hb) as (HD & Hlo & Hhi).
  unfold significand.
  set (N := scale_num a (shift a b)) in *. set (D := scale_den b (shift a b)) in *.
  assert (two52 <= N / D) by (apply Z.div_le_lower_bound; lia).
  assert (N / D < two53) by (apply Z.div_lt_upper_bound; lia).
  destruct (half_even_cases N D HD) as [[E _] | [E _]]; lia.
Qed.

(** A larger dividend does not need a larger shift. *)
Lemma shift_antitone (a a' b : Z) :
  0 < a -> a <= a' -> 0 < b -> shift a' b <= shift a b.
Proof.
  intros Ha Hle Hb.
  set (k := shift a b). set (k' := shift a' b).
  destruct (Z.le_gt_cases k' k) as [H | H]; [exact H | exfalso].
  set (K := Z.abs k + Z.abs k').
  pose proof (shift_spec a b K Ha Hb ltac:(lia) ltac:(fold k; lia)) as [Hlo _].
  pose proof (shift_spec a' b K ltac:(lia) Hb ltac:(lia) ltac:(fold k'; lia)) as [_ Hhi].
  fold k in Hlo. fold k' in Hhi.
  assert (Hpow : 2 * 2 ^ (K + k) <= 2 ^ (K + k')).
  { rewrite <- Z.pow_succ_r by lia. apply Z.pow_le_mono_r; lia. }
  assert (0 < 2 ^ (K + k)) by (apply Z.pow_pos_nonneg; lia).
  assert (0 < 2 ^ K) by (apply Z.pow_pos_nonneg; lia).
  unfold two52, two53 in *. nia.
Qed.

Lemma pow2_div (e k : Z) : 0 <= e -> 0 <= k -> 2 ^ e / 2 ^ k = 2 ^ (e - k).
Proof.
  intros He Hk. destruct (Z.le_gt_cases k e) as [H | H].
  - symmetry. apply Z.pow_sub_r; lia.
  - rewrite (Z.pow_neg_r 2 (e - k)) by lia. apply Z.div_small.
    split; [apply Z.pow_nonneg; lia | apply Z.pow_lt_mono_r; lia].
Qed.

Lemma pow2_mono (e e' : Z) : e <= e' -> 2 ^ e <= 2 ^ e'.
Proof.
  intros H. destruct (Z.lt_ge_cases e 0) as [Hneg | Hpos].
  - rewrite (Z.pow_neg_r 2 e) by lia. apply Z.pow_nonneg. lia.
  - apply Z.pow_le_mono_r; lia.
Qed.

(** The rounded quotient lies in the binade of its exponent. *)
Lemma floor_quotient_bounds (a b : Z) :
  0 < a -> 0 < b ->
  2 ^ (52 - shift a b) <= floor_quotient a b <= 2 ^ (53 - shift a b).
Proof.
  intros Ha Hb. pose proof (significand_bounds a b Ha Hb) as [Hlo Hhi].
  unfold floor_quotient. set (k := shift a b). set (m := significand a b) in *.
  destruct (Z.leb_spec 0 k) as [Hk | Hk].
  - assert (HP : 0 < 2 ^ k) by (apply Z.pow_pos_nonneg; lia).
    rewrite <- (pow2_div 52 k), <- (pow2_div 53 k) by lia.
    split; apply Z.div_le_mono; assumption.
  - assert (HP : 0 < 2 ^ (- k)) by (apply Z.pow_pos_nonneg; lia).
    replace (52 - k) with (52 + - k) by lia. replace (53 - k) with (53 + - k) by lia.
    rewrite !Z.pow_add_r by lia. unfold two52, two53 in *. split; nia.
Qed.

Lemma ceil_quotient_bounds (a b : Z) :
  0 < a -> 0 < b ->
  Z.max (2 ^ (52 - shift a b)) 1 <= ceil_quotient a b
    <= Z.max (2 ^ (53 - shift a b)) 1.
Proof.
  intros Ha Hb. pose proof (significand_bounds a b Ha Hb) as [Hlo Hhi].
  unfold ceil_quotient. set (k := shift a b). set (m := significand a b) in *.
  destruct (Z.leb_spec 0 k) as [Hk | Hk].
  - assert (HP : 0 < 2 ^ k) by (apply Z.pow_pos_nonneg; lia).
    assert (Hceil : forall x c, 0 < c -> x <= c * 2 ^ k -> - ((- x) / 2 ^ k) <= c).
    { intros x c Hc Hx.
      assert (- c <= (- x) / 2 ^ k) by (apply Z.div_le_lower_bound; nia). lia. }
    assert (Hfloor : forall x c, c * 2 ^ k <= x -> c <= - ((- x) / 2 ^ k)).
    { intros x c Hx.
      assert ((- x) / 2 ^ k <= - c) by (apply Z.div_le_upper_bound; nia). lia. }
    assert (Hpos : 1 <= - ((- m) / 2 ^ k)).
    { assert ((- m) / 2 ^ k < 0); [| lia].
      apply Z.div_lt_upper_bound; unfold two52 in *; lia. }
    split.
    + apply Z.max_lub; [| exact Hpos].
      destruct (Z.le_gt_cases k 52) as [H52 | H52].
      * apply Hfloor. rewrite <- Z.pow_add_r by lia.
        replace (52 - k + k) with 52 by lia. exact Hlo.
      * rewrite (Z.pow_neg_r 2 (52 - k)) by lia. lia.
    + destruct (Z.le_gt_cases k 53) as [H53 | H53].
      * rewrite Z.max_l by (pose proof (Z.pow_pos_nonneg 2 (53 - k)); lia).
        apply Hceil; [apply Z.pow_pos_nonneg; lia |].
        rewrite <- Z.pow_add_r by lia.
        replace (53 - k + k) with 53 by lia. exact Hhi.
      * rewrite (Z.pow_neg_r 2 (53 - k)) by lia. rewrite Z.max_r by lia.
        apply Hceil; [lia |].
        assert (2 ^ 53 < 2 ^ k) by (apply Z.pow_lt_mono_r; lia).
        unfold two53 in *. lia.
  - assert (HP : 0 < 2 ^ (- k)) by (apply Z.pow_pos_nonneg; lia).
    replace (52 - k) with (52 + - k) by lia. replace (53 - k) with (53 + - k) by lia.
    rewrite !Z.pow_add_r by lia. unfold two52, two53 in *.
    rewrite !Z.max_l by nia. split; nia.
Qed.

Lemma significand_mono (a a' b : Z) :
  0 < a -> a <= a' -> 0 < b -> shift a' b = shift a b ->
  significand a b <= significand a' b.
Proof.
  intros Ha Hle Hb Hk. unfold significand. rewrite Hk.
  destruct (shift_normal a b Ha Hb) as (HD & _).
  apply half_even_mono; [exact HD |].
  unfold scale_num. apply Z.mul_le_mono_nonneg_r; [apply Z.pow_nonneg; lia | exact Hle].
Qed.

Lemma floor_quotient_mono (a a' b : Z) :
  0 < a -> a <= a' -> 0 < b -> floor_quotient a b <= floor_quotient a' b.
Proof.
  intros Ha Hle Hb.
  pose proof (shift_antitone a a' b Ha Hle Hb) as Hk.
  assert (shift a' b = shift a b \/ shift a' b < shift a b) as [E | Hlt] by lia.
  - pose proof (significand_mono a a' b Ha Hle Hb E) as Hm.
    unfold floor_quotient. rewrite E.
    destruct (Z.leb_spec 0 (shift a b)).
    + apply Z.div_le_mono; [apply Z.pow_pos_nonneg; lia | exact Hm].
    + apply Z.mul_le_mono_nonneg_r; [apply Z.pow_nonneg; lia | exact Hm].
  - pose proof (floor_quotient_bounds a b Ha Hb) as [_ Hup].
    pose proof (floor_quotient_bounds a' b ltac:(lia) Hb) as [Hlow _].
    pose proof (pow2_mono (53 - shift a b) (52 - shift a' b) ltac:(lia)). lia.
Qed.

Lemma ceil_quotient_mono (a a' b : Z) :
  0 < a -> a <= a' -> 0 < b -> ceil_quotient a b <= ceil_quotient a' b.
Proof.
  intros Ha Hle Hb.
  pose proof (shift_antitone a a' b Ha Hle Hb) as Hk.
  assert (shift a' b = shift a b \/ shift a' b < shift a b) as [E | Hlt] by lia.
  - pose proof (significand_mono a a' b Ha Hle Hb E) as Hm.
    unfold ceil_quotient. rewrite E.
    destruct (Z.leb_spec 0 (shift a b)).
    + assert ((- significand a' b) / 2 ^ shift a b
              <= (- significand a b) / 2 ^ shift a b); [| lia].
      apply Z.div_le_mono; [apply Z.pow_pos_nonneg; lia | lia].
    + apply Z.mul_le_mono_nonneg_r; [apply Z.pow_nonneg; lia | exact Hm].
  - pose proof (ceil_quotient_bounds a b Ha Hb) as [_ Hup].
    pose proof (ceil_quotient_bounds a' b ltac:(lia) Hb) as [Hlow _].
    pose proof (pow2_mono (53 - shift a b) (52 - shift a' b) ltac:(lia)). lia.
Qed.

(** A division by a number other than 0 gives a finite integer. *)
Lemma floor_div_num (a b : Z) : b <> 0 -> exists q, floor_div a b = Num q.
Proof.
  intros Hb. unfold floor_div. destruct (Z.eqb_spec b 0); [contradiction |].
  destruct (a =? 0); [eauto |]. destruct (Bool.eqb _ _); eauto.
Qed.

(** [Math.floor(a / b)] grows with [a], for a positive [b]. *)
Lemma floor_div_mono (a a' b q q' : Z) :
  0 < b -> a <= a' ->
  floor_div a b = Num q -> floor_div a' b = Num q' -> q <= q'.
Proof.
  intros Hb Hle. unfold floor_div.
  destruct (Z.eqb_spec b 0); [lia |].
  assert (Hpos : (0 <? b) = true) by (apply Z.ltb_lt; exact Hb). rewrite Hpos.
  rewrite (Z.abs_eq b) by lia.
  destruct (Z.eqb_spec a 0) as [Ea | Ea], (Z.eqb_spec a' 0) as [Ea' | Ea'];
    try destruct (Z.ltb_spec 0 a); try destruct (Z.ltb_spec 0 a');
    cbn [Bool.eqb]; intros Hq Hq'; injection Hq as <-; injection Hq' as <-;
    try lia.
  - pose proof (floor_quotient_bounds (Z.abs a') b ltac:(lia) Hb) as [Hlow _].
    pose proof (Z.pow_nonneg 2 (52 - shift (Z.abs a') b)). lia.
  - pose proof (ceil_quotient_bounds (Z.abs a) b ltac:(lia) Hb) as [Hlow _]. lia.
  - apply floor_quotient_mono; lia.
  - pose proof (ceil_quotient_bounds (Z.abs a) b ltac:(lia) Hb) as [Hlow _].
    pose proof (floor_quotient_bounds (Z.abs a') b ltac:(lia) Hb) as [Hlow' _].
    pose proof (Z.pow_nonneg 2 (52 - shift (Z.abs a') b)). lia.
  - assert (ceil_quotient (Z.abs a') b <= ceil_quotient (Z.abs a) b); [| lia].
    apply ceil_quotient_mono; lia.
Qed.

(** A double that holds a positive integer is a multiple of the power of two
    below which its 53 bits end. *)
Lemma is_double_divide (z : Z) :
  0 < z -> is_double z = true ->
  (2 ^ Z.max (Z.log2 z - 52) 0 | z).
Proof.
  intros Hz H. unfold is_double in H. rewrite Z.abs_eq in H by lia.
  apply Z.eqb_eq in H. apply Z.mod_divide; [| exact H].
  assert (0 < 2 ^ Z.max (Z.log2 z - 52) 0) by (apply Z.pow_pos_nonneg; lia). lia.
Qed.

Lemma pow2_divide (e e' : Z) : 0 <= e <= e' -> (2 ^ e | 2 ^ e').
Proof.
  intros H. exists (2 ^ (e' - e)). rewrite <- Z.pow_add_r by lia. f_equal. lia.
Qed.

(** Below the divisor, the quotient of two doubles is not rounded up to 1. *)
Lemma floor_quotient_below (a b : Z) :
  0 < a < b -> is_double a = true -> is_double b = true ->
  floor_quotient a b = 0.
Proof.
  intros [Ha Hab] Da Db. assert (Hb : 0 < b) by lia.
  pose proof (significand_bounds a b Ha Hb) as [Hlo Hhi].
  pose proof (shift_spec a b 0 Ha Hb) as Hs.
  assert (Hk : 53 <= shift a b).
  { set (K := Z.abs (shift a b)).
    pose proof (shift_spec a b K Ha Hb ltac:(lia) ltac:(lia)) as [Hn _].
    destruct (Z.le_gt_cases 53 (shift a b)) as [H | H]; [exact H | exfalso].
    assert (2 ^ (K + shift a b) <= 2 ^ (K + 52)) by (apply Z.pow_le_mono_r; lia).
    rewrite (Z.pow_add_r 2 K 52) in * by lia.
    assert (0 < 2 ^ K) by (apply Z.pow_pos_nonneg; lia).
    unfold two52 in *. nia. }
  unfold floor_quotient. destruct (Z.leb_spec 0 (shift a b)); [| lia].
  apply Z.div_small. split; [unfold two52 in *; lia |].
  assert (shift a b = 53 \/ 54 <= shift a b) as [E | Hbig] by lia.
  2:{ assert (2 ^ 54 <= 2 ^ shift a b) by (apply Z.pow_le_mono_r; lia).
      unfold two53 in *. lia. }
  specialize (Hs ltac:(lia) ltac:(lia)). cbn [Z.add] in Hs. rewrite E in *.
  rewrite Z.pow_0_r, Z.mul_1_r in Hs. destruct Hs as [Hnorm _].
  (* the significand is below 2^53 unless a * 2^53 / b is rounded up to it *)
  unfold significand in *. rewrite E in *.
  assert (EN : scale_num a 53 = a * 2 ^ 53) by reflexivity.
  assert (ED : scale_den b 53 = b) by (unfold scale_den; cbn; lia).
  rewrite EN, ED in *.
  pose proof (Z.div_mod (a * 2 ^ 53) b ltac:(lia)) as Edm.
  pose proof (Z.mod_pos_bound (a * 2 ^ 53) b Hb) as Hr.
  assert (Hm0 : a * 2 ^ 53 / b < 2 ^ 53) by (apply Z.div_lt_upper_bound; nia).
  destruct (half_even_cases (a * 2 ^ 53) b Hb) as [[Em _] | [Em Hup]];
    rewrite Em; [lia |].
  assert (a * 2 ^ 53 / b + 1 < 2 ^ 53 \/ a * 2 ^ 53 / b = 2 ^ 53 - 1)
    as [Hlt | Htop] by lia; [exact Hlt | exfalso].
  (* then 2^54 * (b - a) <= b, which the 53 bits of a and b exclude *)
  assert (Hgap : 2 ^ 54 * (b - a) <= b) by nia.
  pose proof (is_double_divide a Ha Da) as Diva.
  pose proof (is_double_divide b Hb Db) as Divb.
  pose proof (Z.log2_spec b Hb) as [_ Hlb]. rewrite Z.pow_succ_r in Hlb
    by apply Z.log2_nonneg.
  assert (Hlog : Z.log2 b <= Z.log2 a + 1).
  { assert (Hle : Z.log2 b <= Z.log2 (2 * a))
      by (apply Z.log2_le_mono; unfold two52 in *; lia).
    rewrite Z.log2_double in Hle by lia. lia. }
  set (ea := Z.max (Z.log2 a - 52) 0) in *.
  set (eb := Z.max (Z.log2 b - 52) 0) in *.
  assert (Hdiv : (2 ^ eb | 2 * (b - a))).
  { replace (2 * (b - a)) with (2 * b - 2 * a) by lia.
    apply Z.divide_sub_r.
    - apply Z.divide_mul_r. exact Divb.
    - apply Z.divide_trans with (2 ^ (ea + 1)).
      + apply pow2_divide. unfold ea, eb. lia.
      + rewrite Z.pow_add_r by (unfold ea; lia). rewrite Z.mul_comm.
        change (2 ^ 1) with 2. apply Z.mul_divide_mono_l. exact Diva. }
  apply Z.divide_pos_le in Hdiv; [| lia].
  assert (Hb53 : b < 2 ^ 53 * 2 ^ eb).
  { rewrite <- Z.pow_add_r by (unfold eb; lia).
    assert (Hpow : 2 ^ (Z.log2 b + 1) <= 2 ^ (53 + eb))
      by (apply Z.pow_le_mono_r; unfold eb; lia).
    rewrite Z.pow_add_r in Hpow by (pose proof (Z.log2_nonneg b); lia).
    change (2 ^ 1) with 2 in Hpow. lia. }
  lia.
Qed.

Lemma shift_above (a b : Z) : 0 < b -> b <= a -> shift a b <= 52.
Proof.
  intros Hb Hle. set (K := Z.abs (shift a b)).
  pose proof (shift_spec a b K ltac:(lia) Hb ltac:(lia) ltac:(lia)) as [_ Hn].
  destruct (Z.le_gt_cases (shift a b) 52) as [H | H]; [exact H | exfalso].
  assert (2 ^ (K + 53) <= 2 ^ (K + shift a b)) by (apply Z.pow_le_mono_r; lia).
  rewrite (Z.pow_add_r 2 K 53) in * by lia.
  assert (0 < 2 ^ K) by (apply Z.pow_pos_nonneg; lia).
  unfold two53 in *. nia.
Qed.

(** [Math.floor(a / b)] is 0 only for 0 <= a < b, and for every such pair
    of doubles. *)
Lemma floor_div_zero_only (a b q : Z) :
  0 < b -> floor_div a b = Num q -> q = 0 -> 0 <= a < b.
Proof.
  intros Hb. unfold floor_div.
  destruct (Z.eqb_spec b 0); [lia |].
  assert (Hpos : (0 <? b) = true) by (apply Z.ltb_lt; exact Hb). rewrite Hpos.
  rewrite (Z.abs_eq b) by lia.
  destruct (Z.eqb_spec a 0) as [Ea | Ea].
  - intros Hq. injection Hq as <-. lia.
  - destruct (Z.ltb_spec 0 a) as [Ha | Ha]; cbn [Bool.eqb];
      intros Hq; injection Hq as <-.
    + rewrite (Z.abs_eq a) by lia.
      destruct (Z.lt_ge_cases a b) as [Hlt | Hge]; [lia |].
      pose proof (floor_quotient_bounds a b Ha Hb) as [Hlow _].
      pose proof (shift_above a b Hb Hge) as Hk.
      assert (2 ^ 0 <= 2 ^ (52 - shift a b)) by (apply Z.pow_le_mono_r; lia).
      change (2 ^ 0) with 1 in *. lia.
    + pose proof (ceil_quotient_bounds (Z.abs a) b ltac:(lia) Hb) as [Hlow _]. lia.
Qed.

Lemma floor_div_below (a b q : Z) :
  0 <= a < b -> is_double a = true -> is_double b = true ->
  floor_div a b = Num q -> q = 0.
Proof.
  intros Hab Da Db. unfold floor_div.
  destruct (Z.eqb_spec b 0); [lia |].
  assert (Hpos : (0 <? b) = true) by (apply Z.ltb_lt; lia). rewrite Hpos.
  rewrite (Z.abs_eq b) by lia.
  destruct (Z.eqb_spec a 0) as [Ea | Ea].
  - intros Hq. injection Hq as <-. reflexivity.
  - destruct (Z.ltb_spec 0 a) as [Ha | Ha]; [| lia]. cbn [Bool.eqb].
    intros Hq. injection Hq as <-. rewrite (Z.abs_eq a) by lia.
    apply floor_quotient_below; [lia | exact Da | exact Db].
Qed.

End Division.

(** * Properties of the route *)

Section RouteProperties.
Import StockApi.

Variable W : Type.
Variable JSON_parse : string -> option JS.json.
Variable parseLinkedProduct : JS.json -> LinkedProduct.
Variable getSession : NextApiRequest -> W -> option (option Session) * W.
Variable bigcommerceClient : string -> string -> Client W.

Local Abbreviation parse := (StockApi.parse W JSON_parse).
Local Abbreviation productBundleComponent :=
  (StockApi.productBundleComponent W parseLinkedProduct).
Local Abbreviation variantBundleComponent :=
  (StockApi.variantBundleComponent W parseLinkedProduct).
Local Abbreviation productBundle :=
  (StockApi.productBundle W JSON_parse parseLinkedProduct).
Local Abbreviation variantBundle :=
  (StockApi.variantBundle W JSON_parse parseLinkedProduct).
Local Abbreviation variantBundles :=
  (StockApi.variantBundles W JSON_parse parseLinkedProduct).
Local Abbreviation processProduct :=
  (StockApi.processProduct W JSON_parse parseLinkedProduct).
Local Abbreviation fetchPages := (StockApi.fetchPages W).
Local Abbreviation entityBundle :=
  (StockApi.entityBundle W JSON_parse parseLinkedProduct).
Local Abbreviation resolver := (StockApi.resolver W parseLinkedProduct).
Local Abbreviation contributions :=
  (StockApi.contributions W JSON_parse parseLinkedProduct).
Local Abbreviation clientOf := (StockApi.clientOf W bigcommerceClient).
Local Abbreviation notIterable := (StockApi.notIterable JSON_parse).
Local Abbreviation cause := (StockApi.cause JSON_parse).
Local Abbreviation authorized :=
  (StockApi.authorized W JSON_parse parseLinkedProduct).
Local Abbreviation answersReference :=
  (StockApi.answersReference parseLinkedProduct).
Local Abbreviation handler :=
  (StockApi.handler W JSON_parse parseLinkedProduct getSession bigcommerceClient).

(** ** Arithmetic of [Math.floor(stock / quantity)] *)

(** Below 2^53 the division is exact: the result is the floor of the
    quotient. *)
Lemma floor_div_pos (a b : Z) :
  0 < b -> Z.abs a < 2 ^ 53 ->
  exists q, JS.floor_div a b = JS.Num q /\ is_floor a b q.
Proof.
  intros Hb Ha. exists (a / b). unfold is_floor.
  rewrite floor_div_exact by (try exact Ha; lia).
  split; [reflexivity |].
  pose proof (Z.mul_div_le a b Hb).
  pose proof (Z.mul_succ_div_gt a b Hb). lia.
Qed.

Lemma is_floor_unique (a b q q' : Z) :
  0 < b -> is_floor a b q -> is_floor a b q' -> q = q'.
Proof. unfold is_floor. intros Hb H1 H2. nia. Qed.

Lemma is_floor_sign (a b q : Z) :
  0 < b -> is_floor a b q -> (0 <= q <-> 0 <= a).
Proof. unfold is_floor. intros Hb H. split; intros; nia. Qed.

Lemma floor_div_neg (a b : Z) :
  b < 0 -> Z.abs a < 2 ^ 53 ->
  exists q, JS.floor_div a b = JS.Num q /\ (q + 1) * b < a <= q * b.
Proof.
  intros Hb Ha. exists (a / b).
  rewrite floor_div_exact by (try exact Ha; lia).
  split; [reflexivity |].
  pose proof (Z.div_mod a b ltac:(lia)).
  pose proof (Z.mod_neg_bound a b Hb). nia.
Qed.

Lemma floor_div_zero (a : Z) :
  JS.floor_div a 0 =
  if a =? 0 then JS.NaN else if 0 <? a then JS.PosInfinity else JS.NegInfinity.
Proof. reflexivity. Qed.

(** ** The component resolver *)

(** The two copies of the resolver (lines 94-144 and 176-223) are the same
    code up to the names of their variables. *)
Lemma component_loops_agree :
  variantBundleComponent = productBundleComponent.
Proof. reflexivity. Qed.

(** One turn of the component loop pushes exactly one component, whatever
    was pushed before, and never throws: the resolved component when the
    detail fetch succeeds, the placeholder otherwise. *)
Lemma component_pushed (bc : Client W) (j : JS.json) (s : State W) :
  exists c s',
    (forall comps, productBundleComponent bc comps j s = (Ok (push comps c), s')) /\
    match detailFetch bc (parseLinkedProduct j) (world s) with
    | Some inv => resolved (parseLinkedProduct j) inv c
    | None => c = unknownComponent (parseLinkedProduct j)
    end.
Proof.
  unfold StockApi.productBundleComponent, detailFetch, try_catch, bind, get, push.
  destruct (truthy_id (lp_variantId (parseLinkedProduct j))) as [vid |] eqn:Ev.
  - destruct (bc (VariantDetail _ vid) (world s)) as [[variant |] w1]; cbn.
    + destruct (bc (ProductDetail _) w1) as [[parent |] w2]; cbn;
        eexists; eexists; (split; [intros comps; reflexivity |]).
      * unfold resolved; cbn. rewrite Ev. repeat split; reflexivity.
      * reflexivity.
    + eexists; eexists; split; [intros comps |]; reflexivity.
  - destruct (bc (ProductDetail _) (world s)) as [[p |] w1]; cbn;
      eexists; eexists; (split; [intros comps; reflexivity |]).
    + unfold resolved; cbn. rewrite Ev. repeat split; reflexivity.
    + reflexivity.
Qed.

Lemma resolver_agree (e : Entity) (bc : Client W) :
  resolver e bc = productBundleComponent bc.
Proof. destruct e; reflexivity. Qed.

(** A loop over [l1 ++ l2] is the loop over [l1] followed by the loop over
    [l2]. *)
Lemma for_of_app {A S : Type} (body : S -> A -> M W S) (l1 l2 : list A) :
  forall (acc : S) (s : State W),
    for_of body (l1 ++ l2)%list acc s =
    match for_of body l1 acc s with
    | (Ok acc', s') => for_of body l2 acc' s'
    | (Throw e, s') => (Throw e, s')
    | (Timeout, s') => (Timeout, s')
    end.
Proof.
  induction l1 as [| x l1 IH]; intros acc s; cbn.
  - reflexivity.
  - unfold bind. destruct (body acc x s) as [[acc' | e |] s']; auto.
Qed.

(** The component loop pushes one component per reference, in order, after
    what was there, and never throws. *)
Lemma component_loop (bc : Client W) (items : list JS.json) :
  forall s : State W,
  exists cs s',
    List.length cs = List.length items /\
    forall acc,
      for_of (productBundleComponent bc) items acc s = (Ok (acc ++ cs)%list, s').
Proof.
  induction items as [| j items IH]; intros s.
  - exists [], s. split; [reflexivity |]. intros acc. cbn.
    rewrite app_nil_r. reflexivity.
  - destruct (component_pushed bc j s) as (c & s1 & Hc & _).
    destruct (IH s1) as (cs & s' & Hlen & Hcs).
    exists (c :: cs), s'. split; [cbn; congruence |].
    intros acc. cbn. unfold bind. rewrite Hc, Hcs. unfold push.
    rewrite <- app_assoc. reflexivity.
Qed.

(** C1, as amended.  For a reference with a quantity > 0 whose detail fetch
    succeeds and reads a stock (the fetched inventory level, 0 if absent)
    that is not negative and below 2^53, either copy of the resolver appends
    to the components one component with this quantity and this stock, whose
    maxBundles is the integer floor(stock / quantity), which is not
    negative. *)
Theorem maxBundles_is_floor (e : Entity) (bc : Client W)
    (comps : list BundleComponent) (j : JS.json) (s : State W) (inv : option Z) :
  0 < lp_quantity (parseLinkedProduct j) ->
  detailFetch bc (parseLinkedProduct j) (world s) = Some inv ->
  0 <= JS.or_num inv 0 < 2 ^ 53 ->
  exists c s' q,
    resolver e bc comps j s = (Ok (comps ++ [c])%list, s') /\
    quantity c = lp_quantity (parseLinkedProduct j) /\
    stock c = JS.or_num inv 0 /\
    maxBundles c = JS.Num q /\
    is_floor (stock c) (quantity c) q /\
    0 <= q.
Proof.
  intros Hq Hfetch Hstock. rewrite resolver_agree.
  destruct (component_pushed bc j s) as (c & s' & Hc & Hres).
  rewrite Hfetch in Hres. destruct Hres as (_ & _ & Hqty & Hst & Hmax).
  destruct (floor_div_pos (JS.or_num inv 0) _ Hq) as (q & Hdiv & Hfloor); [lia |].
  exists c, s', q. rewrite Hqty, Hst.
  split; [apply Hc |]. split; [reflexivity |]. split; [reflexivity |].
  split; [congruence |]. split; [exact Hfloor |].
  apply (is_floor_sign _ _ _ Hq Hfloor). lia.
Qed.

(** C2, as amended.  A quantity <= 0 is not treated apart.  When the detail
    fetch succeeds and reads a stock that is not negative and below 2^53,
    either copy of the resolver appends a component whose maxBundles is
    [Math.floor(stock / quantity)] like for any other quantity: for the
    quantity 0 that is NaN when the stock is 0 and Infinity otherwise; for a
    negative quantity it is the floor of the quotient, which is not
    positive. *)
Theorem nonpositive_quantity_divided (e : Entity) (bc : Client W)
    (comps : list BundleComponent) (j : JS.json) (s : State W) (inv : option Z) :
  lp_quantity (parseLinkedProduct j) <= 0 ->
  detailFetch bc (parseLinkedProduct j) (world s) = Some inv ->
  0 <= JS.or_num inv 0 < 2 ^ 53 ->
  exists c s',
    resolver e bc comps j s = (Ok (comps ++ [c])%list, s') /\
    quantity c = lp_quantity (parseLinkedProduct j) /\
    stock c = JS.or_num inv 0 /\
    maxBundles c = JS.floor_div (stock c) (quantity c) /\
    (quantity c = 0 ->
     maxBundles c = if stock c =? 0 then JS.NaN else JS.PosInfinity) /\
    (quantity c < 0 ->
     exists q, maxBundles c = JS.Num q /\
               (q + 1) * quantity c < stock c <= q * quantity c /\
               q <= 0).
Proof.
  intros Hq Hfetch Hstock. rewrite resolver_agree.
  destruct (component_pushed bc j s) as (c & s' & Hc & Hres).
  rewrite Hfetch in Hres. destruct Hres as (_ & _ & Hqty & Hst & Hmax).
  exists c, s'. rewrite Hqty, Hst, Hmax.
  split; [apply Hc |]. split; [reflexivity |]. split; [reflexivity |].
  split; [reflexivity |]. split.
  - intros E. rewrite E, floor_div_zero.
    destruct (Z.eqb_spec (JS.or_num inv 0) 0); [reflexivity |].
    destruct (Z.ltb_spec 0 (JS.or_num inv 0)); [reflexivity | lia].
  - intros Hneg.
    destruct (floor_div_neg (JS.or_num inv 0) _ Hneg) as (q & Hdiv & Hfloor); [lia |].
    exists q. split; [exact Hdiv |]. split; [exact Hfloor | nia].
Qed.

(** ** The bundle of an entity *)

Lemma fetchMetafields_get (bc : Client W) (e : Entity) (s : State W)
    (mfs : list Metafield) (w1 : W) :
  fetchMetafields bc e (world s) = (Some mfs, w1) ->
  (forall bundles,
     entityBundle bc e bundles s =
     match (if isBundle mfs then find is_linked_field mfs else None) with
     | Some linkedField =>
         bind (parse (value linkedField))
           (fun v => bind (iterable v)
              (fun items => bind (for_of (resolver e bc) items [])
                 (fun cs => ret (push bundles
                    match e with
                    | EProduct product =>
                        {| b_id := p_id product;
                           b_name := p_name product;
                           b_sku := p_sku product;
                           b_stock := JS.or_num (p_inventory_level product) 0;
                           components := cs |}
                    | EVariant product variant =>
                        {| b_id := v_id variant;
                           b_name := (p_name product ++ " - "
                                      ++ variantName (v_option_values variant))%string;
                           b_sku := v_sku variant;
                           b_stock := JS.or_num (v_inventory_level variant) 0;
                           components := cs |}
                    end))))
           (log (Fetched (metafieldsRequest e) true) s w1)
     | None => (Ok bundles, log (Fetched (metafieldsRequest e) true) s w1)
     end).
Proof.
  intros Hf bundles.
  destruct e as [product | product variant]; cbn in Hf |- *;
    unfold StockApi.productBundle, StockApi.variantBundle;
    unfold bind at 1; unfold get; rewrite Hf;
    destruct (isBundle mfs); [| reflexivity | | reflexivity];
    destruct (find is_linked_field mfs); reflexivity.
Qed.

(** An entity without both the flag and the linked list pushes nothing. *)
Lemma entityBundle_skips (bc : Client W) (e : Entity)
    (bundles : list BundleStockInfo) (s : State W)
    (mfs : list Metafield) (w1 : W) :
  fetchMetafields bc e (world s) = (Some mfs, w1) ->
  isBundle mfs = false \/ find is_linked_field mfs = None ->
  entityBundle bc e bundles s =
  (Ok bundles, log (Fetched (metafieldsRequest e) true) s w1).
Proof.
  intros Hf H. rewrite (fetchMetafields_get _ _ _ _ _ Hf).
  destruct H as [H | H]; rewrite H; [reflexivity |].
  destruct (isBundle mfs); reflexivity.
Qed.

(** A flagged entity whose linked list parses to an iterable value pushes
    its record, with the components the loop collected. *)
Lemma entityBundle_pushes (bc : Client W) (e : Entity)
    (bundles : list BundleStockInfo) (s : State W)
    (mfs : list Metafield) (w1 : W) (linkedField : Metafield)
    (v : JS.json) (items : list JS.json)
    (cs : list BundleComponent) (s' : State W) :
  fetchMetafields bc e (world s) = (Some mfs, w1) ->
  isBundle mfs = true ->
  find is_linked_field mfs = Some linkedField ->
  JSON_parse (value linkedField) = Some v ->
  JS.iterate v = Some items ->
  for_of (resolver e bc) items [] (loopStart e s w1 (value linkedField)) = (Ok cs, s') ->
  exists b,
    entityBundle bc e bundles s = (Ok (push bundles b), s') /\
    recordOf e b /\ components b = cs.
Proof.
  intros Hf Hb Hl Hp Hi Hloop.
  rewrite (fetchMetafields_get _ _ _ _ _ Hf), Hb, Hl.
  unfold bind at 1. unfold StockApi.parse. rewrite Hp.
  unfold bind at 1. unfold iterable. rewrite Hi. unfold ret at 1.
  unfold bind at 1. cbn [world log].
  unfold loopStart in Hloop. cbn [world log] in Hloop. rewrite Hloop.
  unfold ret. eexists. split; [reflexivity |].
  destruct e; cbn; auto.
Qed.

(** C9.  An entity (a product or a variant) whose metafields hold a
    bundle-namespace [is_bundle] entry with the value "true" and no
    bundle-namespace [linked_product_ids] entry pushes no bundle record: the
    list of bundles is returned as it was, after the one request for the
    metafields. *)
Theorem flagged_without_linked_list_skipped (bc : Client W) (e : Entity)
    (bundles : list BundleStockInfo) (s : State W)
    (mfs : list Metafield) (w1 : W) :
  fetchMetafields bc e (world s) = (Some mfs, w1) ->
  (exists f, In f mfs /\ namespace f = "bundle" /\ key f = "is_bundle" /\
             value f = "true") ->
  (forall f, In f mfs ->
             ~ (namespace f = "bundle" /\ key f = "linked_product_ids")) ->
  entityBundle bc e bundles s =
  (Ok bundles, log (Fetched (metafieldsRequest e) true) s w1).
Proof.
  intros Hf _ Hnone. apply (entityBundle_skips bc e bundles s mfs w1 Hf).
  right. destruct (find is_linked_field mfs) as [f |] eqn:E; [| reflexivity].
  exfalso. apply find_some in E. destruct E as [Hin Hlinked].
  apply (Hnone f Hin). unfold is_linked_field in Hlinked.
  apply andb_true_iff in Hlinked. destruct Hlinked as [Hk Hn].
  apply String.eqb_eq in Hk. apply String.eqb_eq in Hn. auto.
Qed.

(** ** The pagination loop *)

Lemma log_trace (e : Event) (s : State W) (w : W) :
  trace (log e s w) = (trace s ++ [e])%list.
Proof. reflexivity. Qed.

(** With every page reporting [N] pages, the loop started at page [page]
    with [k] pages left to fetch fetches exactly those. *)
Lemma fetchPages_from (bc : Client W) (categoryId : Z) (N : nat)
    (HN1 : (1 <= N)%nat)
    (Hpages : forall page w, exists response w',
        bc (Products page categoryId) w = (Some response, w') /\
        total_pages response = Some (Z.of_nat N)) :
  forall (k fuel : nat) (page : Z) (acc : list Product) (s : State W),
    (1 <= k)%nat -> (k <= fuel)%nat ->
    page + Z.of_nat k = Z.of_nat N + 1 ->
    List.length (fst (pagesFrom bc categoryId k page (world s))) = k /\
    fetchPages fuel bc categoryId acc page s =
    (Ok (acc ++ flat_map data (fst (pagesFrom bc categoryId k page (world s))))%list,
     {| world := snd (pagesFrom bc categoryId k page (world s));
        trace := (trace s ++ pageRequests categoryId k page)%list |}).
Proof.
  induction k as [| k IH]; intros fuel page acc s Hk Hfuel Hpage; [lia |].
  destruct fuel as [| fuel]; [lia |].
  destruct (Hpages page (world s)) as (response & w' & Hget & Htotal).
  cbn [StockApi.fetchPages pagesFrom pageRequests].
  unfold bind at 1. unfold get. rewrite Hget, Htotal.
  assert (HN : JS.or_num (Some (Z.of_nat N)) 1 = Z.of_nat N).
  { unfold JS.or_num. destruct (Z.eqb_spec (Z.of_nat N) 0); [lia | reflexivity]. }
  rewrite HN.
  destruct k as [| k'].
  - assert (Hlast : (page <? Z.of_nat N) = false) by (apply Z.ltb_ge; lia).
    rewrite Hlast. cbn. split; [reflexivity |].
    unfold ret, log. cbn. rewrite app_nil_r. reflexivity.
  - assert (Hmore : (page <? Z.of_nat N) = true) by (apply Z.ltb_lt; lia).
    rewrite Hmore.
    destruct (IH fuel (page + 1) (acc ++ data response)%list
                (log (Fetched (Products page categoryId) true) s w'))
      as [Hlen Hrun]; [lia | lia | lia |].
    rewrite Hrun. cbn [world log] in Hlen |- *.
    destruct (pagesFrom bc categoryId (S k') (page + 1) w') as [rest w''] eqn:E.
    cbn [fst snd] in Hlen |- *. split; [cbn; congruence |].
    cbn [flat_map trace log]. rewrite <- !app_assoc. reflexivity.
Qed.

(** ** What a run adds to the trace *)

Section Obeys.

Variables P F : Event -> Prop.

Lemma obeys_pure {A : Type} (m : M W A) :
  (forall s, snd (m s) = s) -> obeys P F m.
Proof.
  intros H s. exists []. rewrite H, app_nil_r.
  split; [reflexivity |]. split; [constructor |].
  intros E. inversion E.
Qed.

Lemma obeys_ret {A : Type} (a : A) : obeys P F (ret (W := W) a).
Proof. apply obeys_pure. reflexivity. Qed.

Lemma obeys_throw {A : Type} (e : exn) : obeys P F (throw (W := W) (A := A) e).
Proof. apply obeys_pure. reflexivity. Qed.

Lemma obeys_timeout {A : Type} : obeys P F (timeout (W := W) (A := A)).
Proof. apply obeys_pure. reflexivity. Qed.

Lemma obeys_bind {A B : Type} (m : M W A) (k : A -> M W B) :
  obeys P F m -> (forall a, obeys P F (k a)) -> obeys P F (bind m k).
Proof.
  intros Hm Hk s. destruct (Hm s) as (new1 & Ht1 & HP1 & HF1).
  unfold bind. destruct (m s) as [[a | e |] s1] eqn:E; cbn [fst snd] in *.
  - destruct (Hk a s1) as (new2 & Ht2 & HP2 & HF2).
    exists (new1 ++ new2)%list. rewrite Ht2, Ht1, app_assoc.
    split; [reflexivity |]. split; [apply Forall_app; auto |].
    intros Hex. apply Exists_app in Hex. destruct Hex as [Hex | Hex].
    + destruct (HF1 Hex) as (e & He). discriminate.
    + exact (HF2 Hex).
  - exists new1. split; [exact Ht1 |]. split; [exact HP1 |]. eauto.
  - exists new1. split; [exact Ht1 |]. split; [exact HP1 |].
    intros Hex. destruct (HF1 Hex) as (e & He). discriminate.
Qed.

Lemma obeys_get (bc : Client W) (r : Request) :
  (forall ok, P (Fetched r ok)) -> ~ F (Fetched r true) ->
  obeys P F (get bc r).
Proof.
  intros HP HF s. unfold get.
  destruct (bc r (world s)) as [[a |] w]; cbn [fst snd].
  - exists [Fetched r true]. split; [reflexivity |].
    split; [repeat constructor; apply HP |].
    intros Hex. inversion Hex as [? ? H | ? ? H]; subst; [tauto | inversion H].
  - exists [Fetched r false]. split; [reflexivity |].
    split; [repeat constructor; apply HP |]. eauto.
Qed.

Lemma obeys_parse (src : string) :
  (forall ok, P (Parsed src ok)) -> ~ F (Parsed src true) ->
  obeys P F (parse src).
Proof.
  intros HP HF s. unfold StockApi.parse.
  destruct (JSON_parse src) as [v |]; cbn [fst snd].
  - exists [Parsed src true]. split; [reflexivity |].
    split; [repeat constructor; apply HP |].
    intros Hex. inversion Hex as [? ? H | ? ? H]; subst; [tauto | inversion H].
  - exists [Parsed src false]. split; [reflexivity |].
    split; [repeat constructor; apply HP |]. eauto.
Qed.

Lemma obeys_session (req : NextApiRequest) :
  obeys P F (session_of getSession req).
Proof.
  intros s. unfold session_of. exists [].
  destruct (getSession req (world s)) as [[o |] w]; cbn [fst snd trace];
    rewrite app_nil_r; (split; [reflexivity |]); (split; [constructor |]);
    intros E; inversion E.
Qed.

Lemma obeys_iterable (v : JS.json) : obeys P F (iterable (W := W) v).
Proof.
  unfold iterable. destruct (JS.iterate v); [apply obeys_ret | apply obeys_throw].
Qed.

Lemma obeys_for_of {A S : Type} (body : S -> A -> M W S) (l : list A) :
  (forall acc x, obeys P F (body acc x)) ->
  forall acc, obeys P F (for_of body l acc).
Proof.
  intros Hbody. induction l as [| x l IH]; intros acc; cbn [for_of].
  - apply obeys_ret.
  - apply obeys_bind; auto.
Qed.

End Obeys.

(** A [try] whose body adds no event of [F] and whose handler obeys. *)
Lemma obeys_catch {A : Type} (P F : Event -> Prop)
    (m : M W A) (h : exn -> M W A) :
  obeys (fun e => P e /\ ~ F e) (fun _ => False) m ->
  (forall e, obeys P F (h e)) ->
  obeys P F (try_catch m h).
Proof.
  intros Hm Hh s. destruct (Hm s) as (new1 & Ht1 & HP1 & _).
  assert (HP : Forall P new1).
  { eapply Forall_impl; [| exact HP1]. cbn. tauto. }
  assert (HnF : ~ Exists F new1).
  { intros Hex. apply Exists_exists in Hex. destruct Hex as (e & Hin & He).
    rewrite Forall_forall in HP1. destruct (HP1 e Hin). tauto. }
  unfold try_catch. destruct (m s) as [[a | e |] s1] eqn:E; cbn [fst snd] in *.
  - exists new1. split; [exact Ht1 |]. split; [exact HP |]. tauto.
  - destruct (Hh e s1) as (new2 & Ht2 & HP2 & HF2).
    exists (new1 ++ new2)%list. rewrite Ht2, Ht1, app_assoc.
    split; [reflexivity |]. split; [apply Forall_app; auto |].
    intros Hex. apply Exists_app in Hex. destruct Hex as [Hex | Hex]; [tauto |].
    exact (HF2 Hex).
  - exists new1. split; [exact Ht1 |]. split; [exact HP |]. tauto.
Qed.

Lemma obeys_weaken {A : Type} (P P' F F' : Event -> Prop) (m : M W A) :
  (forall e, P e -> P' e) -> (forall e, F' e -> F e) ->
  obeys P F m -> obeys P' F' m.
Proof.
  intros HP HF Hm s. destruct (Hm s) as (new & Ht & HPn & HFn).
  exists new. split; [exact Ht |]. split.
  - eapply Forall_impl; [| exact HPn]. exact HP.
  - intros Hex. apply HFn. apply Exists_exists in Hex.
    destruct Hex as (e & Hin & He). apply Exists_exists. eauto.
Qed.

Ltac obeys_step :=
  first
    [ apply obeys_ret | apply obeys_throw | apply obeys_timeout
    | apply obeys_iterable | apply obeys_session
    | apply obeys_get; [intros ok; cbn; tauto | cbn; tauto]
    | apply obeys_parse; [intros ok; cbn; tauto | cbn; tauto]
    | apply obeys_bind; [| intro] ].

(** The requests of the component resolver are detail requests: none is a
    page request and none is fatal. *)
Lemma obeys_component (bc : Client W) (comps : list BundleComponent)
    (j : JS.json) :
  obeys notPage fatal (productBundleComponent bc comps j).
Proof.
  unfold StockApi.productBundleComponent. apply obeys_catch.
  - destruct (truthy_id _); repeat obeys_step.
  - intros e. obeys_step.
Qed.

Lemma obeys_entityBundle (bc : Client W) (e : Entity)
    (bundles : list BundleStockInfo) :
  obeys notPage fatal (entityBundle bc e bundles).
Proof.
  destruct e as [product | product variant]; cbn [entityBundle];
    unfold StockApi.productBundle, StockApi.variantBundle;
    (apply obeys_bind; [obeys_step | intros mfs]);
    (destruct (isBundle mfs); [| obeys_step]);
    (destruct (find is_linked_field mfs); [| obeys_step]);
    (apply obeys_bind; [obeys_step | intros v]);
    (apply obeys_bind; [obeys_step | intros items]);
    (apply obeys_bind; [| intros cs; obeys_step]);
    apply obeys_for_of; intros acc x; apply obeys_component.
Qed.

Lemma obeys_processProduct (bc : Client W) (bundles : list BundleStockInfo)
    (product : Product) :
  obeys notPage fatal (processProduct bc bundles product).
Proof.
  unfold StockApi.processProduct. apply obeys_bind.
  - apply (obeys_entityBundle bc (EProduct product)).
  - intros bundles'. unfold StockApi.variantBundles.
    destruct (p_variants product) as [variants |]; [| obeys_step].
    destruct (0 <? _); [| obeys_step].
    apply obeys_for_of. intros acc variant.
    apply (obeys_entityBundle bc (EVariant product variant)).
Qed.

Lemma obeys_fetchPages (bc : Client W) (categoryId : Z) (fuel : nat) :
  forall (acc : list Product) (page : Z),
    obeys (fun _ => True) fatal (fetchPages fuel bc categoryId acc page).
Proof.
  induction fuel as [| fuel IH]; intros acc page; cbn [StockApi.fetchPages].
  - obeys_step.
  - apply obeys_bind; [obeys_step | intros response].
    destruct (page <? _); [apply IH | obeys_step].
Qed.

(** A [try] whose handler answers [x]: the answer is [x] as soon as the
    body added an event of [F]. *)
Lemma caught_answer {A : Type} (P F : Event -> Prop) (m : M W A) (x : A) :
  obeys P F m ->
  forall s, exists new,
    trace (snd (try_catch m (fun _ => ret x) s)) = (trace s ++ new)%list /\
    Forall P new /\
    (Exists F new -> fst (try_catch m (fun _ => ret x) s) = Ok x).
Proof.
  intros Hm s. destruct (Hm s) as (new & Ht & HP & HF). exists new.
  unfold try_catch. destruct (m s) as [[a | e |] s1]; cbn [fst snd] in *;
    (split; [exact Ht |]); (split; [exact HP |]); intros Hex;
    destruct (HF Hex) as (e' & He); try discriminate; reflexivity.
Qed.

(** The route: every run extends the trace, and answers the 500 response as
    soon as it added a fatal failure. *)
Lemma route_trace (fuel : nat) (req : NextApiRequest) (s : State W) :
  exists new,
    trace (snd (handler fuel req s)) = (trace s ++ new)%list /\
    (Exists fatal new -> fst (handler fuel req s) = Ok serverError).
Proof.
  unfold StockApi.handler, respond.
  destruct (negb _).
  - exists []. cbn. rewrite app_nil_r. split; [reflexivity |].
    intros E; inversion E.
  - match goal with
    | |- context [try_catch ?m _ s] =>
        destruct (caught_answer (fun _ => True) fatal m serverError) with (s := s)
          as (new & Ht & _ & HF)
    end.
    + apply obeys_bind; [obeys_step | intros [session |]]; [| obeys_step].
      apply obeys_bind; [obeys_step | intros categories].
      destruct (find is_bundle_category categories) as [c |]; [| obeys_step].
      apply obeys_bind.
      * apply obeys_fetchPages.
      * intros products. apply obeys_bind; [| intros bundles; obeys_step].
        eapply obeys_weaken;
          [| | apply obeys_for_of; intros acc x; apply obeys_processProduct];
          cbn; tauto.
    + exists new. split; [exact Ht | exact HF].
Qed.

(** C7.  When a run of the route added to the trace a failed request for
    the categories, for a page of products or for the metafields of a product
    or variant, or a linked list that failed to parse, the route answers 500
    with the message "Error fetching bundle stock": the body holds no list of
    bundles. *)
Theorem fatal_failure_answers_500 (fuel : nat) (req : NextApiRequest)
    (s : State W) (new : list Event) :
  trace (snd (handler fuel req s)) = (trace s ++ new)%list ->
  Exists fatal new ->
  fst (handler fuel req s) =
  Ok {| status := 500; body := Message "Error fetching bundle stock" |}.
Proof.
  intros Ht Hex. destruct (route_trace fuel req s) as (new' & Ht' & HF).
  rewrite Ht in Ht'. apply app_inv_head in Ht'. subst new'.
  exact (HF Hex).
Qed.

(** ** The route on an authorized GET *)

(** The route up to the search for the bundle category. *)
Lemma route_authorized (fuel : nat) (req : NextApiRequest) (s : State W)
    (session : Session) (w0 w1 : W) (categories : list Category) :
  method req = "GET" ->
  getSession req (world s) = (Some (Some session), w0) ->
  bigcommerceClient (accessToken session) (storeHash session) Categories w0
    = (Some categories, w1) ->
  handler fuel req s =
  try_catch
    (match find is_bundle_category categories with
     | None => respond 200 (Bundles [])
     | Some bundleCategory =>
         bind (fetchPages fuel
                 (bigcommerceClient (accessToken session) (storeHash session))
                 (cat_id bundleCategory) [] 1)
           (fun products =>
              bind (for_of
                      (processProduct
                         (bigcommerceClient (accessToken session) (storeHash session)))
                      products [])
                (fun bundles => respond 200 (Bundles bundles)))
     end)
    (fun _ => respond 500 (Message "Error fetching bundle stock"))
    {| world := w1; trace := (trace s ++ [Fetched Categories true])%list |}.
Proof.
  intros Hm Hs Hc. unfold StockApi.handler.
  rewrite Hm, String.eqb_refl. cbn [negb].
  unfold try_catch. unfold bind at 1. unfold session_of. rewrite Hs.
  unfold bind at 1, get. cbn [world]. rewrite Hc. reflexivity.
Qed.

(** C4.  On an authorized GET whose category request succeeds, the route
    answers 200 with the body [{bundles: []}] when no category is named
    "bundle" (in any letter case), and when the bundle category has no
    product: its first page is empty and reports no further page. *)
Theorem empty_catalog_answers_no_bundles (fuel : nat) (req : NextApiRequest)
    (s : State W) (session : Session) (w0 w1 : W) (categories : list Category) :
  method req = "GET" ->
  getSession req (world s) = (Some (Some session), w0) ->
  bigcommerceClient (accessToken session) (storeHash session) Categories w0
    = (Some categories, w1) ->
  (forall c, In c categories -> is_bundle_category c = false) \/
  (exists bundleCategory response w2,
      find is_bundle_category categories = Some bundleCategory /\
      (1 <= fuel)%nat /\
      bigcommerceClient (accessToken session) (storeHash session)
        (Products 1 (cat_id bundleCategory)) w1 = (Some response, w2) /\
      data response = [] /\
      JS.or_num (total_pages response) 1 <= 1) ->
  fst (handler fuel req s) = Ok {| status := 200; body := Bundles [] |}.
Proof.
  intros Hm Hs Hc Hempty.
  rewrite (route_authorized fuel req s session w0 w1 categories Hm Hs Hc).
  destruct Hempty as [Hnone | (c & response & w2 & Hfind & Hfuel & Hpage & Hdata & Hlast)].
  - assert (Hfind : find is_bundle_category categories = None).
    { destruct (find is_bundle_category categories) as [c |] eqn:E; [| reflexivity].
      apply find_some in E. destruct E as [Hin Hc']. rewrite (Hnone c Hin) in Hc'.
      discriminate. }
    rewrite Hfind. reflexivity.
  - rewrite Hfind. destruct fuel as [| fuel]; [lia |].
    unfold try_catch, bind at 1. cbn [StockApi.fetchPages].
    unfold bind at 1, get. cbn [world]. rewrite Hpage, Hdata.
    assert (Hno : (1 <? JS.or_num (total_pages response) 1) = false)
      by (apply Z.ltb_ge; exact Hlast).
    rewrite Hno. reflexivity.
Qed.

(** ** Pagination, seen from the route *)

Lemma pageRequests_seq (categoryId : Z) (n : nat) :
  forall first : nat,
    pageRequests categoryId n (Z.of_nat first) =
    map (fun page => Fetched (Products (Z.of_nat page) categoryId) true)
        (seq first n).
Proof.
  induction n as [| n IH]; intros first; cbn [pageRequests seq map].
  - reflexivity.
  - f_equal. rewrite <- IH. f_equal. lia.
Qed.

(** C5.  On an authorized GET with a bundle category, when every page
    request succeeds and reports [total_pages = N] (N >= 1), the fetcher
    sends the requests for the pages 1, 2, ..., N in this order and returns
    the concatenation of their data; the route goes on with the loop over
    this list of products, and sends no other page request. *)
Theorem pagination_fetches_every_page (fuel N : nat) (req : NextApiRequest)
    (s : State W) (session : Session) (w0 w1 : W)
    (categories : list Category) (bundleCategory : Category) :
  method req = "GET" ->
  getSession req (world s) = (Some (Some session), w0) ->
  clientOf session Categories w0 = (Some categories, w1) ->
  find is_bundle_category categories = Some bundleCategory ->
  (1 <= N)%nat ->
  (N <= fuel)%nat ->
  (forall page w, exists response w',
      clientOf session (Products page (cat_id bundleCategory)) w
        = (Some response, w') /\
      total_pages response = Some (Z.of_nat N)) ->
  exists (pages : list ProductsPage) (fetched : State W) (rest : list Event),
    pagesFrom (clientOf session) (cat_id bundleCategory) N 1 w1
      = (pages, world fetched) /\
    List.length pages = N /\
    trace fetched =
      (trace s ++ Fetched Categories true ::
         map (fun page => Fetched (Products (Z.of_nat page) (cat_id bundleCategory)) true)
             (seq 1 N))%list /\
    fetchPages fuel (clientOf session) (cat_id bundleCategory) [] 1
      (categoriesFetched s w1) = (Ok (flat_map data pages), fetched) /\
    handler fuel req s =
      try_catch
        (bind (for_of (processProduct (clientOf session)) (flat_map data pages) [])
              (fun bundles => respond 200 (Bundles bundles)))
        (fun _ => respond 500 (Message "Error fetching bundle stock"))
        fetched /\
    trace (snd (handler fuel req s)) = (trace fetched ++ rest)%list /\
    Forall notPage rest.
Proof.
  intros Hm Hs Hc Hfind HN Hfuel Hpages.
  destruct (fetchPages_from (clientOf session) (cat_id bundleCategory) N HN Hpages
              N fuel 1 [] (categoriesFetched s w1)) as [Hlen Hrun]; [lia | lia | lia |].
  cbn [world categoriesFetched app] in Hlen, Hrun.
  destruct (pagesFrom (clientOf session) (cat_id bundleCategory) N 1 w1)
    as [pages w2] eqn:Epages.
  cbn [fst snd] in Hlen, Hrun.
  set (fetched := {| world := w2;
                     trace := (trace (categoriesFetched s w1)
                               ++ pageRequests (cat_id bundleCategory) N 1)%list |}) in *.
  assert (Hroute :
    handler fuel req s =
    try_catch
      (bind (for_of (processProduct (clientOf session)) (flat_map data pages) [])
            (fun bundles => respond 200 (Bundles bundles)))
      (fun _ => respond 500 (Message "Error fetching bundle stock"))
      fetched).
  { rewrite (route_authorized fuel req s session w0 w1 categories Hm Hs Hc), Hfind.
    unfold try_catch, bind at 1 3. fold (clientOf session).
    fold (categoriesFetched s w1). rewrite Hrun. reflexivity. }
  destruct (caught_answer notPage (fun _ => False)
              (bind (for_of (processProduct (clientOf session)) (flat_map data pages) [])
                    (fun bundles => respond 200 (Bundles bundles)))
              {| status := 500; body := Message "Error fetching bundle stock" |})
    with (s := fetched) as (rest & Hrest & Hnot & _).
  { apply obeys_bind; [| intros bundles; apply obeys_ret].
    eapply obeys_weaken;
      [| | apply obeys_for_of; intros acc x; apply obeys_processProduct];
      cbn; tauto. }
  exists pages, fetched, rest.
  split; [reflexivity |]. split; [exact Hlen |].
  split.
  { cbn [trace fetched categoriesFetched].
    rewrite <- app_assoc. cbn [app]. do 2 f_equal.
    apply (pageRequests_seq (cat_id bundleCategory) N 1). }
  split; [exact Hrun |]. split; [exact Hroute |].
  split; [| exact Hnot].
  rewrite Hroute. exact Hrest.
Qed.

(** ** The order of the bundle records *)

Lemma present_app {A : Type} (l1 l2 : list (option A)) :
  present (l1 ++ l2) = (present l1 ++ present l2)%list.
Proof. unfold present. apply flat_map_app. Qed.

Lemma present_cons {A : Type} (o : option A) (l : list (option A)) :
  present (o :: l) = (present [o] ++ present l)%list.
Proof. apply (present_app [o] l). Qed.

Lemma contributions_app (bc : Client W) (es1 es2 : list Entity)
    (s s1 s2 : State W) (outs1 outs2 : list (option BundleStockInfo)) :
  contributions bc es1 s outs1 s1 ->
  contributions bc es2 s1 outs2 s2 ->
  contributions bc (es1 ++ es2) s (outs1 ++ outs2) s2.
Proof.
  intros H1 H2. induction H1; cbn; [exact H2 |].
  econstructor; eauto.
Qed.

(** The part of the route for an entity either throws or pushes the
    entity's contribution; which of the two, and what is pushed, does not
    depend on the records pushed before.  (It cannot time out.) *)
Lemma entity_outcome (bc : Client W) (e : Entity) (s : State W) :
  (exists x s1, forall bundles, entityBundle bc e bundles s = (Throw x, s1)) \/
  (exists o s1,
      contributes e o /\
      forall bundles,
        entityBundle bc e bundles s = (Ok (bundles ++ present [o])%list, s1)).
Proof.
  destruct (fetchMetafields bc e (world s)) as [[mfs |] w1] eqn:Hf.
  - pose proof (fetchMetafields_get _ _ _ _ _ Hf) as Hrun.
    destruct (if isBundle mfs then find is_linked_field mfs else None)
      as [linkedField |].
    + destruct (JSON_parse (value linkedField)) as [v |] eqn:Hp.
      * destruct (JS.iterate v) as [items |] eqn:Hi.
        -- destruct (component_loop bc items
                       (loopStart e s w1 (value linkedField)))
             as (cs & s2 & _ & Hloop).
           right. eexists (Some _), s2. split.
           2:{ intros bundles. rewrite Hrun.
               unfold bind at 1. unfold StockApi.parse. rewrite Hp.
               unfold bind at 1. unfold iterable. rewrite Hi. unfold ret at 1.
               unfold bind. rewrite resolver_agree.
               unfold loopStart in Hloop. cbn [world log] in Hloop |- *.
               rewrite (Hloop []). reflexivity. }
           destruct e; cbn; auto.
        -- left. eexists; eexists. intros bundles. rewrite Hrun.
           unfold bind at 1. unfold StockApi.parse. rewrite Hp.
           unfold bind at 1. unfold iterable. rewrite Hi. reflexivity.
      * left. eexists; eexists. intros bundles. rewrite Hrun.
        unfold bind at 1. unfold StockApi.parse. rewrite Hp. reflexivity.
    + right. exists None. eexists. split; [exact I |].
      intros bundles. rewrite Hrun. cbn. rewrite app_nil_r. reflexivity.
  - left. destruct e as [product | product variant]; cbn in Hf |- *;
      unfold StockApi.productBundle, StockApi.variantBundle, bind, get;
      rewrite Hf; eauto.
Qed.

(** What an entity pushes does not depend on the records pushed before. *)
Lemma entity_contribution (bc : Client W) (e : Entity)
    (acc r : list BundleStockInfo) (s s' : State W) :
  entityBundle bc e acc s = (Ok r, s') ->
  exists o,
    r = (acc ++ present [o])%list /\
    contributes e o /\
    entityBundle bc e [] s = (Ok (present [o]), s').
Proof.
  intros Hrun.
  destruct (entity_outcome bc e s) as [(x & s1 & H) | (o & s1 & Hc & H)].
  - rewrite H in Hrun. discriminate.
  - rewrite H in Hrun. injection Hrun as Hr Hs. subst r s'.
    exists o. split; [reflexivity |]. split; [exact Hc |]. apply (H []).
Qed.

Lemma variants_contributions (bc : Client W) (product : Product)
    (variants : list Variant) :
  forall (acc r : list BundleStockInfo) (s s' : State W),
    for_of (variantBundle bc product) variants acc s = (Ok r, s') ->
    exists outs,
      contributions bc (map (EVariant product) variants) s outs s' /\
      r = (acc ++ present outs)%list.
Proof.
  induction variants as [| variant variants IH]; intros acc r s s' Hrun.
  - cbn in Hrun. injection Hrun as Hr Hs. subst. exists [].
    split; [cbn; apply contributions_nil | symmetry; apply app_nil_r].
  - cbn [for_of] in Hrun. unfold bind in Hrun.
    destruct (variantBundle bc product acc variant s) as [[acc1 | x |] s1] eqn:E;
      try discriminate.
    destruct (entity_contribution bc (EVariant product variant) acc acc1 s s1 E)
      as (o & Hacc1 & Hcontrib & Hown).
    destruct (IH acc1 r s1 s' Hrun) as (outs & Hrest & Hr).
    exists (o :: outs). split.
    + cbn [map]. econstructor; eauto.
    + rewrite Hr, Hacc1, (present_cons o outs), app_assoc. reflexivity.
Qed.

Lemma product_contributions (bc : Client W) (product : Product)
    (acc r : list BundleStockInfo) (s s' : State W) :
  processProduct bc acc product s = (Ok r, s') ->
  exists outs,
    contributions bc
      (EProduct product :: map (EVariant product) (variantsOf product)) s outs s' /\
    r = (acc ++ present outs)%list.
Proof.
  unfold StockApi.processProduct, bind. intros Hrun.
  destruct (productBundle bc product acc s) as [[acc1 | x |] s1] eqn:E;
    try discriminate.
  destruct (entity_contribution bc (EProduct product) acc acc1 s s1 E)
    as (o & Hacc1 & Hcontrib & Hown).
  assert (Hvariants : exists outs,
             contributions bc (map (EVariant product) (variantsOf product))
               s1 outs s' /\
             r = (acc1 ++ present outs)%list).
  { unfold StockApi.variantBundles, variantsOf in *.
    destruct (p_variants product) as [variants |].
    - destruct variants as [| variant variants].
      + cbn in Hrun. injection Hrun as Hr Hs. subst. exists [].
        split; [cbn; apply contributions_nil | symmetry; apply app_nil_r].
      + replace (0 <? Z.of_nat (List.length (variant :: variants))) with true
          in Hrun by (symmetry; apply Z.ltb_lt; cbn [List.length]; lia).
        apply variants_contributions. exact Hrun.
    - cbn in Hrun. injection Hrun as Hr Hs. subst. exists [].
      split; [cbn; apply contributions_nil | symmetry; apply app_nil_r]. }
  destruct Hvariants as (outs & Hrest & Hr).
  exists (o :: outs). split.
  - econstructor; eauto.
  - rewrite Hr, Hacc1, (present_cons o outs), app_assoc. reflexivity.
Qed.

Lemma products_contributions (bc : Client W) (products : list Product) :
  forall (acc r : list BundleStockInfo) (s s' : State W),
    for_of (processProduct bc) products acc s = (Ok r, s') ->
    exists outs,
      contributions bc (entities products) s outs s' /\
      r = (acc ++ present outs)%list.
Proof.
  induction products as [| product products IH]; intros acc r s s' Hrun.
  - cbn in Hrun. injection Hrun as Hr Hs. subst. exists [].
    split; [cbn; apply contributions_nil | symmetry; apply app_nil_r].
  - cbn [for_of] in Hrun. unfold bind in Hrun.
    destruct (processProduct bc acc product s) as [[acc1 | x |] s1] eqn:E;
      try discriminate.
    destruct (product_contributions bc product acc acc1 s s1 E)
      as (outs1 & H1 & Hacc1).
    destruct (IH acc1 r s1 s' Hrun) as (outs2 & H2 & Hr).
    exists (outs1 ++ outs2)%list. split.
    + cbn [entities flat_map]. eapply contributions_app; eauto.
    + rewrite Hr, Hacc1, present_app, app_assoc. reflexivity.
Qed.

(** Only the pagination loop can run out of fuel: the loops over products,
    variants and references end. *)
Lemma bind_ends {A B : Type} (m : M W A) (k : A -> M W B) (s : State W) :
  fst (m s) <> Timeout ->
  (forall a s1, fst (k a s1) <> Timeout) ->
  fst (bind m k s) <> Timeout.
Proof.
  intros Hm Hk. unfold bind.
  destruct (m s) as [[a | x |] s1]; cbn [fst] in *;
    [apply Hk | discriminate | contradiction].
Qed.

Lemma for_of_ends {A S : Type} (body : S -> A -> M W S) (l : list A) :
  (forall acc x s, fst (body acc x s) <> Timeout) ->
  forall acc s, fst (for_of body l acc s) <> Timeout.
Proof.
  intros Hbody. induction l as [| x l IH]; intros acc s; cbn [for_of].
  - discriminate.
  - apply bind_ends; [apply Hbody | intros a s1; apply IH].
Qed.

Lemma entityBundle_ends (bc : Client W) (e : Entity)
    (bundles : list BundleStockInfo) (s : State W) :
  fst (entityBundle bc e bundles s) <> Timeout.
Proof.
  destruct (entity_outcome bc e s) as [(x & s1 & H) | (o & s1 & _ & H)];
    rewrite H; discriminate.
Qed.

Lemma processProduct_ends (bc : Client W) (bundles : list BundleStockInfo)
    (product : Product) (s : State W) :
  fst (processProduct bc bundles product s) <> Timeout.
Proof.
  unfold StockApi.processProduct. apply bind_ends.
  - apply (entityBundle_ends bc (EProduct product)).
  - intros bundles' s1. unfold StockApi.variantBundles.
    destruct (p_variants product) as [variants |]; [| discriminate].
    destruct (0 <? _); [| discriminate].
    apply for_of_ends. intros acc variant s2.
    apply (entityBundle_ends bc (EVariant product variant)).
Qed.

(** What an entity pushes on the empty list, it appends to any list. *)
Lemma entity_own (bc : Client W) (e : Entity) (s s1 : State W)
    (o : option BundleStockInfo) :
  entityBundle bc e [] s = (Ok (present [o]), s1) ->
  forall bundles,
    entityBundle bc e bundles s = (Ok (bundles ++ present [o])%list, s1).
Proof.
  intros Hown bundles.
  destruct (entity_outcome bc e s) as [(x & s2 & H) | (o' & s2 & _ & H)].
  - rewrite H in Hown. discriminate.
  - pose proof (H []) as Hnil. rewrite Hown in Hnil.
    change ([] ++ present [o'])%list with (present [o']) in Hnil.
    assert (Ho : present [o'] = present [o]) by congruence.
    assert (Hs : s2 = s1) by congruence.
    rewrite H, Ho, Hs. reflexivity.
Qed.

Lemma contributions_app_inv (bc : Client W) (es1 es2 : list Entity) :
  forall (s s' : State W) (outs : list (option BundleStockInfo)),
    contributions bc (es1 ++ es2) s outs s' ->
    exists outs1 outs2 s1,
      outs = (outs1 ++ outs2)%list /\
      contributions bc es1 s outs1 s1 /\
      contributions bc es2 s1 outs2 s'.
Proof.
  induction es1 as [| e es1 IH]; intros s s' outs H.
  - exists [], outs, s. split; [reflexivity |].
    split; [apply contributions_nil | exact H].
  - cbn [app] in H. inversion H as [| e0 es0 s0 s1 s0' o outs0 Hown Hc Hrest]; subst.
    destruct (IH s1 s' outs0 Hrest) as (outs1 & outs2 & s2 & E & H1 & H2).
    exists (o :: outs1), outs2, s2. split; [cbn; congruence |].
    split; [econstructor; eauto | exact H2].
Qed.

(** Conversely to [products_contributions]: when the entities of the
    products contribute [outs], the loop over the products appends the
    records among [outs], in this order. *)
Lemma variants_run (bc : Client W) (product : Product) (variants : list Variant) :
  forall (acc : list BundleStockInfo) (s s' : State W)
         (outs : list (option BundleStockInfo)),
    contributions bc (map (EVariant product) variants) s outs s' ->
    for_of (variantBundle bc product) variants acc s
    = (Ok (acc ++ present outs)%list, s').
Proof.
  induction variants as [| variant variants IH]; intros acc s s' outs H;
    cbn [map] in H;
    inversion H as [| e0 es0 s0 s1 s0' o outs0 Hown Hc Hrest]; subst.
  - cbn. rewrite app_nil_r. reflexivity.
  - cbn [for_of]. unfold bind.
    pose proof (entity_own bc (EVariant product variant) s s1 o Hown acc) as Hrun.
    cbn [StockApi.entityBundle] in Hrun. rewrite Hrun.
    rewrite (IH _ _ _ _ Hrest), (present_cons o outs0), app_assoc. reflexivity.
Qed.

Lemma product_run (bc : Client W) (product : Product)
    (acc : list BundleStockInfo) (s s' : State W)
    (outs : list (option BundleStockInfo)) :
  contributions bc
    (EProduct product :: map (EVariant product) (variantsOf product)) s outs s' ->
  processProduct bc acc product s = (Ok (acc ++ present outs)%list, s').
Proof.
  intros H. inversion H as [| e0 es0 s0 s1 s0' o outs0 Hown Hc Hrest]; subst.
  unfold StockApi.processProduct, bind.
  pose proof (entity_own bc (EProduct product) s s1 o Hown acc) as Hrun.
  cbn [StockApi.entityBundle] in Hrun. rewrite Hrun.
  rewrite (present_cons o outs0), app_assoc.
  unfold StockApi.variantBundles, variantsOf in *.
  destruct (p_variants product) as [variants |].
  - destruct variants as [| variant variants].
    + cbn [map] in Hrest. inversion Hrest; subst. cbn.
      rewrite !app_nil_r. reflexivity.
    + replace (0 <? Z.of_nat (List.length (variant :: variants))) with true
        by (symmetry; apply Z.ltb_lt; cbn [List.length]; lia).
      apply variants_run. exact Hrest.
  - cbn [map] in Hrest. inversion Hrest; subst. cbn.
    rewrite !app_nil_r. reflexivity.
Qed.

Lemma products_run (bc : Client W) (products : list Product) :
  forall (acc : list BundleStockInfo) (s s' : State W)
         (outs : list (option BundleStockInfo)),
    contributions bc (entities products) s outs s' ->
    for_of (processProduct bc) products acc s = (Ok (acc ++ present outs)%list, s').
Proof.
  induction products as [| product products IH]; intros acc s s' outs H.
  - cbn in H. inversion H; subst. cbn. rewrite app_nil_r. reflexivity.
  - cbn [entities flat_map] in H.
    change (flat_map _ products) with (entities products) in H.
    destruct (contributions_app_inv bc _ _ _ _ _ H)
      as (outs1 & outs2 & s1 & E & H1 & H2).
    cbn [for_of]. unfold bind.
    rewrite (product_run bc product acc s s1 outs1 H1).
    rewrite (IH _ _ _ _ H2), E, present_app, app_assoc. reflexivity.
Qed.

Lemma contributions_contributes (bc : Client W) (es : list Entity)
    (s s' : State W) (outs : list (option BundleStockInfo)) :
  contributions bc es s outs s' -> Forall2 contributes es outs.
Proof. induction 1; constructor; auto. Qed.

(** The route once the pages of the bundle category were fetched. *)
Lemma route_products (fuel : nat) (req : NextApiRequest) (s : State W)
    (session : Session) (w0 w1 : W) (categories : list Category)
    (bundleCategory : Category) (products : list Product) (fetched : State W) :
  method req = "GET" ->
  getSession req (world s) = (Some (Some session), w0) ->
  clientOf session Categories w0 = (Some categories, w1) ->
  find is_bundle_category categories = Some bundleCategory ->
  fetchPages fuel (clientOf session) (cat_id bundleCategory) [] 1
    (categoriesFetched s w1) = (Ok products, fetched) ->
  handler fuel req s =
  try_catch
    (bind (for_of (processProduct (clientOf session)) products [])
          (fun bundles => respond 200 (Bundles bundles)))
    (fun _ => respond 500 (Message "Error fetching bundle stock"))
    fetched.
Proof.
  intros Hm Hs Hc Hfind Hpages.
  rewrite (route_authorized fuel req s session w0 w1 categories Hm Hs Hc), Hfind.
  unfold try_catch, bind at 1 3. fold (clientOf session).
  fold (categoriesFetched s w1). rewrite Hpages. reflexivity.
Qed.

(** C6.  On an authorized GET whose pages were fetched, the route answers
    500 when the loop over the products throws; otherwise it answers 200,
    and the bundle records of the body are the contributions of the
    catalog's entities in iteration order: the products in fetch order, each
    followed by its variants in variant-list order, every entity
    contributing either nothing or its own record, independently of the
    records before it.  Nothing is dropped, merged or reordered. *)
Theorem bundles_follow_catalog_order (fuel : nat) (req : NextApiRequest)
    (s : State W) (session : Session) (w0 w1 : W) (categories : list Category)
    (bundleCategory : Category) (products : list Product) (fetched : State W) :
  method req = "GET" ->
  getSession req (world s) = (Some (Some session), w0) ->
  clientOf session Categories w0 = (Some categories, w1) ->
  find is_bundle_category categories = Some bundleCategory ->
  fetchPages fuel (clientOf session) (cat_id bundleCategory) [] 1
    (categoriesFetched s w1) = (Ok products, fetched) ->
  (exists x s',
      for_of (processProduct (clientOf session)) products [] fetched
      = (Throw x, s') /\
      handler fuel req s =
      (Ok {| status := 500; body := Message "Error fetching bundle stock" |}, s')) \/
  (exists (outs : list (option BundleStockInfo)) (s' : State W),
      contributions (clientOf session) (entities products) fetched outs s' /\
      Forall2 contributes (entities products) outs /\
      handler fuel req s =
      (Ok {| status := 200; body := Bundles (present outs) |}, s')).
Proof.
  intros Hm Hs Hc Hfind Hpages.
  rewrite (route_products fuel req s session w0 w1 categories bundleCategory
             products fetched Hm Hs Hc Hfind Hpages).
  unfold try_catch, bind.
  destruct (for_of (processProduct (clientOf session)) products [] fetched)
    as [[bundles | x |] s'] eqn:Hrun.
  - right.
    destruct (products_contributions (clientOf session) products [] bundles
                fetched s' Hrun) as (outs & Hcontrib & Hb).
    exists outs, s'. split; [exact Hcontrib |]. split.
    + apply (contributions_contributes _ _ _ _ _ Hcontrib).
    + rewrite Hb. reflexivity.
  - left. exists x, s'. split; reflexivity.
  - exfalso.
    apply (for_of_ends (processProduct (clientOf session)) products
             (fun acc x s0 => processProduct_ends (clientOf session) acc x s0)
             [] fetched).
    rewrite Hrun. reflexivity.
Qed.

(** C3.  On an authorized GET whose pages were fetched, take an entity of
    the catalog that is a bundle, and a reference of its linked list whose
    detail fetch fails.  The resolver appends the placeholder (name "Unknown
    Component", sku "N/A", stock 0, maxBundles 0, with the product id,
    variant id and quantity of the reference) to the components collected
    before, the loop goes on with the references after it, and the entity
    appends its bundle record, whose components are those collected before
    the failure, the placeholder, and those collected after it.  The request
    does not fail for it: when the entities after this one contribute their
    records, the route answers 200, with this record between the records of
    the entities before and after it. *)
Theorem failed_component_isolated (fuel : nat) (req : NextApiRequest)
    (s : State W) (session : Session) (w0 w1 : W) (categories : list Category)
    (bundleCategory : Category) (products : list Product) (fetched : State W)
    (es1 es2 : list Entity) (e : Entity)
    (outs1 : list (option BundleStockInfo)) (se : State W)
    (mfs : list Metafield) (w2 : W) (linkedField : Metafield) (v : JS.json)
    (before after : list JS.json) (j : JS.json)
    (cs1 : list BundleComponent) (s1 : State W) :
  method req = "GET" ->
  getSession req (world s) = (Some (Some session), w0) ->
  clientOf session Categories w0 = (Some categories, w1) ->
  find is_bundle_category categories = Some bundleCategory ->
  fetchPages fuel (clientOf session) (cat_id bundleCategory) [] 1
    (categoriesFetched s w1) = (Ok products, fetched) ->
  entities products = (es1 ++ e :: es2)%list ->
  contributions (clientOf session) es1 fetched outs1 se ->
  fetchMetafields (clientOf session) e (world se) = (Some mfs, w2) ->
  isBundle mfs = true ->
  find is_linked_field mfs = Some linkedField ->
  JSON_parse (value linkedField) = Some v ->
  JS.iterate v = Some (before ++ j :: after)%list ->
  for_of (resolver e (clientOf session)) before []
    (loopStart e se w2 (value linkedField)) = (Ok cs1, s1) ->
  detailFetch (clientOf session) (parseLinkedProduct j) (world s1) = None ->
  let placeholder :=
    {| productId := lp_productId (parseLinkedProduct j);
       variantId := lp_variantId (parseLinkedProduct j);
       name := "Unknown Component";
       sku := "N/A";
       quantity := lp_quantity (parseLinkedProduct j);
       stock := 0;
       maxBundles := JS.Num 0 |} in
  exists s2 cs2 s3 b,
    resolver e (clientOf session) cs1 j s1 = (Ok (cs1 ++ [placeholder])%list, s2) /\
    for_of (resolver e (clientOf session)) after [] s2 = (Ok cs2, s3) /\
    (forall bundles,
        entityBundle (clientOf session) e bundles se
        = (Ok (bundles ++ [b])%list, s3)) /\
    recordOf e b /\
    components b = (cs1 ++ placeholder :: cs2)%list /\
    (forall (outs2 : list (option BundleStockInfo)) (s' : State W),
        contributions (clientOf session) es2 s3 outs2 s' ->
        handler fuel req s =
        (Ok {| status := 200;
               body := Bundles (present outs1 ++ b :: present outs2)%list |}, s')).
Proof.
  intros Hm Hs Hc Hfind Hpages Hes Hes1 Hf Hb Hl Hp Hi Hbefore Hfail placeholder.
  set (bc := clientOf session) in *.
  destruct (component_pushed bc j s1) as (c & s2 & Hpush & Hres).
  rewrite Hfail in Hres. subst c.
  destruct (component_loop bc after s2) as (cs2 & s3 & _ & Hafter).
  assert (Hloop : for_of (resolver e bc) (before ++ j :: after)%list []
                    (loopStart e se w2 (value linkedField))
                  = (Ok (cs1 ++ placeholder :: cs2)%list, s3)).
  { rewrite for_of_app, Hbefore. rewrite resolver_agree. cbn [for_of].
    unfold bind. rewrite Hpush, Hafter. unfold push.
    rewrite <- app_assoc. reflexivity. }
  destruct (entityBundle_pushes bc e [] se mfs w2 linkedField v _ _ _
              Hf Hb Hl Hp Hi Hloop) as (b & Hrun & Hrec & Hcomps).
  assert (Hown : forall bundles,
             entityBundle bc e bundles se = (Ok (bundles ++ [b])%list, s3))
    by (apply (entity_own bc e se s3 (Some b)); exact Hrun).
  exists s2, cs2, s3, b. rewrite resolver_agree.
  split; [apply Hpush |].
  split; [apply (Hafter []) |].
  split; [exact Hown |].
  split; [exact Hrec |].
  split; [exact Hcomps |].
  intros outs2 s' Hes2.
  rewrite (route_products fuel req s session w0 w1 categories bundleCategory
             products fetched Hm Hs Hc Hfind Hpages).
  fold bc. unfold try_catch, bind.
  assert (Hall : contributions bc (entities products) fetched
                   (outs1 ++ Some b :: outs2)%list s').
  { rewrite Hes. apply (contributions_app bc es1 (e :: es2) fetched se s' _ _ Hes1).
    econstructor; [exact Hrun | exact Hrec | exact Hes2]. }
  rewrite (products_run bc products [] fetched s' _ Hall).
  rewrite present_app, (present_cons (Some b) outs2). reflexivity.
Qed.

(** * Further properties of the route *)

(** ** The answers of the route *)

Lemma handler_authorized (fuel : nat) (req : NextApiRequest) (s : State W)
    (session : Session) (w0 : W) :
  method req = "GET" ->
  getSession req (world s) = (Some (Some session), w0) ->
  handler fuel req s =
  try_catch (authorized fuel (clientOf session))
    (fun _ => respond 500 (Message "Error fetching bundle stock"))
    {| world := w0; trace := trace s |}.
Proof.
  intros Hm Hs. unfold StockApi.handler.
  rewrite Hm, String.eqb_refl. cbn [negb].
  unfold try_catch. unfold bind at 1. unfold session_of. rewrite Hs.
  reflexivity.
Qed.

(** With a session, the [try] times out, throws, or answers 200 with a list
    of bundles. *)
Lemma authorized_outcome (fuel : nat) (bc : Client W) (s : State W) :
  fst (authorized fuel bc s) = Timeout \/
  (exists x, fst (authorized fuel bc s) = Throw x) \/
  (exists bundles,
      fst (authorized fuel bc s) =
      Ok {| status := 200; body := Bundles bundles |}).
Proof.
  unfold StockApi.authorized, bind, respond, ret.
  destruct (get bc Categories s) as [[categories | x |] s1]; cbn [fst]; eauto.
  destruct (find is_bundle_category categories) as [c |]; cbn [fst]; eauto.
  destruct (fetchPages fuel bc (cat_id c) [] 1 s1) as [[products | x |] s2];
    cbn [fst]; eauto.
  destruct (for_of (processProduct bc) products [] s2) as [[bundles | x |] s3];
    cbn [fst]; eauto.
Qed.

(** X1.  The route never lets an exception escape: a run that ends gives
    one of four answers, 405 "Method not allowed", 401 "Unauthorized", 500
    "Error fetching bundle stock", or 200 with a list of bundles. *)
Theorem handler_answers (fuel : nat) (req : NextApiRequest) (s : State W) :
  fst (handler fuel req s) = Timeout \/
  exists r, fst (handler fuel req s) = Ok r /\ answer r.
Proof.
  unfold answer.
  destruct (String.eqb_spec (method req) "GET") as [Hm | Hm].
  - destruct (getSession req (world s)) as [[[session |] |] w0] eqn:Hs.
    + rewrite (handler_authorized fuel req s session w0 Hm Hs).
      unfold try_catch, respond, ret.
      destruct (authorized_outcome fuel (clientOf session)
                  {| world := w0; trace := trace s |})
        as [H | [(x & H) | (bundles & H)]];
        destruct (authorized fuel (clientOf session) _) as [[a | y |] s1];
        cbn [fst] in *; try discriminate; eauto 10.
    + right. unfold StockApi.handler.
      rewrite Hm, String.eqb_refl. cbn [negb].
      unfold try_catch, bind, session_of. rewrite Hs. cbn. eauto 10.
    + right. unfold StockApi.handler.
      rewrite Hm, String.eqb_refl. cbn [negb].
      unfold try_catch, bind, session_of. rewrite Hs. cbn. eauto 10.
  - right. unfold StockApi.handler.
    apply String.eqb_neq in Hm. rewrite Hm. cbn. eauto 10.
Qed.

(** X2.  The method is checked before the session and the session before
    the catalog: a request that is not a GET is answered 405 without the
    session being looked up, and a GET without a session, or whose session
    lookup throws, is answered 401, or 500, without any request to the
    catalog. *)
Theorem guards_before_catalog (fuel : nat) (req : NextApiRequest) (s : State W) :
  (method req <> "GET" ->
   handler fuel req s =
   (Ok {| status := 405; body := Message "Method not allowed" |}, s)) /\
  (forall w0,
      method req = "GET" ->
      getSession req (world s) = (Some None, w0) ->
      handler fuel req s =
      (Ok {| status := 401; body := Message "Unauthorized" |},
       {| world := w0; trace := trace s |})) /\
  (forall w0,
      method req = "GET" ->
      getSession req (world s) = (None, w0) ->
      handler fuel req s =
      (Ok {| status := 500; body := Message "Error fetching bundle stock" |},
       {| world := w0; trace := trace s |})).
Proof.
  split; [| split].
  - intros Hm. unfold StockApi.handler.
    apply String.eqb_neq in Hm. rewrite Hm. reflexivity.
  - intros w0 Hm Hs. unfold StockApi.handler.
    rewrite Hm, String.eqb_refl. cbn [negb].
    unfold try_catch, bind, session_of. rewrite Hs. reflexivity.
  - intros w0 Hm Hs. unfold StockApi.handler.
    rewrite Hm, String.eqb_refl. cbn [negb].
    unfold try_catch, bind, session_of. rewrite Hs. reflexivity.
Qed.

(** ** What makes the route answer 500 *)

Lemma blames_quiet {A : Type} (C : Event -> Prop) (m : M W A) :
  (forall s, snd (m s) = s) ->
  (forall s x, fst (m s) <> Throw x) ->
  blames C m.
Proof.
  intros Hs Hr s. exists []. rewrite Hs, app_nil_r. split; [reflexivity |].
  intros (x & Hx). destruct (Hr s x Hx).
Qed.

Lemma blames_ret {A : Type} (C : Event -> Prop) (a : A) :
  blames C (ret (W := W) a).
Proof. apply blames_quiet; [reflexivity | discriminate]. Qed.

Lemma blames_timeout {A : Type} (C : Event -> Prop) :
  blames C (timeout (W := W) (A := A)).
Proof. apply blames_quiet; [reflexivity | discriminate]. Qed.

Lemma blames_bind {A B : Type} (C : Event -> Prop)
    (m : M W A) (k : A -> M W B) :
  blames C m -> (forall a, blames C (k a)) -> blames C (bind m k).
Proof.
  intros Hm Hk s. destruct (Hm s) as (new1 & Ht1 & Hc1).
  unfold bind. destruct (m s) as [[a | e |] s1]; cbn [fst snd] in *.
  - destruct (Hk a s1) as (new2 & Ht2 & Hc2).
    exists (new1 ++ new2)%list. rewrite Ht2, Ht1, app_assoc.
    split; [reflexivity |]. intros Hx. apply Exists_app. right. exact (Hc2 Hx).
  - exists new1. split; [exact Ht1 |]. intros _. apply Hc1. eauto.
  - exists new1. split; [exact Ht1 |]. intros (x & Hx). discriminate.
Qed.

Lemma blames_get (C : Event -> Prop) (bc : Client W) (r : Request) :
  C (Fetched r false) -> blames C (get bc r).
Proof.
  intros HC s. unfold get.
  destruct (bc r (world s)) as [[a |] w]; cbn [fst snd].
  - exists [Fetched r true]. split; [reflexivity |].
    intros (x & Hx). discriminate.
  - exists [Fetched r false]. split; [reflexivity |].
    intros _. constructor. exact HC.
Qed.

Lemma blames_for_of {A S : Type} (C : Event -> Prop)
    (body : S -> A -> M W S) (l : list A) :
  (forall acc x, blames C (body acc x)) ->
  forall acc, blames C (for_of body l acc).
Proof.
  intros Hbody. induction l as [| x l IH]; intros acc; cbn [for_of].
  - apply blames_ret.
  - apply blames_bind; auto.
Qed.

(** A piece that extends the trace and never throws has nothing to blame. *)
Lemma blames_never {A : Type} (C P F : Event -> Prop) (m : M W A) :
  obeys P F m -> (forall s x, fst (m s) <> Throw x) -> blames C m.
Proof.
  intros Hm Hr s. destruct (Hm s) as (new & Ht & _). exists new.
  split; [exact Ht |]. intros (x & Hx). destruct (Hr s x Hx).
Qed.

(** [JSON.parse] followed by the start of the [for ... of]. *)
Lemma blames_parse_iterable {A : Type} (src : string)
    (k : list JS.json -> M W A) :
  (forall items, blames cause (k items)) ->
  blames cause (bind (parse src) (fun v => bind (iterable v) k)).
Proof.
  intros Hk s. unfold bind at 1. unfold StockApi.parse.
  destruct (JSON_parse src) as [v |] eqn:Hp; cbn [fst snd].
  - unfold bind, iterable. destruct (JS.iterate v) as [items |] eqn:Hi.
    + unfold ret at 1.
      destruct (Hk items (log (Parsed src true) s (world s))) as (new & Ht & Hc).
      exists (Parsed src true :: new). split.
      * rewrite Ht. cbn [trace log]. rewrite <- app_assoc. reflexivity.
      * intros Hx. apply Exists_cons_tl. exact (Hc Hx).
    + exists [Parsed src true]. split; [reflexivity |].
      intros _. constructor. right. cbn. rewrite Hp. exact Hi.
  - exists [Parsed src false]. split; [reflexivity |].
    intros _. constructor. left. exact I.
Qed.

Lemma component_loop_never_throws (bc : Client W) (items : list JS.json)
    (s : State W) (x : exn) :
  fst (for_of (productBundleComponent bc) items [] s) <> Throw x.
Proof.
  destruct (component_loop bc items s) as (cs & s' & _ & H).
  rewrite (H []). discriminate.
Qed.

Lemma blames_entityBundle (bc : Client W) (e : Entity)
    (bundles : list BundleStockInfo) :
  blames cause (entityBundle bc e bundles).
Proof.
  destruct e as [product | product variant]; cbn [StockApi.entityBundle];
    unfold StockApi.productBundle, StockApi.variantBundle;
    (apply blames_bind; [apply blames_get; left; exact I | intros mfs]);
    (destruct (isBundle mfs); [| apply blames_ret]);
    (destruct (find is_linked_field mfs); [| apply blames_ret]);
    apply blames_parse_iterable; intros items;
    (apply blames_bind; [| intros cs; apply blames_ret]);
    (eapply blames_never;
     [ apply obeys_for_of; intros acc x; apply obeys_component
     | apply component_loop_never_throws ]).
Qed.

Lemma blames_processProduct (bc : Client W) (bundles : list BundleStockInfo)
    (product : Product) :
  blames cause (processProduct bc bundles product).
Proof.
  unfold StockApi.processProduct. apply blames_bind.
  - apply (blames_entityBundle bc (EProduct product)).
  - intros bundles'. unfold StockApi.variantBundles.
    destruct (p_variants product) as [variants |]; [| apply blames_ret].
    destruct (0 <? _); [| apply blames_ret].
    apply blames_for_of. intros acc variant.
    apply (blames_entityBundle bc (EVariant product variant)).
Qed.

Lemma blames_fetchPages (bc : Client W) (categoryId : Z) (fuel : nat) :
  forall (acc : list Product) (page : Z),
    blames cause (fetchPages fuel bc categoryId acc page).
Proof.
  induction fuel as [| fuel IH]; intros acc page; cbn [StockApi.fetchPages].
  - apply blames_timeout.
  - apply blames_bind; [apply blames_get; left; exact I | intros response].
    destruct (page <? _); [apply IH | apply blames_ret].
Qed.

Lemma blames_authorized (fuel : nat) (bc : Client W) :
  blames cause (authorized fuel bc).
Proof.
  unfold StockApi.authorized, respond.
  apply blames_bind; [apply blames_get; left; exact I | intros categories].
  destruct (find is_bundle_category categories) as [c |]; [| apply blames_ret].
  apply blames_bind; [apply blames_fetchPages | intros products].
  apply blames_bind; [| intros bundles; apply blames_ret].
  apply blames_for_of. intros acc product. apply blames_processProduct.
Qed.

(** X3.  The route answers 500 only for a reason: the session lookup
    threw, or the run recorded a failed request for the categories, a page or
    metafields, a linked list that did not parse, or one that parsed to a
    value that cannot be iterated.  Failed requests for the details of
    components are never the reason. *)
Theorem answer_500_has_cause (fuel : nat) (req : NextApiRequest) (s : State W) :
  fst (handler fuel req s) =
    Ok {| status := 500; body := Message "Error fetching bundle stock" |} ->
  (exists w0, getSession req (world s) = (None, w0)) \/
  (exists new,
      trace (snd (handler fuel req s)) = (trace s ++ new)%list /\
      Exists cause new).
Proof.
  intros H500.
  destruct (String.eqb_spec (method req) "GET") as [Hm | Hm].
  - destruct (getSession req (world s)) as [[[session |] |] w0] eqn:Hs.
    + right. rewrite (handler_authorized fuel req s session w0 Hm Hs) in *.
      destruct (blames_authorized fuel (clientOf session)
                  {| world := w0; trace := trace s |}) as (new & Ht & Hc).
      destruct (authorized_outcome fuel (clientOf session)
                  {| world := w0; trace := trace s |})
        as [Hout | [(x & Hout) | (bundles & Hout)]];
        unfold try_catch, respond, ret in *;
        destruct (authorized fuel (clientOf session) _) as [[a | y |] s1];
        cbn [fst snd trace] in *; try discriminate.
      * exists new. split; [exact Ht |]. apply Hc. eauto.
      * injection Hout as Hout. subst a. discriminate.
    + unfold StockApi.handler in H500.
      rewrite Hm, String.eqb_refl in H500. cbn [negb] in H500.
      unfold try_catch, bind, session_of in H500. rewrite Hs in H500.
      discriminate.
    + left. eauto.
  - unfold StockApi.handler in H500.
    apply String.eqb_neq in Hm. rewrite Hm in H500. discriminate.
Qed.

(** ** The pagination loop, whatever the catalog answers *)

Lemma state_eta (s : State W) :
  s = {| world := world s; trace := (trace s ++ [])%list |}.
Proof. destruct s as [w t]. cbn. rewrite app_nil_r. reflexivity. Qed.

Lemma stopsAtLast_cons (page : Z) (response : ProductsPage)
    (rest : list ProductsPage) :
  hasMore page response = true ->
  stopsAtLast (page + 1) rest ->
  stopsAtLast page (response :: rest).
Proof.
  intros Hmore Hrest. destruct rest as [| r rest]; [destruct Hrest |].
  split; [exact Hmore | exact Hrest].
Qed.

(** X4.  The pagination loop requests consecutive pages, from the page it
    is started at, each once and in increasing order.  It returns after the
    first page that reports no further page, with the data of the pages it
    fetched, in order, after the products it was given; it throws at the
    first page whose request fails, with the error of that request and
    without products; otherwise all the pages it could fetch with its fuel
    reported further pages. *)
Theorem fetchPages_outcome (fuel : nat) (bc : Client W) (categoryId : Z) :
  forall (acc : list Product) (page : Z) (s : State W),
  exists (n : nat) (pages : list ProductsPage) (w' : W),
    (n <= fuel)%nat /\
    pagesFrom bc categoryId n page (world s) = (pages, w') /\
    List.length pages = n /\
    match fst (fetchPages fuel bc categoryId acc page s) with
    | Ok products =>
        stopsAtLast page pages /\
        products = (acc ++ flat_map data pages)%list /\
        snd (fetchPages fuel bc categoryId acc page s) =
        {| world := w';
           trace := (trace s ++ pageRequests categoryId n page)%list |}
    | Throw x =>
        allMore page pages /\
        (n < fuel)%nat /\
        x = ApiError (Products (page + Z.of_nat n) categoryId) /\
        exists w'',
          bc (Products (page + Z.of_nat n) categoryId) w' = (None, w'') /\
          snd (fetchPages fuel bc categoryId acc page s) =
          {| world := w'';
             trace := (trace s ++ pageRequests categoryId n page
                       ++ [Fetched (Products (page + Z.of_nat n) categoryId) false])%list |}
    | Timeout =>
        allMore page pages /\
        n = fuel /\
        snd (fetchPages fuel bc categoryId acc page s) =
        {| world := w';
           trace := (trace s ++ pageRequests categoryId n page)%list |}
    end.
Proof.
  induction fuel as [| fuel IH]; intros acc page s.
  - exists 0%nat, [], (world s). cbn.
    repeat split; auto. apply state_eta.
  - cbn [StockApi.fetchPages]. unfold bind, get.
    destruct (bc (Products page categoryId) (world s)) as [[response |] w1] eqn:Hget.
    + fold (hasMore page response).
      destruct (hasMore page response) eqn:Hmore.
      * destruct (IH (acc ++ data response)%list (page + 1)
                    (log (Fetched (Products page categoryId) true) s w1))
          as (n & pages & w' & Hn & Hpages & Hlen & Hres).
        cbn [world log] in Hpages.
        exists (S n), (response :: pages), w'.
        split; [lia |]. split; [cbn [pagesFrom]; rewrite Hget, Hpages; reflexivity |].
        split; [cbn; congruence |].
        replace (page + Z.of_nat (S n)) with (page + 1 + Z.of_nat n) by lia.
        destruct (fetchPages fuel bc categoryId (acc ++ data response)%list
                    (page + 1) (log (Fetched (Products page categoryId) true) s w1))
          as [[products | x |] s2]; cbn [fst snd] in *.
        -- destruct Hres as (Hstop & Hprod & Hs2).
           split; [apply stopsAtLast_cons; assumption |].
           split; [rewrite Hprod; cbn [flat_map]; rewrite app_assoc; reflexivity |].
           rewrite Hs2. cbn [trace log pageRequests].
           rewrite <- app_assoc. reflexivity.
        -- destruct Hres as (Hall & Hlt & Hx & w'' & Hfail & Hs2).
           split; [split; assumption |]. split; [lia |]. split; [exact Hx |].
           exists w''. split; [exact Hfail |].
           rewrite Hs2. cbn [trace log pageRequests].
           rewrite <- !app_assoc. reflexivity.
        -- destruct Hres as (Hall & Hfuel & Hs2).
           split; [split; assumption |]. split; [lia |].
           rewrite Hs2. cbn [trace log pageRequests].
           rewrite <- app_assoc. reflexivity.
      * exists 1%nat, [response], w1.
        split; [lia |]. split; [cbn [pagesFrom]; rewrite Hget; reflexivity |].
        split; [reflexivity |]. cbn [fst snd ret].
        split; [exact Hmore |].
        split; [cbn; rewrite app_nil_r; reflexivity | reflexivity].
    + exists 0%nat, [], (world s). cbn [fst snd].
      split; [lia |]. split; [reflexivity |]. split; [reflexivity |].
      split; [exact I |]. split; [lia |].
      replace (page + Z.of_nat 0) with page by lia.
      split; [reflexivity |]. exists w1. split; [exact Hget | reflexivity].
Qed.

(** X5.  When the first page reports no page count, or a count of at most
    1 (0 for an empty category), the fetcher sends this one request and
    returns the data of the page. *)
Theorem single_page_without_count (fuel : nat) (bc : Client W) (categoryId : Z)
    (s : State W) (response : ProductsPage) (w1 : W) :
  bc (Products 1 categoryId) (world s) = (Some response, w1) ->
  total_pages response = None \/
  (exists t, total_pages response = Some t /\ t <= 1) ->
  fetchPages (S fuel) bc categoryId [] 1 s =
  (Ok (data response),
   {| world := w1;
      trace := (trace s ++ [Fetched (Products 1 categoryId) true])%list |}).
Proof.
  intros Hget Htotal. cbn [StockApi.fetchPages]. unfold bind, get.
  rewrite Hget.
  assert (Hlast : (1 <? JS.or_num (total_pages response) 1) = false).
  { apply Z.ltb_ge. destruct Htotal as [E | (t & E & Ht)]; rewrite E; cbn.
    - lia.
    - destruct (Z.eqb_spec t 0); lia. }
  rewrite Hlast. reflexivity.
Qed.

(** ** The one bundle category *)

Lemma obeys_fetchPages_category (bc : Client W) (categoryId : Z) (fuel : nat) :
  forall (acc : list Product) (page : Z),
    obeys (pageOf categoryId) fatal (fetchPages fuel bc categoryId acc page).
Proof.
  induction fuel as [| fuel IH]; intros acc page; cbn [StockApi.fetchPages].
  - apply obeys_timeout.
  - apply obeys_bind.
    + apply obeys_get; [intros ok; reflexivity | cbn; tauto].
    + intros response. destruct (page <? _); [apply IH | apply obeys_ret].
Qed.

Lemma find_first {A : Type} (p : A -> bool) (l : list A) (x : A) :
  find p l = Some x ->
  exists pre post,
    l = (pre ++ x :: post)%list /\ p x = true /\
    forall y, In y pre -> p y = false.
Proof.
  induction l as [| a l IH]; cbn; [discriminate |].
  destruct (p a) eqn:E.
  - intros H. injection H as H. subst a. exists [], l.
    split; [reflexivity |]. split; [exact E |]. intros y [].
  - intros H. destruct (IH H) as (pre & post & Hl & Hx & Hpre).
    exists (a :: pre), post. split; [rewrite Hl; reflexivity |].
    split; [exact Hx |]. intros y [Hy | Hy]; [subst y; exact E | auto].
Qed.

(** X6.  On an authorized GET the first request is the one for the
    categories.  When no category is named "bundle" it is the only request;
    otherwise the category used is the first one with that name, in any
    letter case, and every page request of the run is for this category. *)
Theorem pages_of_first_bundle_category (fuel : nat) (req : NextApiRequest)
    (s : State W) (session : Session) (w0 w1 : W) (categories : list Category) :
  method req = "GET" ->
  getSession req (world s) = (Some (Some session), w0) ->
  clientOf session Categories w0 = (Some categories, w1) ->
  exists new,
    trace (snd (handler fuel req s)) =
      (trace s ++ Fetched Categories true :: new)%list /\
    match find is_bundle_category categories with
    | None => new = []
    | Some bundleCategory =>
        Forall (pageOf (cat_id bundleCategory)) new /\
        exists pre post,
          categories = (pre ++ bundleCategory :: post)%list /\
          is_bundle_category bundleCategory = true /\
          forall c, In c pre -> is_bundle_category c = false
    end.
Proof.
  intros Hm Hs Hc.
  rewrite (route_authorized fuel req s session w0 w1 categories Hm Hs Hc).
  destruct (find is_bundle_category categories) as [c |] eqn:Hfind.
  - match goal with
    | |- context [try_catch ?m ?h ?st] =>
        destruct (caught_answer (pageOf (cat_id c)) fatal m
                    {| status := 500; body := Message "Error fetching bundle stock" |})
          with (s := st) as (new & Ht & HP & _)
    end.
    + apply obeys_bind; [apply obeys_fetchPages_category | intros products].
      apply obeys_bind; [| intros bundles; apply obeys_ret].
      eapply obeys_weaken;
        [| | apply obeys_for_of; intros acc x; apply obeys_processProduct].
      * intros [[| p c' | | | |] ok |]; cbn; tauto.
      * cbn; tauto.
    + exists new. split.
      * unfold respond in *. rewrite Ht. cbn [trace].
        rewrite <- app_assoc. reflexivity.
      * split; [exact HP |]. apply find_first. exact Hfind.
  - exists []. split; reflexivity.
Qed.

(** ** The component resolver, further *)

Lemma component_answers (bc : Client W) (j : JS.json) (s : State W) :
  exists c s',
    answersReference j c /\
    forall comps, productBundleComponent bc comps j s = (Ok (push comps c), s').
Proof.
  destruct (component_pushed bc j s) as (c & s' & Hc & Hres).
  exists c, s'. split; [| exact Hc]. unfold StockApi.answersReference.
  destruct (detailFetch bc (parseLinkedProduct j) (world s)) as [inv |].
  - destruct Hres as (Hp & _ & Hq & _). split; assumption.
  - subst c. split; reflexivity.
Qed.

(** X7.  The component loop never throws and returns one component per
    reference of the linked list, in the order of the list, each with the
    product id and the quantity of its reference, whether its details could
    be fetched or not. *)
Theorem components_follow_references (e : Entity) (bc : Client W)
    (items : list JS.json) :
  forall s : State W,
  exists cs s',
    for_of (resolver e bc) items [] s = (Ok cs, s') /\
    Forall2 answersReference items cs.
Proof.
  rewrite resolver_agree.
  assert (H : forall (s : State W), exists cs s',
             Forall2 answersReference items cs /\
             forall acc,
               for_of (productBundleComponent bc) items acc s
               = (Ok (acc ++ cs)%list, s')).
  { induction items as [| j items IH]; intros s.
    - exists [], s. split; [constructor |]. intros acc. cbn.
      rewrite app_nil_r. reflexivity.
    - destruct (component_answers bc j s) as (c & s1 & Hans & Hc).
      destruct (IH s1) as (cs & s' & Hall & Hcs).
      exists (c :: cs), s'. split; [constructor; assumption |].
      intros acc. cbn [for_of]. unfold bind. rewrite Hc, Hcs. unfold push.
      rewrite <- app_assoc. reflexivity. }
  intros s. destruct (H s) as (cs & s' & Hall & Hrun).
  exists cs, s'. split; [apply (Hrun []) | exact Hall].
Qed.

(** X8.  A reference costs one or two requests.  Without a variant id (or
    with the variant id 0) the resolver requests the product alone; with a
    variant id it requests the variant and then, only if that succeeded, the
    parent product. *)
Theorem detail_requests_of_reference (e : Entity) (bc : Client W)
    (comps : list BundleComponent) (j : JS.json) (s : State W) :
  exists new,
    trace (snd (resolver e bc comps j s)) = (trace s ++ new)%list /\
    detailRequests (parseLinkedProduct j) new.
Proof.
  rewrite resolver_agree.
  unfold StockApi.productBundleComponent, detailRequests, try_catch, bind, get, ret.
  destruct (truthy_id (lp_variantId (parseLinkedProduct j))) as [vid |].
  - destruct (bc (VariantDetail _ vid) (world s)) as [[variant |] w1];
      cbn [fst snd world trace log].
    + destruct (bc (ProductDetail _) w1) as [[parent |] w2];
        cbn [fst snd world trace log]; rewrite <- app_assoc; eexists;
        (split; [reflexivity |]); right; eexists; reflexivity.
    + eexists. split; [reflexivity |]. left. reflexivity.
  - destruct (bc (ProductDetail _) (world s)) as [[p |] w1];
      cbn [fst snd world trace log]; eexists; (split; [reflexivity |]); eauto.
Qed.

(** The name given to a variant is never empty: without option
    values, or when their labels join to the empty text, it is "Variant". *)
Lemma variantName_not_empty (option_values : option (list OptionValue)) :
  variantName option_values <> "" /\
  (option_values = None \/ option_values = Some [] ->
   variantName option_values = "Variant").
Proof.
  split.
  - unfold variantName, JS.or_str. destruct option_values as [ovs |]; [| discriminate].
    destruct (String.eqb_spec (JS.join " - " (map label ovs)) "");
      [discriminate | assumption].
  - intros [E | E]; subst option_values; reflexivity.
Qed.

(** ** The bundle flag *)

(** X9.  Among the metafields, the first entry with the key "is_bundle" in
    the namespace "bundle" decides: the entity is flagged exactly when the
    value of that entry is the text "true".  Later entries with this key are
    not looked at. *)
Theorem isBundle_first_entry (metafields : list Metafield) :
  isBundle metafields = true <->
  exists pre f post,
    metafields = (pre ++ f :: post)%list /\
    (forall g, In g pre -> ~ (key g = "is_bundle" /\ namespace g = "bundle")) /\
    key f = "is_bundle" /\ namespace f = "bundle" /\ value f = "true".
Proof.
  assert (Hfield : forall f, is_bundle_field f = true <->
                             key f = "is_bundle" /\ namespace f = "bundle").
  { intros f. unfold is_bundle_field.
    rewrite andb_true_iff, !String.eqb_eq. reflexivity. }
  unfold isBundle. split.
  - destruct (find is_bundle_field metafields) as [f |] eqn:E; [| discriminate].
    intros Hv. apply String.eqb_eq in Hv.
    destruct (find_first _ _ _ E) as (pre & post & Hl & Hf & Hpre).
    apply Hfield in Hf. destruct Hf as [Hk Hn].
    exists pre, f, post. repeat split; auto.
    intros g Hg Hgf. apply Hfield in Hgf. rewrite (Hpre g Hg) in Hgf.
    discriminate.
  - intros (pre & f & post & Hl & Hpre & Hk & Hn & Hv). subst metafields.
    assert (Hfind : find is_bundle_field (pre ++ f :: post) = Some f).
    { induction pre as [| g pre IH]; cbn.
      - rewrite (proj2 (Hfield f) (conj Hk Hn)). reflexivity.
      - destruct (is_bundle_field g) eqn:Eg.
        + exfalso. apply (Hpre g (or_introl eq_refl)). apply Hfield. exact Eg.
        + apply IH. intros h Hh. apply Hpre. right. exact Hh. }
    rewrite Hfind, Hv. reflexivity.
Qed.

(** ** Stock and buildable bundles *)

(** X10.  For a reference with a positive quantity, the maxBundles of the
    component built from a fetched product is an integer, it does not
    decrease when the stock increases, and it is 0 exactly when the stock is
    non-negative and below the quantity.  This holds for the rounded
    division, whatever the size of the numbers; for the stock below the
    quantity to give 0, the two are numbers that JavaScript holds
    (doubles). *)
Theorem maxBundles_grows_with_stock (lp : LinkedProduct)
    (componentProduct componentProduct' : Product) :
  0 < lp_quantity lp ->
  exists q q',
    maxBundles (productComponent lp componentProduct) = JS.Num q /\
    maxBundles (productComponent lp componentProduct') = JS.Num q' /\
    (stock (productComponent lp componentProduct)
       <= stock (productComponent lp componentProduct') -> q <= q') /\
    (q = 0 -> 0 <= stock (productComponent lp componentProduct) < lp_quantity lp) /\
    (JS.is_double (stock (productComponent lp componentProduct)) = true ->
     JS.is_double (lp_quantity lp) = true ->
     0 <= stock (productComponent lp componentProduct) < lp_quantity lp ->
     q = 0).
Proof.
  intros Hq. cbn [maxBundles stock productComponent] in *.
  destruct (floor_div_num (JS.or_num (p_inventory_level componentProduct) 0)
              (lp_quantity lp)) as (q & Hdiv); [lia |].
  destruct (floor_div_num (JS.or_num (p_inventory_level componentProduct') 0)
              (lp_quantity lp)) as (q' & Hdiv'); [lia |].
  exists q, q'.
  split; [exact Hdiv |]. split; [exact Hdiv' |]. split; [| split].
  - intros Hle. exact (floor_div_mono _ _ _ _ _ Hq Hle Hdiv Hdiv').
  - exact (floor_div_zero_only _ _ _ Hq Hdiv).
  - intros Ds Dq Hlow. exact (floor_div_below _ _ _ Hlow Ds Dq Hdiv).
Qed.

(** ** The requests for metafields *)

Lemma obeys_component_details (bc : Client W) (comps : list BundleComponent)
    (j : JS.json) :
  obeys notMetafields (fun _ => False) (productBundleComponent bc comps j).
Proof.
  unfold StockApi.productBundleComponent. apply obeys_catch.
  - destruct (truthy_id _); repeat obeys_step.
  - intros e. obeys_step.
Qed.

Lemma filter_notMetafields (l : list Event) :
  Forall notMetafields l -> filter isMetafields l = [].
Proof.
  induction 1 as [| e l He _ IH]; [reflexivity |]. cbn [filter].
  destruct e as [[| | | | |] ok | src ok]; cbn in He |- *;
    try contradiction; exact IH.
Qed.

Lemma isMetafields_fetched (e : Entity) :
  isMetafields (metafieldsFetched e) = true.
Proof. destruct e; reflexivity. Qed.

(** A successful run for an entity asks once for its metafields, first. *)
Lemma entity_trace (bc : Client W) (e : Entity)
    (bundles r : list BundleStockInfo) (s s' : State W) :
  entityBundle bc e bundles s = (Ok r, s') ->
  exists rest,
    trace s' = (trace s ++ metafieldsFetched e :: rest)%list /\
    Forall notMetafields rest.
Proof.
  intros Hrun.
  destruct (fetchMetafields bc e (world s)) as [[mfs |] w1] eqn:Hf.
  - rewrite (fetchMetafields_get _ _ _ _ _ Hf) in Hrun.
    destruct (if isBundle mfs then find is_linked_field mfs else None)
      as [linkedField |].
    + revert Hrun. unfold bind at 1. unfold StockApi.parse.
      destruct (JSON_parse (value linkedField)) as [v |]; [| discriminate].
      unfold bind at 1. unfold iterable.
      destruct (JS.iterate v) as [items |]; [| discriminate].
      unfold ret at 1. unfold bind. rewrite resolver_agree.
      match goal with
      | |- context [for_of _ items [] ?st] =>
          destruct (obeys_for_of notMetafields (fun _ => False)
                      (productBundleComponent bc) items
                      (obeys_component_details bc) [] st)
            as (new & Ht & Hnew & _);
          destruct (for_of (productBundleComponent bc) items [] st)
            as [[cs | x |] s2]
      end; try discriminate.
      unfold ret. intros Hrun. injection Hrun as _ Hs. subst s'.
      cbn [snd trace log world] in Ht.
      exists (Parsed (value linkedField) true :: new). split.
      * rewrite Ht, <- !app_assoc. reflexivity.
      * constructor; [exact I | exact Hnew].
    + injection Hrun as _ Hs. subst s'. exists []. split; [reflexivity | constructor].
  - exfalso. revert Hrun.
    destruct e as [product | product variant]; cbn in Hf |- *;
      unfold StockApi.productBundle, StockApi.variantBundle, bind, get;
      rewrite Hf; discriminate.
Qed.

Lemma filter_entity_trace (e : Entity) (rest : list Event) :
  Forall notMetafields rest ->
  filter isMetafields (metafieldsFetched e :: rest) = [metafieldsFetched e].
Proof.
  intros H. cbn [filter]. rewrite isMetafields_fetched, (filter_notMetafields _ H).
  reflexivity.
Qed.

Lemma variants_metafields (bc : Client W) (product : Product)
    (variants : list Variant) :
  forall (acc r : list BundleStockInfo) (s s' : State W),
    for_of (variantBundle bc product) variants acc s = (Ok r, s') ->
    exists new,
      trace s' = (trace s ++ new)%list /\
      filter isMetafields new =
      map metafieldsFetched (map (EVariant product) variants).
Proof.
  induction variants as [| variant variants IH]; intros acc r s s' Hrun.
  - cbn in Hrun. injection Hrun as _ Hs. subst s'. exists [].
    split; [symmetry; apply app_nil_r | reflexivity].
  - cbn [for_of] in Hrun. unfold bind in Hrun.
    destruct (variantBundle bc product acc variant s) as [[acc1 | x |] s1] eqn:E;
      try discriminate.
    destruct (entity_trace bc (EVariant product variant) acc acc1 s s1 E)
      as (rest & Ht1 & Hrest).
    destruct (IH acc1 r s1 s' Hrun) as (new & Ht & Hnew).
    exists ((metafieldsFetched (EVariant product variant) :: rest) ++ new)%list.
    split.
    + rewrite Ht, Ht1, <- app_assoc. reflexivity.
    + rewrite filter_app, (filter_entity_trace _ _ Hrest), Hnew. reflexivity.
Qed.

Lemma product_metafields (bc : Client W) (product : Product)
    (acc r : list BundleStockInfo) (s s' : State W) :
  processProduct bc acc product s = (Ok r, s') ->
  exists new,
    trace s' = (trace s ++ new)%list /\
    filter isMetafields new =
    map metafieldsFetched
        (EProduct product :: map (EVariant product) (variantsOf product)).
Proof.
  unfold StockApi.processProduct, bind. intros Hrun.
  destruct (productBundle bc product acc s) as [[acc1 | x |] s1] eqn:E;
    try discriminate.
  destruct (entity_trace bc (EProduct product) acc acc1 s s1 E)
    as (rest & Ht1 & Hrest).
  assert (Hvariants : exists new,
             trace s' = (trace s1 ++ new)%list /\
             filter isMetafields new =
             map metafieldsFetched (map (EVariant product) (variantsOf product))).
  { unfold StockApi.variantBundles, variantsOf in *.
    destruct (p_variants product) as [variants |].
    - destruct variants as [| variant variants].
      + cbn in Hrun. injection Hrun as _ Hs. subst s'. exists [].
        split; [symmetry; apply app_nil_r | reflexivity].
      + replace (0 <? Z.of_nat (List.length (variant :: variants))) with true
          in Hrun by (symmetry; apply Z.ltb_lt; cbn [List.length]; lia).
        eapply variants_metafields. exact Hrun.
    - cbn in Hrun. injection Hrun as _ Hs. subst s'. exists [].
      split; [symmetry; apply app_nil_r | reflexivity]. }
  destruct Hvariants as (new & Ht & Hnew).
  exists ((metafieldsFetched (EProduct product) :: rest) ++ new)%list. split.
  - rewrite Ht, Ht1, <- app_assoc. reflexivity.
  - rewrite filter_app, (filter_entity_trace _ _ Hrest), Hnew. reflexivity.
Qed.

(** X11.  A loop over the products that returns has asked for the
    metafields of every product and of every variant, bundle or not, once
    each and in catalog order: each product, then its variants. *)
Theorem metafields_requested_for_every_entity (bc : Client W)
    (products : list Product) :
  forall (acc r : list BundleStockInfo) (s s' : State W),
    for_of (processProduct bc) products acc s = (Ok r, s') ->
    exists new,
      trace s' = (trace s ++ new)%list /\
      filter isMetafields new = map metafieldsFetched (entities products).
Proof.
  induction products as [| product products IH]; intros acc r s s' Hrun.
  - cbn in Hrun. injection Hrun as _ Hs. subst s'. exists [].
    split; [symmetry; apply app_nil_r | reflexivity].
  - cbn [for_of] in Hrun. unfold bind in Hrun.
    destruct (processProduct bc acc product s) as [[acc1 | x |] s1] eqn:E;
      try discriminate.
    destruct (product_metafields bc product acc acc1 s s1 E) as (new1 & Ht1 & H1).
    destruct (IH acc1 r s1 s' Hrun) as (new2 & Ht2 & H2).
    exists (new1 ++ new2)%list. split.
    + rewrite Ht2, Ht1, <- app_assoc. reflexivity.
    + rewrite filter_app, H1, H2. cbn [entities flat_map].
      rewrite map_app. reflexivity.
Qed.

End RouteProperties.

(** * Properties of the page *)

Section PageProperties.
Import StockPage.

(** ** The limiting threshold *)

Lemma fold_min_minimum (l : list Z) :
  forall x, isMinimum (fold_left Z.min l x) (x :: l).
Proof.
  induction l as [| y l IH]; intros x; cbn [fold_left].
  - split; [left; reflexivity |]. intros z [Hz | []]. lia.
  - destruct (IH (Z.min x y)) as [Hin Hle]. split.
    + destruct Hin as [Hin | Hin].
      * rewrite <- Hin. destruct (Z.min_spec x y) as [[_ E] | [_ E]]; rewrite E.
        -- left; reflexivity.
        -- right; left; reflexivity.
      * right; right; exact Hin.
    + intros z [Hz | [Hz | Hz]].
      * specialize (Hle (Z.min x y) (or_introl eq_refl)). lia.
      * specialize (Hle (Z.min x y) (or_introl eq_refl)). lia.
      * apply Hle. right. exact Hz.
Qed.

Lemma minMaxBundles_threshold (bundle : Bundle) :
  minMaxBundles bundle = JS.Num (thresholdOf bundle) /\
  isThreshold (thresholdOf bundle) bundle.
Proof.
  unfold thresholdOf, minMaxBundles, isThreshold.
  destruct (components bundle) as [| c cs]; cbn.
  - split; reflexivity.
  - split; [reflexivity |]. apply (fold_min_minimum (map maxBundles cs)).
Qed.

Lemma componentRows_marked (bundle : Bundle) (m : Z) (cs : list BundleComponent) :
  forall (idx : nat) (items : list Item),
    componentRows bundle (JS.Num m) cs idx items =
    (items ++ markedRows bundle m cs idx)%list.
Proof.
  induction cs as [| c cs IH]; intros idx items; cbn [componentRows markedRows].
  - symmetry. apply app_nil_r.
  - rewrite IH. unfold push. rewrite <- app_assoc. reflexivity.
Qed.

Lemma bundleRows_rowsOf (items : list Item) (bundle : Bundle) :
  bundleRows items bundle = (items ++ rowsOf thresholdOf bundle)%list.
Proof.
  unfold bundleRows, rowsOf.
  destruct (minMaxBundles_threshold bundle) as [Hmin _]. rewrite Hmin.
  destruct (truthy (isExpanded bundle)).
  - rewrite componentRows_marked. unfold push. rewrite <- app_assoc. reflexivity.
  - reflexivity.
Qed.

Lemma fold_bundleRows (l : list Bundle) :
  forall items,
    fold_left bundleRows l items = (items ++ flat_map (rowsOf thresholdOf) l)%list.
Proof.
  induction l as [| b l IH]; intros items; cbn [fold_left flat_map].
  - symmetry. apply app_nil_r.
  - rewrite IH, bundleRows_rowsOf, <- app_assoc. reflexivity.
Qed.

(** C8.  The table shows, for each bundle that passes the search filter,
    the bundle's row and, when the bundle is expanded, one row per component
    in order; there is a threshold for every bundle, which is what
    [minMaxBundles] computes: the minimum of maxBundles over the bundle's
    components, 0 when it has none; and a component row is marked as
    limiting exactly when the component's maxBundles equals the threshold of
    its bundle. *)
Theorem limiting_components_marked (st : PageState) :
  exists threshold : Bundle -> Z,
    (forall bundle,
        minMaxBundles bundle = JS.Num (threshold bundle) /\
        isThreshold (threshold bundle) bundle) /\
    getTableItems st =
    flat_map (rowsOf threshold)
             (filter (matchesSearch (searchQuery st)) (bundles st)).
Proof.
  exists thresholdOf. split; [apply minMaxBundles_threshold |].
  unfold getTableItems. apply (fold_bundleRows _ []).
Qed.

(** ** Expanding and collapsing *)

(** C10.  [toggleExpand] keeps the length and the order of the list of
    bundles and the rest of the page state; the bundle at each position keeps
    its id, name, sku, stock and components; its [isExpanded] flag is
    flipped when its id is the toggled id, and the bundle is unchanged
    otherwise. *)
Theorem toggleExpand_frame (bundleId : Z) (st : PageState) :
  List.length (bundles (toggleExpand bundleId st)) = List.length (bundles st) /\
  isLoading (toggleExpand bundleId st) = isLoading st /\
  error (toggleExpand bundleId st) = error st /\
  searchQuery (toggleExpand bundleId st) = searchQuery st /\
  forall (i : nat) (b : Bundle),
    nth_error (bundles st) i = Some b ->
    exists b',
      nth_error (bundles (toggleExpand bundleId st)) i = Some b' /\
      id b' = id b /\ b_name b' = b_name b /\ b_sku b' = b_sku b /\
      b_stock b' = b_stock b /\ components b' = components b /\
      (id b = bundleId ->
       truthy (isExpanded b') = negb (truthy (isExpanded b))) /\
      (id b <> bundleId -> b' = b).
Proof.
  unfold toggleExpand, setBundles. cbn [bundles isLoading error searchQuery].
  split; [apply length_map |]. do 3 (split; [reflexivity |]).
  intros i b Hb. rewrite nth_error_map, Hb. cbn [option_map].
  destruct (Z.eqb_spec (id b) bundleId) as [E | E].
  - exists (flipExpanded b). cbn. repeat split; auto.
    + destruct (isExpanded b) as [[|] |]; reflexivity.
    + intros H. contradiction.
  - exists b. repeat split; auto. intros H. contradiction.
Qed.

End PageProperties.

(** * Further properties of the page *)

Section SearchProperties.
Import StockPage.

(** ** The search filter, the table and the count *)

Lemma shownBundles_app (l1 l2 : list Item) :
  shownBundles (l1 ++ l2) = (shownBundles l1 ++ shownBundles l2)%list.
Proof. unfold shownBundles. apply flat_map_app. Qed.

Lemma shownBundles_markedRows (bundle : Bundle) (m : Z)
    (cs : list BundleComponent) :
  forall idx, shownBundles (markedRows bundle m cs idx) = [].
Proof.
  induction cs as [| c cs IH]; intros idx; cbn; [reflexivity | apply IH].
Qed.

Lemma shownBundles_rows (l : list Bundle) :
  shownBundles (flat_map (rowsOf thresholdOf) l) = l.
Proof.
  induction l as [| b l IH]; [reflexivity |].
  cbn [flat_map]. rewrite shownBundles_app, IH. unfold rowsOf.
  cbn [shownBundles flat_map app].
  destruct (truthy (isExpanded b)).
  - fold (shownBundles (markedRows b (thresholdOf b) (components b) 0)).
    rewrite shownBundles_markedRows. reflexivity.
  - reflexivity.
Qed.

Lemma getTableItems_rows (st : PageState) :
  getTableItems st =
  flat_map (rowsOf thresholdOf)
           (filter (matchesSearch (searchQuery st)) (bundles st)).
Proof. unfold getTableItems. apply (fold_bundleRows _ []). Qed.

(** X14.  The bundle rows of the table are the bundles that pass the search
    filter, each once and in the order of the list; with an empty query they
    are all the bundles. *)
Theorem table_shows_filtered_bundles (st : PageState) :
  shownBundles (getTableItems st) =
    filter (matchesSearch (searchQuery st)) (bundles st) /\
  (searchQuery st = "" -> shownBundles (getTableItems st) = bundles st).
Proof.
  rewrite getTableItems_rows, shownBundles_rows. split; [reflexivity |].
  intros E. unfold matchesSearch. rewrite E. cbn.
  induction (bundles st) as [| b l IH]; cbn; congruence.
Qed.

Lemma filtered_count_is_shown (st : PageState) :
  getFilteredBundlesCount st = List.length (shownBundles (getTableItems st)).
Proof.
  rewrite getTableItems_rows, shownBundles_rows.
  unfold getFilteredBundlesCount, matchesSearch.
  destruct (String.eqb (searchQuery st) "").
  - induction (bundles st) as [| b l IH]; cbn; congruence.
  - reflexivity.
Qed.

(** X15.  The count of the line "Showing X of Y bundles", which the page
    computes with a filter of its own, is the number of bundle rows of the
    table. *)
Theorem count_agrees_with_table (st : PageState) :
  getFilteredBundlesCount st = List.length (shownBundles (getTableItems st)).
Proof.
  rewrite getTableItems_rows, shownBundles_rows.
  unfold getFilteredBundlesCount, matchesSearch.
  destruct (String.eqb (searchQuery st) "").
  - induction (bundles st) as [| b l IH]; cbn; congruence.
  - reflexivity.
Qed.

Lemma markedRows_length (bundle : Bundle) (m : Z) (cs : list BundleComponent) :
  forall idx, List.length (markedRows bundle m cs idx) = List.length cs.
Proof.
  induction cs as [| c cs IH]; intros idx; cbn; [reflexivity |].
  rewrite IH. reflexivity.
Qed.

(** X16.  The table has one row per bundle that passes the filter, plus one
    row per component of those that are expanded. *)
Theorem table_length (st : PageState) :
  List.length (getTableItems st) =
  list_sum (map rowCount (filter (matchesSearch (searchQuery st)) (bundles st))).
Proof.
  rewrite getTableItems_rows.
  induction (filter (matchesSearch (searchQuery st)) (bundles st)) as [| b l IH].
  - reflexivity.
  - cbn [flat_map map list_sum]. rewrite length_app, IH.
    apply (f_equal (fun n => (n + list_sum (map rowCount l))%nat)).
    unfold rowsOf, rowCount. cbn [List.length]. f_equal.
    destruct (truthy (isExpanded b)); [apply markedRows_length | reflexivity].
Qed.

(** ** Expanding and collapsing, further *)

Lemma flipExpanded_thrice (b : Bundle) :
  flipExpanded (flipExpanded (flipExpanded b)) = flipExpanded b.
Proof.
  unfold flipExpanded. cbn. destruct (isExpanded b) as [[|] |]; reflexivity.
Qed.

Lemma flipExpanded_twice (b : Bundle) :
  sameBundle (flipExpanded (flipExpanded b)) b.
Proof.
  unfold sameBundle, flipExpanded. cbn.
  destruct (isExpanded b) as [[|] |]; repeat split; reflexivity.
Qed.

Lemma sameBundle_refl (b : Bundle) : sameBundle b b.
Proof. unfold sameBundle. repeat split; reflexivity. Qed.

(** X17.  Toggling the same bundle twice gives back the list of bundles, up
    to the way a collapsed flag is written, and toggling it three times is
    toggling it once. *)
Theorem toggleExpand_twice (bundleId : Z) (st : PageState) :
  Forall2 sameBundle
    (bundles (toggleExpand bundleId (toggleExpand bundleId st))) (bundles st) /\
  toggleExpand bundleId (toggleExpand bundleId (toggleExpand bundleId st)) =
  toggleExpand bundleId st.
Proof.
  unfold toggleExpand, setBundles. cbn [bundles isLoading error searchQuery].
  split.
  - induction (bundles st) as [| b l IH]; cbn [map]; constructor; [| exact IH].
    destruct (Z.eqb_spec (id b) bundleId) as [E | E].
    + cbn [flipExpanded id]. destruct (Z.eqb_spec (id b) bundleId); [| contradiction].
      apply flipExpanded_twice.
    + destruct (Z.eqb_spec (id b) bundleId); [contradiction |].
      apply sameBundle_refl.
  - f_equal. rewrite !map_map. apply map_ext. intros b.
    destruct (Z.eqb_spec (id b) bundleId) as [E | E].
    + cbn [flipExpanded id]. destruct (Z.eqb_spec (id b) bundleId); [| contradiction].
      cbn [flipExpanded id]. destruct (Z.eqb_spec (id b) bundleId); [| contradiction].
      apply flipExpanded_thrice.
    + destruct (Z.eqb_spec (id b) bundleId); [contradiction |].
      destruct (Z.eqb_spec (id b) bundleId); [contradiction | reflexivity].
Qed.

(** X18.  Toggles commute: the order in which two bundles are toggled does
    not matter. *)
Theorem toggleExpand_commutes (id1 id2 : Z) (st : PageState) :
  toggleExpand id1 (toggleExpand id2 st) = toggleExpand id2 (toggleExpand id1 st).
Proof.
  unfold toggleExpand, setBundles. cbn [bundles isLoading error searchQuery].
  f_equal. rewrite !map_map. apply map_ext. intros b.
  destruct (id b =? id2) eqn:E2; destruct (id b =? id1) eqn:E1;
    cbn [flipExpanded id]; rewrite ?E1, ?E2; reflexivity.
Qed.

Lemma filter_map_same {A : Type} (p : A -> bool) (f : A -> A) (l : list A) :
  (forall x, p (f x) = p x) ->
  filter p (map f l) = map f (filter p l).
Proof.
  intros H. induction l as [| x l IH]; cbn; [reflexivity |].
  rewrite H. destruct (p x); cbn; congruence.
Qed.

(** X19.  Toggling a bundle changes neither which bundles the table lists
    nor the count of the search line. *)
Theorem toggleExpand_keeps_selection (bundleId : Z) (st : PageState) :
  map id (shownBundles (getTableItems (toggleExpand bundleId st))) =
    map id (shownBundles (getTableItems st)) /\
  getFilteredBundlesCount (toggleExpand bundleId st) = getFilteredBundlesCount st.
Proof.
  assert (Hsel :
    filter (matchesSearch (searchQuery st))
           (bundles (toggleExpand bundleId st)) =
    map (fun bundle => if id bundle =? bundleId then flipExpanded bundle else bundle)
        (filter (matchesSearch (searchQuery st)) (bundles st))).
  { unfold toggleExpand, setBundles. cbn [bundles].
    apply filter_map_same. intros b. destruct (id b =? bundleId); reflexivity. }
  assert (Hshown :
    shownBundles (getTableItems (toggleExpand bundleId st)) =
    map (fun bundle => if id bundle =? bundleId then flipExpanded bundle else bundle)
        (shownBundles (getTableItems st))).
  { rewrite !getTableItems_rows, !shownBundles_rows. exact Hsel. }
  split.
  - rewrite Hshown, map_map. apply map_ext. intros b.
    destruct (id b =? bundleId); reflexivity.
  - rewrite !filtered_count_is_shown, Hshown. apply length_map.
Qed.

(** ** The limiting rows *)

Lemma markedRows_row (bundle : Bundle) (m : Z) (cs : list BundleComponent)
    (c : BundleComponent) :
  In c cs ->
  forall idx, exists idx',
    In (ComponentRow (id bundle) idx' (name c) (sku c) (stock c) (quantity c)
          (maxBundles c) (maxBundles c =? m))
       (markedRows bundle m cs idx).
Proof.
  induction cs as [| c' cs IH]; intros Hin idx; [contradiction |].
  destruct Hin as [E | Hin].
  - subst c'. exists idx. left. reflexivity.
  - destruct (IH Hin (S idx)) as (idx' & H). exists idx'. right. exact H.
Qed.

Lemma threshold_reached (bundle : Bundle) :
  components bundle <> [] ->
  exists c, In c (components bundle) /\ maxBundles c = thresholdOf bundle.
Proof.
  intros Hne. destruct (minMaxBundles_threshold bundle) as [_ Hth].
  unfold isThreshold, isMinimum in Hth.
  destruct (components bundle) as [| c0 cs] eqn:E; [contradiction |].
  destruct Hth as [Hin _]. apply in_map_iff in Hin.
  destruct Hin as (c & Hc & Hin). exists c. split; [exact Hin | exact Hc].
Qed.

(** X20.  A listed bundle that is expanded and has components has at least
    one row marked as limiting. *)
Theorem expanded_bundle_has_limiting_row (st : PageState) (bundle : Bundle) :
  In bundle (bundles st) ->
  matchesSearch (searchQuery st) bundle = true ->
  truthy (isExpanded bundle) = true ->
  components bundle <> [] ->
  exists idx name sku stock quantity maxBundles,
    In (ComponentRow (id bundle) idx name sku stock quantity maxBundles true)
       (getTableItems st).
Proof.
  intros Hin Hmatch Hexp Hne.
  destruct (threshold_reached bundle Hne) as (c & Hc & Hmax).
  destruct (markedRows_row bundle (thresholdOf bundle) (components bundle) c Hc 0%nat)
    as (idx & Hrow).
  rewrite Hmax, Z.eqb_refl in Hrow.
  exists idx, (name c), (sku c), (stock c), (quantity c), (thresholdOf bundle).
  rewrite getTableItems_rows. apply in_flat_map. exists bundle. split.
  - apply filter_In. split; assumption.
  - unfold rowsOf. rewrite Hexp. right. exact Hrow.
Qed.

(** ** Loading and rendering *)

(** X21.  Once the request of the page has come to an end, the page is no
    longer loading.  If the request succeeded, the bundles are those of the
    body (none if it has no list) and the error is left as it was, so an
    earlier error is still displayed; otherwise the bundles are kept and the
    error that was caught is displayed. *)
Theorem fetchBundleStock_rendered (outcome : Outcome) (st : PageState) :
  isLoading (fetchBundleStock outcome st) = false /\
  searchQuery (fetchBundleStock outcome st) = searchQuery st /\
  match succeeded outcome with
  | Some data =>
      bundles (fetchBundleStock outcome st) = bundlesOf data /\
      error (fetchBundleStock outcome st) = error st /\
      (forall e, error st = Some e ->
                 render (fetchBundleStock outcome st) = ErrorMessage e)
  | None =>
      bundles (fetchBundleStock outcome st) = bundles st /\
      render (fetchBundleStock outcome st) = ErrorMessage (caught outcome)
  end.
Proof.
  unfold fetchBundleStock, render.
  destruct outcome as [err | [|] [err | data]]; cbn;
    repeat split; try reflexivity.
  intros e He. rewrite He. reflexivity.
Qed.

(** The effect does nothing without a context (absent or empty): a
    page that has just mounted keeps showing the loading indicator. *)
Lemma effect_needs_context (fetch : string -> Outcome)
    (context : option string) (st : PageState) :
  context = None \/ context = Some "" ->
  effect fetch context st = st /\
  (isLoading st = true -> render (effect fetch context st) = Loading).
Proof.
  intros [E | E]; subst context; cbn; (split; [reflexivity |]);
    intros H; unfold render; rewrite H; reflexivity.
Qed.

Lemma filter_none {A : Type} (p : A -> bool) (l : list A) :
  (forall x, In x l -> p x = false) -> filter p l = [].
Proof.
  induction l as [| x l IH]; intros H; cbn; [reflexivity |].
  rewrite (H x (or_introl eq_refl)). apply IH. intros y Hy. apply H. right. exact Hy.
Qed.

(** X22.  The box "No bundles found" depends on the list of bundles, not on
    the search: when there are bundles and none passes the filter, the page
    shows the empty table under the line "Showing 0 of Y bundles". *)
Theorem no_match_renders_empty_table (st : PageState) (b0 : Bundle) :
  isLoading st = false ->
  error st = None ->
  In b0 (bundles st) ->
  (forall b, In b (bundles st) -> matchesSearch (searchQuery st) b = false) ->
  render st = Panel (Some (0%nat, List.length (bundles st))) (Table []).
Proof.
  intros Hload Herr Hin Hnone.
  assert (Hq : String.eqb (searchQuery st) "" = false).
  { destruct (String.eqb (searchQuery st) "") eqn:E; [| reflexivity].
    pose proof (Hnone b0 Hin) as H. unfold matchesSearch in H. rewrite E in H.
    discriminate. }
  assert (Hfilter : filter (matchesSearch (searchQuery st)) (bundles st) = [])
    by (apply filter_none; exact Hnone).
  unfold render. rewrite Hload, Herr, Hq.
  rewrite filtered_count_is_shown, getTableItems_rows, Hfilter.
  cbn [flat_map shownBundles List.length].
  destruct (bundles st) as [| b l]; [contradiction | reflexivity].
Qed.

End SearchProperties.

(** * The properties on the concrete store *)

Import StockApi.

(** The division on a few operands: exact below 2^53, rounded to 53 bits
    beyond. *)
Example floor_div_values :
  JS.floor_div 10 2 = JS.Num 5 /\
  JS.floor_div 7 2 = JS.Num 3 /\
  JS.floor_div 1 3 = JS.Num 0 /\
  JS.floor_div (-7) 2 = JS.Num (-4) /\
  JS.floor_div 10 (-2) = JS.Num (-5) /\
  JS.floor_div 9007199254740991 2 = JS.Num 4503599627370495 /\
  JS.floor_div 11258999068426244 5 = JS.Num 2251799813685249 /\
  JS.floor_div 10 0 = JS.PosInfinity /\
  JS.floor_div 0 0 = JS.NaN.
Proof. repeat split; vm_compute; reflexivity. Qed.

(** A loop over a string visits its code points, not its bytes. *)
Example iterate_code_points :
  JS.iterate (JS.JStr ("a" ++ PageScenario.e_acute ++ "b")%string) =
  Some [JS.JStr "a"; JS.JStr PageScenario.e_acute; JS.JStr "b"].
Proof. reflexivity. Qed.

(** The client of the store ["shop"], and the route's pieces on it. *)
Local Abbreviation shopClient := (Scenario.bigcommerceClient "token" "shop").
Local Abbreviation shopResolver :=
  (resolver unit BundleCalculator.parseLinkedProduct).
Local Abbreviation shopEntityBundle :=
  (entityBundle unit Scenario.JSON_parse BundleCalculator.parseLinkedProduct).

(** The session and the categories of the store ["shop"], and the entity
    whose linked list refers to the missing product 99. *)
Local Abbreviation shopSession := {| accessToken := "token"; storeHash := "shop" |}.
Local Abbreviation shopCategories :=
  [ {| cat_id := 3; cat_name := Some "Shirts" |};
    {| cat_id := 7; cat_name := Some "Bundle" |} ].
Local Abbreviation zetaRed := (EVariant Scenario.P2 Scenario.variant111).

(** The placeholder for the reference to product 99. *)
Local Abbreviation unknown99 :=
  {| productId := 99; variantId := None; name := "Unknown Component";
     sku := "N/A"; quantity := 1; stock := 0; maxBundles := JS.Num 0 |}.

(** Product 20 has 10 units in stock; a bundle that takes 2 of it can be
    built 5 times. *)
Lemma maxBundles_is_floor_shop :
  0 < lp_quantity (BundleCalculator.parseLinkedProduct (Scenario.reference 20 None 2)) /\
  detailFetch shopClient
    (BundleCalculator.parseLinkedProduct (Scenario.reference 20 None 2))
    (world Scenario.start) = Some (Some 10) /\
  0 <= JS.or_num (Some 10) 0 < 2 ^ 53 /\
  exists c s' q,
    shopResolver (EProduct Scenario.P1) shopClient [] (Scenario.reference 20 None 2)
      Scenario.start = (Ok ([] ++ [c])%list, s') /\
    quantity c = 2 /\
    stock c = 10 /\
    maxBundles c = JS.Num q /\
    is_floor (stock c) (quantity c) q /\
    0 <= q.
Proof.
  split; [reflexivity |]. split; [reflexivity |]. split; [cbn; lia |].
  apply (maxBundles_is_floor unit BundleCalculator.parseLinkedProduct
           (EProduct Scenario.P1) shopClient [] (Scenario.reference 20 None 2)
           Scenario.start (Some 10)); [reflexivity | reflexivity | cbn; lia].
Defined.

(** C1 as stated fails.  Take a reference with the quantity 5 to a product
    of which 11258999068426244 are in stock.  The quotient
    2251799813685248.8 is rounded to the double 2251799813685249 before
    [Math.floor]: the component built at lines 122-129 has maxBundles =
    2251799813685249, one more than floor(stock / quantity).  So does the
    route on the store ["depot"], whose bundle 15 has this reference: the
    detail fetch succeeds and the answer holds this component. *)
Lemma maxBundles_above_floor_for_large_stock :
  exists c,
    c = productComponent
          {| lp_productId := 40; lp_variantId := None; lp_quantity := 5 |}
          (Scenario.simple 40 "Grain" "C40" (Some 11258999068426244)) /\
    c = {| productId := 40; variantId := None; name := "Grain"; sku := "C40";
           quantity := 5; stock := 11258999068426244;
           maxBundles := JS.Num 2251799813685249 |} /\
    fst (Scenario.route 1 (Scenario.GET "depot")) =
    Ok {| status := 200;
          body := Bundles [ {| b_id := 15; b_name := "Pallet"; b_sku := "PAL";
                               b_stock := 1; components := [c] |} ] |} /\
    0 < quantity c /\
    is_floor (stock c) (quantity c) 2251799813685248 /\
    ~ (exists q, maxBundles c = JS.Num q /\ is_floor (stock c) (quantity c) q).
Proof.
  eexists. split; [reflexivity |]. split; [vm_compute; reflexivity |].
  split; [vm_compute; reflexivity |].
  split; [reflexivity |]. split; [unfold is_floor; cbn; lia |].
  intros (q & Hq & Hfloor). vm_compute in Hq. injection Hq as <-.
  unfold is_floor in Hfloor. cbn in Hfloor. lia.
Qed.

(** A reference to product 20 (10 in stock) with the quantity -2. *)
Lemma nonpositive_quantity_divided_shop :
  lp_quantity (BundleCalculator.parseLinkedProduct (Scenario.reference 20 None (-2)))
    <= 0 /\
  detailFetch shopClient
    (BundleCalculator.parseLinkedProduct (Scenario.reference 20 None (-2)))
    (world Scenario.start) = Some (Some 10) /\
  0 <= JS.or_num (Some 10) 0 < 2 ^ 53 /\
  exists c s',
    shopResolver (EProduct Scenario.P1) shopClient []
      (Scenario.reference 20 None (-2)) Scenario.start
    = (Ok ([] ++ [c])%list, s') /\
    quantity c = -2 /\
    stock c = 10 /\
    maxBundles c = JS.floor_div (stock c) (quantity c) /\
    (quantity c = 0 ->
     maxBundles c = if stock c =? 0 then JS.NaN else JS.PosInfinity) /\
    (quantity c < 0 ->
     exists q, maxBundles c = JS.Num q /\
               (q + 1) * quantity c < stock c <= q * quantity c /\
               q <= 0).
Proof.
  split; [cbn; lia |]. split; [reflexivity |]. split; [cbn; lia |].
  apply (nonpositive_quantity_divided unit BundleCalculator.parseLinkedProduct
           (EProduct Scenario.P1) shopClient [] (Scenario.reference 20 None (-2))
           Scenario.start (Some 10)); [cbn; lia | reflexivity | cbn; lia].
Defined.

(** C2 as stated fails.  For a reference to a product with 10 in stock,
    lines 122-129 build a component with maxBundles = floor(10 / -2) = -5
    when the parsed quantity is -2, and with maxBundles = Infinity when it is
    0.  So does the route on the store ["shop"]: the linked list of variant
    111 has, after a reference to product 30 and one to the missing product
    99, a reference with the quantity -2 to product 20 (10 in stock), one
    with the quantity 0 to product 20, and one with the quantity 0 to
    product 21 (0 in stock).  The three components of the answer have
    maxBundles -5, Infinity and NaN: none is clamped to 0. *)
Lemma nonpositive_quantity_not_clamped :
  exists first b,
    maxBundles
      (productComponent
         {| lp_productId := 20; lp_variantId := None; lp_quantity := -2 |}
         (Scenario.simple 20 "Widget" "C20" (Some 10))) = JS.Num (-5) /\
    maxBundles
      (productComponent
         {| lp_productId := 20; lp_variantId := None; lp_quantity := 0 |}
         (Scenario.simple 20 "Widget" "C20" (Some 10))) = JS.PosInfinity /\
    fst (Scenario.route 3 (Scenario.GET "shop")) =
    Ok {| status := 200; body := Bundles [first; b] |} /\
    b_id b = 111 /\
    components b =
    [ {| productId := 30; variantId := None; name := "Bolt"; sku := "C30";
         quantity := 2; stock := 7; maxBundles := JS.Num 3 |};
      unknown99;
      {| productId := 20; variantId := None; name := "Widget"; sku := "C20";
         quantity := -2; stock := 10; maxBundles := JS.Num (-5) |};
      {| productId := 20; variantId := None; name := "Widget"; sku := "C20";
         quantity := 0; stock := 10; maxBundles := JS.PosInfinity |};
      {| productId := 21; variantId := None; name := "Gadget"; sku := "C21";
         quantity := 0; stock := 0; maxBundles := JS.NaN |} ] /\
    (forall c, In c (components b) -> quantity c <= 0 ->
               maxBundles c <> JS.Num 0) /\
    ~ (forall c, In c (components b) -> quantity c <= 0 ->
                 maxBundles c = JS.Num 0).
Proof.
  eexists. eexists. split; [vm_compute; reflexivity |].
  split; [vm_compute; reflexivity |]. split; [vm_compute; reflexivity |].
  split; [reflexivity |]. split; [reflexivity |]. split.
  - intros c [E | [E | [E | [E | [E | []]]]]] Hq; subst c; cbn in Hq |- *;
      try lia; discriminate.
  - intros H.
    assert (Hmax : JS.Num (-5) = JS.Num 0).
    { apply (H {| productId := 20; variantId := None; name := "Widget";
                  sku := "C20"; quantity := -2; stock := 10;
                  maxBundles := JS.Num (-5) |}).
      - right. right. left. reflexivity.
      - cbn. lia. }
    discriminate Hmax.
Qed.

(** The bundle of variant 111 lists product 30, the missing product 99 and
    three further references: the placeholder stands between the component
    collected before it and the three collected after it, and the answer of
    the route has the record of the variant after that of product 10. *)
Lemma failed_component_isolated_shop :
  exists fetched outs1 se cs1 s1,
    fetchPages unit 3 shopClient 7 [] 1 (categoriesFetched Scenario.start tt)
    = (Ok [Scenario.P1; Scenario.P2; Scenario.P3], fetched) /\
    contributions unit Scenario.JSON_parse BundleCalculator.parseLinkedProduct
      shopClient [EProduct Scenario.P1; EProduct Scenario.P2] fetched outs1 se /\
    map (option_map b_id) outs1 = [Some 10; None] /\
    for_of (shopResolver zetaRed shopClient) [Scenario.reference 30 None 2] []
      (loopStart zetaRed se tt Scenario.linked111) = (Ok cs1, s1) /\
    detailFetch shopClient
      (BundleCalculator.parseLinkedProduct (Scenario.reference 99 None 1))
      (world s1) = None /\
    exists s2 cs2 s3 b,
      shopResolver zetaRed shopClient cs1 (Scenario.reference 99 None 1) s1
      = (Ok (cs1 ++ [unknown99])%list, s2) /\
      for_of (shopResolver zetaRed shopClient)
        [Scenario.reference 20 None (-2); Scenario.reference 20 None 0;
         Scenario.reference 21 None 0] [] s2 = (Ok cs2, s3) /\
      (forall bundles,
          shopEntityBundle shopClient zetaRed bundles se
          = (Ok (bundles ++ [b])%list, s3)) /\
      recordOf zetaRed b /\
      components b = (cs1 ++ unknown99 :: cs2)%list /\
      (forall outs2 s',
          contributions unit Scenario.JSON_parse BundleCalculator.parseLinkedProduct
            shopClient
            [EVariant Scenario.P2 Scenario.variant112; EProduct Scenario.P3]
            s3 outs2 s' ->
          Scenario.route 3 (Scenario.GET "shop") =
          (Ok {| status := 200;
                 body := Bundles (present outs1 ++ b :: present outs2)%list |}, s')).
Proof.
  do 5 eexists.
  match goal with |- ?A /\ _ => assert (Hpages : A) by (vm_compute; reflexivity) end.
  split; [exact Hpages |].
  match goal with |- ?A /\ _ => assert (Hes1 : A) end.
  { eapply contributions_cons with (o := Some _);
      [vm_compute; reflexivity | repeat split |].
    eapply contributions_cons with (o := None);
      [vm_compute; reflexivity | exact I |].
    apply contributions_nil. }
  split; [exact Hes1 |]. split; [reflexivity |].
  match goal with |- ?A /\ _ => assert (Hbefore : A) by (vm_compute; reflexivity) end.
  split; [exact Hbefore |]. split; [reflexivity |].
  exact (failed_component_isolated unit Scenario.JSON_parse
           BundleCalculator.parseLinkedProduct Scenario.getSession
           Scenario.bigcommerceClient 3 (Scenario.GET "shop") Scenario.start
           shopSession tt tt shopCategories
           {| cat_id := 7; cat_name := Some "Bundle" |}
           [Scenario.P1; Scenario.P2; Scenario.P3] _
           [EProduct Scenario.P1; EProduct Scenario.P2]
           [EVariant Scenario.P2 Scenario.variant112; EProduct Scenario.P3]
           zetaRed _ _
           [ Scenario.mf "linked_product_ids" Scenario.linked111;
             Scenario.mf "is_bundle" "true" ]
           tt
           (Scenario.mf "linked_product_ids" Scenario.linked111)
           (JS.JArr [Scenario.reference 30 None 2; Scenario.reference 99 None 1;
                     Scenario.reference 20 None (-2); Scenario.reference 20 None 0;
                     Scenario.reference 21 None 0])
           [Scenario.reference 30 None 2]
           [Scenario.reference 20 None (-2); Scenario.reference 20 None 0;
            Scenario.reference 21 None 0]
           (Scenario.reference 99 None 1)
           _ _
           eq_refl eq_refl eq_refl eq_refl Hpages eq_refl Hes1
           eq_refl eq_refl eq_refl eq_refl eq_refl Hbefore eq_refl).
Defined.

(** Product 12 is flagged as a bundle and has no linked list. *)
Lemma flagged_without_linked_list_skipped_shop :
  fetchMetafields shopClient (EProduct Scenario.P3) (world Scenario.start)
    = (Some [Scenario.mf "is_bundle" "true"], tt) /\
  shopEntityBundle shopClient (EProduct Scenario.P3) [] Scenario.start =
  (Ok [], log (Fetched (ProductMetafields 12) true) Scenario.start tt).
Proof.
  split; [reflexivity |].
  apply (flagged_without_linked_list_skipped unit Scenario.JSON_parse
           BundleCalculator.parseLinkedProduct shopClient (EProduct Scenario.P3) []
           Scenario.start [Scenario.mf "is_bundle" "true"] tt).
  - reflexivity.
  - exists (Scenario.mf "is_bundle" "true").
    split; [left; reflexivity |]. repeat split; reflexivity.
  - intros f [Hf | []] [_ Hkey]. subst f. discriminate Hkey.
Defined.

(** The store ["broken"]: the metafields of its one product cannot be
    fetched. *)
Lemma fatal_failure_answers_500_broken :
  trace (snd (Scenario.route 5 (Scenario.GET "broken"))) =
    (trace Scenario.start ++
     [ Fetched Categories true; Fetched (Products 1 9) true;
       Fetched (ProductMetafields 13) false ])%list /\
  Exists fatal [ Fetched Categories true; Fetched (Products 1 9) true;
                 Fetched (ProductMetafields 13) false ] /\
  fst (Scenario.route 5 (Scenario.GET "broken")) =
  Ok {| status := 500; body := Message "Error fetching bundle stock" |}.
Proof.
  assert (Hfatal : Exists fatal [ Fetched Categories true;
                                  Fetched (Products 1 9) true;
                                  Fetched (ProductMetafields 13) false ]).
  { apply Exists_cons_tl, Exists_cons_tl, Exists_cons_hd. exact I. }
  split; [reflexivity |]. split; [exact Hfatal |].
  apply (fatal_failure_answers_500 unit Scenario.JSON_parse
           BundleCalculator.parseLinkedProduct Scenario.getSession
           Scenario.bigcommerceClient 5 (Scenario.GET "broken") Scenario.start
           _ eq_refl Hfatal).
Defined.

(** A linked list that does not parse fails the request as well. *)
Example garbled_list_answers_500 :
  Scenario.route 5 (Scenario.GET "garbled") =
  (Ok {| status := 500; body := Message "Error fetching bundle stock" |},
   {| world := tt;
      trace := [ Fetched Categories true; Fetched (Products 1 9) true;
                 Fetched (ProductMetafields 14) true;
                 Parsed Scenario.garbledList false ] |}).
Proof. reflexivity. Qed.

(** Without a session the route answers 401, on another method 405, and a
    store without a bundle category has no bundle. *)
Example route_guards :
  fst (Scenario.route 5 (Scenario.GET "")) =
    Ok {| status := 401; body := Message "Unauthorized" |} /\
  fst (Scenario.route 5 {| method := "POST"; query_context := "shop" |}) =
    Ok {| status := 405; body := Message "Method not allowed" |} /\
  fst (Scenario.route 5 (Scenario.GET "elsewhere")) =
    Ok {| status := 200; body := Bundles [] |}.
Proof. repeat split; reflexivity. Qed.

(** The end-to-end example of the specification: the bundle of product 10
    takes 2 of product 20 (10 in stock) and 1 of variant 5 of product 21 (3 in
    stock). *)
Example route_shop_first_bundle :
  exists rest s',
    Scenario.route 3 (Scenario.GET "shop") =
    (Ok {| status := 200;
           body := Bundles
             ({| b_id := 10; b_name := "P1"; b_sku := "BDL-1"; b_stock := 5;
                 components :=
                   [ {| productId := 20; variantId := None; name := "Widget";
                        sku := "C20"; quantity := 2; stock := 10;
                        maxBundles := JS.Num 5 |};
                     {| productId := 21; variantId := Some 5;
                        name := "Gadget - Small"; sku := "C21-5";
                        quantity := 1; stock := 3;
                        maxBundles := JS.Num 3 |} ] |} :: rest) |}, s') /\
    map b_id rest = [111].
Proof. eexists. eexists. split; reflexivity. Qed.

(** With too little fuel the pagination loop is still running. *)
Example route_shop_out_of_fuel :
  fst (Scenario.route 2 (Scenario.GET "shop")) = Timeout.
Proof. reflexivity. Qed.

(** The store ["bare"]: a bundle category without products. *)
Lemma empty_catalog_answers_no_bundles_bare :
  fst (Scenario.route 1 (Scenario.GET "bare")) =
  Ok {| status := 200; body := Bundles [] |}.
Proof.
  apply (empty_catalog_answers_no_bundles unit Scenario.JSON_parse
           BundleCalculator.parseLinkedProduct Scenario.getSession
           Scenario.bigcommerceClient 1 (Scenario.GET "bare") Scenario.start
           {| accessToken := "token"; storeHash := "bare" |} tt tt
           [ {| cat_id := 4; cat_name := Some "bundle" |} ]
           eq_refl eq_refl eq_refl).
  right.
  exists {| cat_id := 4; cat_name := Some "bundle" |},
         {| data := []; total_pages := Some 0 |}, tt.
  split; [reflexivity |]. split; [apply le_n |].
  split; [reflexivity |]. split; [reflexivity |]. cbn. lia.
Defined.

(** Every page of category 7 of the store ["shop"] reports three pages. *)
Lemma shop_reports_three_pages (page : Z) (w : unit) :
  exists response w',
    shopClient (Products page 7) w = (Some response, w') /\
    total_pages response = Some (Z.of_nat 3).
Proof.
  unfold Scenario.bigcommerceClient. cbn.
  destruct (page =? 1); [eexists; eexists; split; reflexivity |].
  destruct (page =? 2); [eexists; eexists; split; reflexivity |].
  destruct (page =? 3); eexists; eexists; split; reflexivity.
Defined.

(** The three pages of the store ["shop"] are requested in order and their
    products concatenated. *)
Lemma pagination_fetches_every_page_shop :
  exists fetched rest,
    trace fetched =
      [ Fetched Categories true; Fetched (Products 1 7) true;
        Fetched (Products 2 7) true; Fetched (Products 3 7) true ] /\
    fetchPages unit 3 shopClient 7 [] 1 (categoriesFetched Scenario.start tt)
      = (Ok [Scenario.P1; Scenario.P2; Scenario.P3], fetched) /\
    trace (snd (Scenario.route 3 (Scenario.GET "shop")))
      = (trace fetched ++ rest)%list /\
    Forall notPage rest.
Proof.
  destruct (pagination_fetches_every_page unit Scenario.JSON_parse
              BundleCalculator.parseLinkedProduct Scenario.getSession
              Scenario.bigcommerceClient 3 3 (Scenario.GET "shop")
              Scenario.start
              {| accessToken := "token"; storeHash := "shop" |} tt tt
              [ {| cat_id := 3; cat_name := Some "Shirts" |};
                {| cat_id := 7; cat_name := Some "Bundle" |} ]
              {| cat_id := 7; cat_name := Some "Bundle" |}
              eq_refl eq_refl eq_refl eq_refl (le_S _ _ (le_S _ _ (le_n 1)))
              (le_n 3) shop_reports_three_pages)
    as (pages & fetched & rest & Hpages & Hlen & Htrace & Hrun & Hroute & Hrest & Hnot).
  exists fetched, rest.
  vm_compute in Hpages. injection Hpages as Hp Hw. subst pages.
  split; [exact Htrace |]. split; [exact Hrun |].
  split; [exact Hrest | exact Hnot].
Defined.

(** The products of the store ["shop"] in page order, with their variants:
    product 10 contributes its record, product 11 nothing, its variant 111 a
    record, its variant 112 nothing, product 12 nothing; the route answers
    200 with the two records in this order. *)
Lemma bundles_follow_catalog_order_shop :
  exists fetched outs s',
    fetchPages unit 3 shopClient 7 [] 1 (categoriesFetched Scenario.start tt)
    = (Ok [Scenario.P1; Scenario.P2; Scenario.P3], fetched) /\
    contributions unit Scenario.JSON_parse BundleCalculator.parseLinkedProduct
      shopClient (entities [Scenario.P1; Scenario.P2; Scenario.P3]) fetched outs s' /\
    Forall2 contributes (entities [Scenario.P1; Scenario.P2; Scenario.P3]) outs /\
    Scenario.route 3 (Scenario.GET "shop") =
    (Ok {| status := 200; body := Bundles (present outs) |}, s') /\
    map b_id (present outs) = [10; 111].
Proof.
  eexists.
  assert (Hpages :
    fetchPages unit 3 shopClient 7 [] 1 (categoriesFetched Scenario.start tt)
    = (Ok [Scenario.P1; Scenario.P2; Scenario.P3], _)) by (vm_compute; reflexivity).
  destruct (bundles_follow_catalog_order unit Scenario.JSON_parse
              BundleCalculator.parseLinkedProduct Scenario.getSession
              Scenario.bigcommerceClient 3 (Scenario.GET "shop") Scenario.start
              shopSession tt tt shopCategories
              {| cat_id := 7; cat_name := Some "Bundle" |}
              [Scenario.P1; Scenario.P2; Scenario.P3] _
              eq_refl eq_refl eq_refl eq_refl Hpages)
    as [(x & s' & Hthrow & _) | (outs & s' & Hc & Hf & Hrun)].
  - vm_compute in Hthrow. discriminate Hthrow.
  - exists outs, s'. split; [exact Hpages |]. split; [exact Hc |].
    split; [exact Hf |]. split; [exact Hrun |].
    generalize (present outs) Hrun. intros bundles Hbundles.
    vm_compute in Hbundles. injection Hbundles as Hb _. subst bundles.
    reflexivity.
Defined.

(** On the store ["garbled"] the answer 500 comes from the linked list of
    product 14. *)
Lemma answer_500_has_cause_garbled :
  exists new,
    trace (snd (Scenario.route 5 (Scenario.GET "garbled"))) =
      (trace Scenario.start ++ new)%list /\
    Exists (cause Scenario.JSON_parse) new.
Proof.
  destruct (answer_500_has_cause unit Scenario.JSON_parse
              BundleCalculator.parseLinkedProduct Scenario.getSession
              Scenario.bigcommerceClient 5 (Scenario.GET "garbled")
              Scenario.start eq_refl) as [(w0 & H) | H].
  - discriminate H.
  - exact H.
Defined.

(** A GET without a session on the store of the scenario. *)
Lemma guards_before_catalog_unauthorized :
  Scenario.route 5 (Scenario.GET "") =
  (Ok {| status := 401; body := Message "Unauthorized" |},
   {| world := tt; trace := [] |}).
Proof.
  apply (proj1 (proj2 (guards_before_catalog unit Scenario.JSON_parse
                         BundleCalculator.parseLinkedProduct Scenario.getSession
                         Scenario.bigcommerceClient 5 (Scenario.GET "")
                         Scenario.start)) tt); reflexivity.
Defined.

(** The one page of the store ["bare"] reports 0 pages. *)
Lemma single_page_without_count_bare :
  fetchPages unit 1 (Scenario.bigcommerceClient "token" "bare") 4 [] 1
    Scenario.start =
  (Ok [], {| world := tt; trace := [Fetched (Products 1 4) true] |}).
Proof.
  apply (single_page_without_count unit 0 (Scenario.bigcommerceClient "token" "bare")
           4 Scenario.start {| data := []; total_pages := Some 0 |} tt).
  - reflexivity.
  - right. exists 0. split; [reflexivity | lia].
Defined.

(** The store ["shop"] has the categories "Shirts" and "Bundle": the pages
    requested are those of category 7. *)
Lemma pages_of_first_bundle_category_shop :
  exists new,
    trace (snd (Scenario.route 3 (Scenario.GET "shop"))) =
      (trace Scenario.start ++ Fetched Categories true :: new)%list /\
    Forall (pageOf 7) new.
Proof.
  destruct (pages_of_first_bundle_category unit Scenario.JSON_parse
              BundleCalculator.parseLinkedProduct Scenario.getSession
              Scenario.bigcommerceClient 3 (Scenario.GET "shop") Scenario.start
              {| accessToken := "token"; storeHash := "shop" |} tt tt
              [ {| cat_id := 3; cat_name := Some "Shirts" |};
                {| cat_id := 7; cat_name := Some "Bundle" |} ]
              eq_refl eq_refl eq_refl) as (new & Ht & Hnew).
  exists new. split; [exact Ht |]. exact (proj1 Hnew).
Defined.

(** Two of product 20 per bundle, with 1 and then 13 units in stock. *)
Lemma maxBundles_grows_with_stock_example :
  exists q q',
    maxBundles (productComponent
                  (BundleCalculator.parseLinkedProduct (Scenario.reference 20 None 2))
                  (Scenario.simple 20 "Widget" "C20" (Some 1))) = JS.Num q /\
    maxBundles (productComponent
                  (BundleCalculator.parseLinkedProduct (Scenario.reference 20 None 2))
                  (Scenario.simple 20 "Widget" "C20" (Some 13))) = JS.Num q' /\
    (1 <= 13 -> q <= q') /\
    (q = 0 -> 0 <= 1 < 2) /\
    (JS.is_double 1 = true -> JS.is_double 2 = true -> 0 <= 1 < 2 -> q = 0).
Proof.
  apply (maxBundles_grows_with_stock
           (BundleCalculator.parseLinkedProduct (Scenario.reference 20 None 2))
           (Scenario.simple 20 "Widget" "C20" (Some 1))
           (Scenario.simple 20 "Widget" "C20" (Some 13))).
  cbn. lia.
Defined.

(** The products of the store ["shop"]: five requests for metafields. *)
Lemma metafields_requested_for_every_entity_shop :
  exists r s' new,
    for_of (processProduct unit Scenario.JSON_parse BundleCalculator.parseLinkedProduct
              shopClient)
      [Scenario.P1; Scenario.P2; Scenario.P3] [] Scenario.start = (Ok r, s') /\
    trace s' = (trace Scenario.start ++ new)%list /\
    filter isMetafields new =
    [ Fetched (ProductMetafields 10) true; Fetched (ProductMetafields 11) true;
      Fetched (VariantMetafields 11 111) true;
      Fetched (VariantMetafields 11 112) true;
      Fetched (ProductMetafields 12) true ].
Proof.
  eexists. eexists.
  assert (Hrun :
    for_of (processProduct unit Scenario.JSON_parse BundleCalculator.parseLinkedProduct
              shopClient)
      [Scenario.P1; Scenario.P2; Scenario.P3] [] Scenario.start
    = (Ok _, _)) by (vm_compute; reflexivity).
  destruct (metafields_requested_for_every_entity unit Scenario.JSON_parse
              BundleCalculator.parseLinkedProduct shopClient
              [Scenario.P1; Scenario.P2; Scenario.P3] [] _ Scenario.start _ Hrun)
    as (new & Ht & Hnew).
  exists new. split; [exact Hrun |]. split; [exact Ht | exact Hnew].
Defined.

Import StockPage.

(** The second bundle of the page is toggled. *)
Lemma toggleExpand_frame_example :
  nth_error (bundles PageScenario.page) 1 = Some PageScenario.zeta /\
  exists b',
    nth_error (bundles (toggleExpand 111 PageScenario.page)) 1 = Some b' /\
    id b' = 111 /\ b_name b' = "Zeta - Red - Large" /\ b_sku b' = "Z-RED" /\
    b_stock b' = 4 /\ components b' = [] /\
    (id PageScenario.zeta = 111 ->
     truthy (isExpanded b') = negb (truthy (isExpanded PageScenario.zeta))) /\
    (id PageScenario.zeta <> 111 -> b' = PageScenario.zeta).
Proof.
  split; [reflexivity |].
  apply (proj2 (proj2 (proj2 (proj2 (toggleExpand_frame 111 PageScenario.page))))
           1%nat PageScenario.zeta).
  reflexivity.
Defined.

(** The table of the page: the threshold of the first bundle is 3, reached
    by its second and third components; the second bundle is collapsed. *)
Example getTableItems_page :
  getTableItems PageScenario.page =
  [ BundleRow 10 "P1" "BDL-1" 5 PageScenario.p1;
    ComponentRow 10 0 "Widget" "C20" 10 2 5 false;
    ComponentRow 10 1 "Gadget - Small" "C21-5" 3 1 3 true;
    ComponentRow 10 2 "Spare" "C22" 12 4 3 true;
    BundleRow 111 "Zeta - Red - Large" "Z-RED" 4 PageScenario.zeta ] /\
  minMaxBundles PageScenario.zeta = JS.Num 0.
Proof. split; reflexivity. Qed.

(** The search on concrete bundles: by name in another letter case, by
    SKU, without a match, and with a letter of the Latin-1 supplement (the
    query "e acute" finds the name "CAFE Kit" written with a capital E
    acute). *)
Example matchesSearch_page :
  matchesSearch "ZETA" PageScenario.zeta = true /\
  matchesSearch "z-r" PageScenario.zeta = true /\
  matchesSearch "bdl" PageScenario.zeta = false /\
  matchesSearch PageScenario.e_acute PageScenario.cafe = true /\
  matchesSearch "" PageScenario.cafe = true.
Proof. repeat split; reflexivity. Qed.

(** The first bundle of the page is expanded and has three components. *)
Lemma expanded_bundle_has_limiting_row_page :
  exists idx name sku stock quantity maxBundles,
    In (ComponentRow 10 idx name sku stock quantity maxBundles true)
       (getTableItems PageScenario.page).
Proof.
  apply (expanded_bundle_has_limiting_row PageScenario.page PageScenario.p1).
  - left. reflexivity.
  - reflexivity.
  - reflexivity.
  - discriminate.
Defined.

(** The page of the scenario, once loaded, searched for a text that no
    bundle holds. *)
Lemma no_match_renders_empty_table_page :
  render (setSearchQuery "socks" (setIsLoading false PageScenario.page)) =
  Panel (Some (0%nat, 2%nat)) (Table []).
Proof.
  apply (no_match_renders_empty_table
           (setSearchQuery "socks" (setIsLoading false PageScenario.page))
           PageScenario.p1).
  - reflexivity.
  - reflexivity.
  - left. reflexivity.
  - intros b [E | [E | []]]; subst b; reflexivity.
Defined.
